(** * Insider-activity convergence engine: weights, detector, store, backtester

    A shallow embedding of the TypeScript sources
      - analysis/convergence.ts   (ConvergenceAnalyzer)
      - types/analysis.ts         (weight tables)
      - db/database.ts            (Database, the JSON-backed store)
      - backtest/backtester.ts    (Backtester)
      - runPaperTrading.ts        (the time-decay weights)
      - paperTrading/autoTrader.ts (executePick)
    followed by the properties of the specification and further properties
    of the code, each stated over these definitions.

    Conventions of the embedding.
      - A JavaScript [number] is a value of [JsNum.num]: an exact rational or
        one of NaN, +Infinity, -Infinity.  Division by zero, the absorbing
        NaN and the comparisons that are false on NaN are those of
        JavaScript; rounding of binary64 and the sign of zero are not
        modelled.  The properties about amounts of money are therefore
        equalities of the expressions the code computes, or inequalities
        that rounding to nearest, being monotone, keeps.
      - A [Date] that is only read is its time value in milliseconds (a [Z]);
        the one [Date] object that is mutated and shared ([currentDate] of
        [runBacktest]) lives in a heap and is handled through its location.
        The local time zone is UTC, so a calendar day is 86400000 ms; the
        properties about dates leave a margin of whole days where the time
        zone could matter.
      - In [Database] every stored date is the [Date] it came in as, which
        is the store within one run; [DatabaseOnDisk] has the date fields
        as they are after the JSON file is read back.
      - Strings are [string]; case conversion covers the ASCII letters, and
        the property about it is stated for ASCII strings. *)

From Stdlib Require Import ZArith QArith Qround Lia Lqa List String Ascii Bool.
From Stdlib Require Import Permutation Sorted.
Import ListNotations.

Set Implicit Arguments.

(* ================================================================== *)
(** * Part I. The embedding                                            *)
(* ================================================================== *)

(** ** JavaScript numbers *)

Module JsNum.

Inductive num : Type :=
| Fin (q : Q)
| PInf
| NInf
| NaN.

Definition ofZ (z : Z) : num := Fin (inject_Z z).

Definition inf_of (c : comparison) : num :=
  match c with Gt => PInf | Lt => NInf | Eq => NaN end.

Definition neg (x : num) : num :=
  match x with
  | Fin q => Fin (- q)
  | PInf => NInf
  | NInf => PInf
  | NaN => NaN
  end.

Definition add (x y : num) : num :=
  match x, y with
  | NaN, _ | _, NaN => NaN
  | Fin a, Fin b => Fin (a + b)
  | PInf, NInf | NInf, PInf => NaN
  | PInf, _ | _, PInf => PInf
  | NInf, _ | _, NInf => NInf
  end.

Definition sub (x y : num) : num := add x (neg y).

Definition mul (x y : num) : num :=
  match x, y with
  | NaN, _ | _, NaN => NaN
  | Fin a, Fin b => Fin (a * b)
  | Fin a, PInf | PInf, Fin a => inf_of (a ?= 0)
  | Fin a, NInf | NInf, Fin a => inf_of (CompOpp (a ?= 0))
  | PInf, PInf | NInf, NInf => PInf
  | PInf, NInf | NInf, PInf => NInf
  end.

(** [x / y]: a zero divisor gives an infinity of the sign of [x], and NaN
    for [0 / 0]. *)
Definition div (x y : num) : num :=
  match x, y with
  | NaN, _ | _, NaN => NaN
  | Fin a, Fin b => if Qeq_bool b 0 then inf_of (a ?= 0) else Fin (a / b)
  | Fin _, PInf | Fin _, NInf => Fin 0
  | PInf, Fin b => if Qle_bool 0 b then PInf else NInf
  | NInf, Fin b => if Qle_bool 0 b then NInf else PInf
  | _, _ => NaN
  end.

(** [Math.floor] *)
Definition floor (x : num) : num :=
  match x with
  | Fin q => Fin (inject_Z (Qfloor q))
  | _ => x
  end.

(** Three-way comparison; [None] when an operand is NaN. *)
Definition cmp (x y : num) : option comparison :=
  match x, y with
  | NaN, _ | _, NaN => None
  | Fin a, Fin b => Some (a ?= b)
  | PInf, PInf | NInf, NInf => Some Eq
  | NInf, _ | _, PInf => Some Lt
  | _, _ => Some Gt
  end.

Definition ltb (x y : num) : bool :=
  match cmp x y with Some Lt => true | _ => false end.
Definition leb (x y : num) : bool :=
  match cmp x y with Some Lt | Some Eq => true | _ => false end.
Definition gtb (x y : num) : bool := ltb y x.
Definition geb (x y : num) : bool := leb y x.

(** [Math.max] and [Math.min] of two arguments. *)
Definition max (x y : num) : num :=
  match cmp x y with
  | None => NaN
  | Some Lt => y
  | Some _ => x
  end.

Definition min (x y : num) : num :=
  match cmp x y with
  | None => NaN
  | Some Gt => y
  | Some _ => x
  end.

(** Truthiness of a number: [0] and NaN are falsy. *)
Definition truthy (x : num) : bool :=
  match x with
  | Fin q => negb (Qeq_bool q 0)
  | NaN => false
  | _ => true
  end.

(** [x || y] on numbers. *)
Definition or (x y : num) : num := if truthy x then x else y.

Definition is_fin (x : num) : bool :=
  match x with Fin _ => true | _ => false end.

End JsNum.

Import JsNum.

Declare Scope num_scope.
Delimit Scope num_scope with num.
Bind Scope num_scope with num.
Infix "+" := add : num_scope.
Infix "-" := sub : num_scope.
Infix "*" := mul : num_scope.
Infix "/" := div : num_scope.
Infix "<?" := ltb : num_scope.
Infix "<=?" := leb : num_scope.
Infix ">?" := gtb : num_scope.
Infix ">=?" := geb : num_scope.

(** ** Strings: [toUpperCase], [toLowerCase], [includes] *)

Module JsString.

Definition upper_ascii (c : ascii) : ascii :=
  let n := nat_of_ascii c in
  if (Nat.leb 97 n && Nat.leb n 122)%bool then ascii_of_nat (n - 32) else c.

Definition lower_ascii (c : ascii) : ascii :=
  let n := nat_of_ascii c in
  if (Nat.leb 65 n && Nat.leb n 90)%bool then ascii_of_nat (n + 32) else c.

Fixpoint map_string (f : ascii -> ascii) (s : string) : string :=
  match s with
  | EmptyString => EmptyString
  | String c s' => String (f c) (map_string f s')
  end.

Definition toUpperCase : string -> string := map_string upper_ascii.
Definition toLowerCase : string -> string := map_string lower_ascii.

(** [s.includes(sub)] *)
Fixpoint includes (s sub : string) : bool :=
  (String.prefix sub s ||
   match s with
   | EmptyString => false
   | String _ s' => includes s' sub
   end)%bool.

End JsString.

Import JsString.

(** ** types/transactions.ts and types/analysis.ts *)

Inductive TransactionType := BUY | SELL | EXERCISE | GIFT | OTHER.
Inductive ChangeType := INCREASE | DECREASE | NEW | SOLD_OUT | NO_CHANGE.

(** The string a [TransactionType] is at run time. *)
Definition TransactionType_str (t : TransactionType) : string :=
  match t with
  | BUY => "BUY" | SELL => "SELL" | EXERCISE => "EXERCISE"
  | GIFT => "GIFT" | OTHER => "OTHER"
  end%string.

Record AmountRange := { rmin : num; rmax : num }.

Record InsiderTransaction := {
  i_id : option string;
  i_ticker : string;
  i_companyName : option string;
  insiderName : string;
  insiderTitle : string;
  i_transactionType : TransactionType;
  i_shares : num;
  i_pricePerShare : num;
  i_transactionDate : Z;
  i_filingDate : Z
}.

Record CongressTransaction := {
  c_id : option string;
  c_ticker : string;
  memberName : string;
  c_committees : option (list string);
  c_transactionType : string;
  c_transactionDate : Z;
  c_disclosureDate : Z;
  c_amountRange : AmountRange
}.

Record InstitutionalHolding := {
  h_id : option string;
  h_ticker : string;
  institutionName : string;
  institutionCIK : string;
  h_companyName : option string;
  h_shares : num;
  h_value : num;
  h_filingDate : Z;
  h_reportDate : Z;
  h_changeType : option ChangeType;
  h_ownershipPercent : option num
}.

Record InsiderWeightInput := {
  wi_insiderTitle : string;
  wi_transactionType : string;
  wi_shares : num;
  wi_pricePerShare : num
}.

Record CongressWeightInput := {
  wc_memberName : string;
  wc_committees : option (list string);
  wc_transactionType : string;
  wc_amountRange : AmountRange
}.

(** The decimal literal [n/d], e.g. [frac 3 2] for [1.5]. *)
Definition frac (n d : Z) : num := Fin (Qmake n (Z.to_pos d)).

Definition INSIDER_WEIGHTS : list (string * num) :=
  [ ("CEO", ofZ 10); ("CFO", ofZ 9); ("COO", ofZ 8); ("President", ofZ 8);
    ("Chief Executive Officer", ofZ 10); ("Chief Financial Officer", ofZ 9);
    ("Chief Operating Officer", ofZ 8); ("Director", ofZ 5);
    ("Officer", ofZ 6); ("10% Owner", ofZ 7); ("VP", ofZ 4);
    ("Vice President", ofZ 4); ("Secretary", ofZ 3); ("Treasurer", ofZ 4);
    ("General", ofZ 3) ]%string.

Definition CONGRESS_COMMITTEE_WEIGHTS : list (string * num) :=
  [ ("Finance", ofZ 10); ("Banking", ofZ 10); ("Ways and Means", ofZ 9);
    ("Financial Services", ofZ 9); ("Commerce", ofZ 8); ("Energy", ofZ 8);
    ("Armed Services", ofZ 7); ("Intelligence", ofZ 8); ("Judiciary", ofZ 6);
    ("Appropriations", ofZ 7) ]%string.

Module TRANSACTION_SIZE_MULTIPLIERS.
Definition small : num := ofZ 1.
Definition medium : num := frac 3 2.
Definition large : num := ofZ 2.
Definition xlarge : num := ofZ 3.
Definition mega : num := ofZ 5.
End TRANSACTION_SIZE_MULTIPLIERS.

Inductive BuyerType :=
  T_CEO | T_CFO | T_Director | T_Officer | T_Owner10 | T_Congress | T_Institution.

Record RecentBuyer := {
  b_name : string;
  b_type : BuyerType;
  b_date : Z;
  b_amount : option num;
  b_amountRange : option AmountRange
}.

Record SignalDetails := {
  insiderBuys : nat;
  congressBuys : nat;
  institutionalIncreases : nat
}.

Record ConvergenceSignal := {
  ticker : string;
  companyName : option string;
  date : Z;
  convergenceScore : num;
  insiderScore : num;
  congressScore : num;
  institutionalScore : num;
  convergenceBonus : num;
  signals : SignalDetails;
  recentBuyers : list RecentBuyer
}.

(** ** analysis/convergence.ts: the weight calculator *)

Module ConvergenceAnalyzer.

(** The loop over [Object.entries(INSIDER_WEIGHTS)]. *)
Definition insiderBaseWeight (insiderTitle : string) : num :=
  let titleUpper := toUpperCase insiderTitle in
  fold_left
    (fun baseWeight (e : string * num) =>
       if includes titleUpper (toUpperCase (fst e))
       then max baseWeight (snd e) else baseWeight)
    INSIDER_WEIGHTS (ofZ 3).

Definition insiderTxMultiplier (transactionType : string) : num :=
  if String.eqb transactionType "BUY" then frac 3 2
  else if String.eqb transactionType "SELL" then frac 3 10
  else ofZ 1.

Definition sizeMultiplier (totalValue : num) : num :=
  if (totalValue >=? ofZ 5000000)%num then TRANSACTION_SIZE_MULTIPLIERS.mega
  else if (totalValue >=? ofZ 1000000)%num then TRANSACTION_SIZE_MULTIPLIERS.xlarge
  else if (totalValue >=? ofZ 250000)%num then TRANSACTION_SIZE_MULTIPLIERS.large
  else if (totalValue >=? ofZ 50000)%num then TRANSACTION_SIZE_MULTIPLIERS.medium
  else TRANSACTION_SIZE_MULTIPLIERS.small.

Definition calculateInsiderWeight (input : InsiderWeightInput) : num :=
  let baseWeight := insiderBaseWeight (wi_insiderTitle input) in
  let txMultiplier := insiderTxMultiplier (wi_transactionType input) in
  let totalValue := (wi_shares input * wi_pricePerShare input)%num in
  (baseWeight * txMultiplier * sizeMultiplier totalValue)%num.

(** The two nested loops over the committees and the committee table. *)
Definition committeeBonus (committees : list string) : num :=
  fold_left
    (fun bonus committee =>
       fold_left
         (fun bonus (e : string * num) =>
            if includes (toLowerCase committee) (toLowerCase (fst e))
            then max bonus (snd e) else bonus)
         CONGRESS_COMMITTEE_WEIGHTS bonus)
    committees (ofZ 0).

Definition calculateCongressWeight (input : CongressWeightInput) : num :=
  let committees := match wc_committees input with Some l => l | None => [] end in
  let baseWeight := ofZ 5 in
  let txMultiplier :=
    if String.eqb (wc_transactionType input) "PURCHASE" then frac 3 2 else frac 1 2 in
  let avgAmount :=
    ((rmin (wc_amountRange input) + rmax (wc_amountRange input)) / ofZ 2)%num in
  let amountMultiplier :=
    if (avgAmount >=? ofZ 1000000)%num then ofZ 3
    else if (avgAmount >=? ofZ 250000)%num then ofZ 2
    else if (avgAmount >=? ofZ 50000)%num then frac 3 2
    else ofZ 1 in
  ((baseWeight + committeeBonus committees) * txMultiplier * amountMultiplier)%num.

Definition calculateInstitutionalWeight (holding : InstitutionalHolding) : num :=
  let baseWeight := ofZ 5 in
  let baseWeight :=
    match h_changeType holding with
    | Some NEW => (baseWeight * ofZ 2)%num
    | Some INCREASE => (baseWeight * frac 3 2)%num
    | Some DECREASE | Some SOLD_OUT => (baseWeight * frac 3 10)%num
    | _ => baseWeight
    end in
  let valueMillions := (h_value holding / ofZ 1000000)%num in
  let baseWeight :=
    if (valueMillions >=? ofZ 1000)%num then (baseWeight * ofZ 3)%num
    else if (valueMillions >=? ofZ 100)%num then (baseWeight * ofZ 2)%num
    else if (valueMillions >=? ofZ 10)%num then (baseWeight * frac 3 2)%num
    else baseWeight in
  match h_ownershipPercent holding with
  | Some p =>
      if (truthy p && (p >=? ofZ 10)%num)%bool then (baseWeight * frac 3 2)%num
      else baseWeight
  | None => baseWeight
  end.

(** *** detectConvergence *)

Record Activity := {
  insider : list InsiderTransaction;
  congress : list CongressTransaction;
  institutional : list InstitutionalHolding
}.

Definition noActivity : Activity :=
  {| insider := []; congress := []; institutional := [] |}.

(** [tickerActivity] is a plain object used as a map; [Object.entries]
    lists its keys in insertion order (tickers are stock symbols, not
    numeric index strings nor names of [Object.prototype] members), so it is
    an association list.  [touch k f m] is
    [if (!m[k]) m[k] = {insider: [], ...}; f(m[k])]. *)
Fixpoint touch (k : string) (f : Activity -> Activity)
    (m : list (string * Activity)) : list (string * Activity) :=
  match m with
  | [] => [(k, f noActivity)]
  | (k', a) :: m' =>
      if String.eqb k' k then (k', f a) :: m' else (k', a) :: touch k f m'
  end.

Definition pushInsider (tx : InsiderTransaction) (a : Activity) : Activity :=
  {| insider := insider a ++ [tx]; congress := congress a;
     institutional := institutional a |}.
Definition pushCongress (tx : CongressTransaction) (a : Activity) : Activity :=
  {| insider := insider a; congress := congress a ++ [tx];
     institutional := institutional a |}.
Definition pushInstitutional (h : InstitutionalHolding) (a : Activity) : Activity :=
  {| insider := insider a; congress := congress a;
     institutional := institutional a ++ [h] |}.

Definition groupByTicker
    (insiderTransactions : list InsiderTransaction)
    (congressTransactions : list CongressTransaction)
    (institutionalHoldings : list InstitutionalHolding)
  : list (string * Activity) :=
  let m := fold_left (fun m tx => touch (i_ticker tx) (pushInsider tx) m)
             insiderTransactions [] in
  let m := fold_left (fun m tx => touch (c_ticker tx) (pushCongress tx) m)
             congressTransactions m in
  fold_left (fun m h => touch (h_ticker h) (pushInstitutional h) m)
    institutionalHoldings m.

(** [Array.prototype.sort] is stable; [after x y] is "the comparator is
    positive on [(x, y)]", that is, [x] has to come after [y]. *)
Section Sort.
Variable A : Type.
Variable after : A -> A -> bool.

Fixpoint insertSorted (x : A) (l : list A) : list A :=
  match l with
  | [] => [x]
  | y :: l' => if after x y then y :: insertSorted x l' else x :: l
  end.

Definition sort (l : list A) : list A := fold_right insertSorted [] l.
End Sort.

Definition getInsiderType (title : string) : BuyerType :=
  let titleUpper := toUpperCase title in
  if (includes titleUpper "CEO" || includes titleUpper "CHIEF EXECUTIVE")%bool
  then T_CEO
  else if (includes titleUpper "CFO" || includes titleUpper "CHIEF FINANCIAL")%bool
  then T_CFO
  else if (includes titleUpper "10%" || includes titleUpper "TEN PERCENT")%bool
  then T_Owner10
  else if includes titleUpper "DIRECTOR" then T_Director
  else T_Officer.

Definition isInsiderBuy (t : InsiderTransaction) : bool :=
  String.eqb (TransactionType_str (i_transactionType t)) "BUY".
Definition isCongressBuy (t : CongressTransaction) : bool :=
  String.eqb (c_transactionType t) "PURCHASE".
Definition isInstitutionalIncrease (h : InstitutionalHolding) : bool :=
  match h_changeType h with
  | Some INCREASE | Some NEW => true
  | _ => false
  end.

Definition insiderWeightOf (tx : InsiderTransaction) : num :=
  calculateInsiderWeight
    {| wi_insiderTitle := insiderTitle tx;
       wi_transactionType := TransactionType_str (i_transactionType tx);
       wi_shares := i_shares tx;
       wi_pricePerShare := i_pricePerShare tx |}.

Definition congressWeightOf (tx : CongressTransaction) : num :=
  calculateCongressWeight
    {| wc_memberName := memberName tx;
       wc_committees := c_committees tx;
       wc_transactionType := c_transactionType tx;
       wc_amountRange := c_amountRange tx |}.

(** [let s = 0; for (const x of l) s += w(x)] *)
Definition sumWeights {A} (w : A -> num) (l : list A) : num :=
  fold_left (fun s x => (s + w x)%num) l (ofZ 0).

(** [[b1, b2, b3].filter(Boolean).length] *)
Definition countTrue (bs : list bool) : nat := List.length (filter (fun b => b) bs).

Definition bonusOf (activeCategories : nat) : num :=
  if Nat.leb 3 activeCategories then ofZ 30
  else if Nat.leb 2 activeCategories then ofZ 15
  else ofZ 0.

(** [a || b] on optional strings: the empty string is falsy. *)
Definition orString (a b : option string) : option string :=
  match a with
  | Some s => if String.eqb s "" then b else a
  | None => b
  end.

Definition insiderBuyer (tx : InsiderTransaction) : RecentBuyer :=
  {| b_name := insiderName tx; b_type := getInsiderType (insiderTitle tx);
     b_date := i_transactionDate tx;
     b_amount := Some (i_shares tx * i_pricePerShare tx)%num;
     b_amountRange := None |}.
Definition congressBuyer (tx : CongressTransaction) : RecentBuyer :=
  {| b_name := memberName tx; b_type := T_Congress;
     b_date := c_transactionDate tx;
     b_amount := None; b_amountRange := Some (c_amountRange tx) |}.
Definition institutionBuyer (h : InstitutionalHolding) : RecentBuyer :=
  {| b_name := institutionName h; b_type := T_Institution;
     b_date := h_filingDate h;
     b_amount := Some (h_value h); b_amountRange := None |}.

(** The body of the loop over [Object.entries(tickerActivity)]: the signal
    built for one ticker, and whether it is pushed ([convergenceScore > 10]). *)
Definition signalOf (now : Z) (tk : string) (activity : Activity)
  : option ConvergenceSignal :=
  let insiderBuys := filter isInsiderBuy (insider activity) in
  let congressBuys := filter isCongressBuy (congress activity) in
  let institutionalIncreases :=
    filter isInstitutionalIncrease (institutional activity) in
  let insiderScore := sumWeights insiderWeightOf insiderBuys in
  let congressScore := sumWeights congressWeightOf congressBuys in
  let institutionalScore :=
    sumWeights calculateInstitutionalWeight institutionalIncreases in
  let activeCategories :=
    countTrue [ Nat.ltb 0 (List.length insiderBuys);
                Nat.ltb 0 (List.length congressBuys);
                Nat.ltb 0 (List.length institutionalIncreases) ] in
  let convergenceBonus := bonusOf activeCategories in
  let normalizedInsider := min (ofZ 100) (insiderScore * ofZ 2)%num in
  let normalizedCongress := min (ofZ 100) (congressScore * ofZ 2)%num in
  let normalizedInstitutional := min (ofZ 100) (institutionalScore * ofZ 2)%num in
  let convergenceScore :=
    min (ofZ 100)
      ((normalizedInsider * frac 35 100 + normalizedCongress * frac 3 10
        + normalizedInstitutional * frac 25 100 + convergenceBonus)
       * (if Nat.leb 2 activeCategories then frac 12 10 else ofZ 1))%num in
  let recentBuyers :=
    map insiderBuyer (firstn 5 insiderBuys)
    ++ map congressBuyer (firstn 3 congressBuys)
    ++ map institutionBuyer (firstn 3 institutionalIncreases) in
  if (convergenceScore >? ofZ 10)%num then
    Some {| ticker := tk;
            companyName :=
              orString
                (match insider activity with
                 | tx :: _ => i_companyName tx | [] => None end)
                (match institutional activity with
                 | h :: _ => h_companyName h | [] => None end);
            date := now;
            convergenceScore := convergenceScore;
            insiderScore := normalizedInsider;
            congressScore := normalizedCongress;
            institutionalScore := normalizedInstitutional;
            convergenceBonus := convergenceBonus;
            signals := {| insiderBuys := List.length insiderBuys;
                          congressBuys := List.length congressBuys;
                          institutionalIncreases := List.length institutionalIncreases |};
            recentBuyers :=
              sort (fun a b => (b_date b - b_date a >? 0)%Z) recentBuyers |}
  else None.

Fixpoint collect {A B} (f : A -> option B) (l : list A) : list B :=
  match l with
  | [] => []
  | x :: l' =>
      match f x with
      | Some y => y :: collect f l'
      | None => collect f l'
      end
  end.

(** [now] is the value of [new Date()]; [lookbackDays] is destructured from
    the input and not used. *)
Definition detectConvergence (now : Z)
    (insiderTransactions : list InsiderTransaction)
    (congressTransactions : list CongressTransaction)
    (institutionalHoldings : list InstitutionalHolding)
  : list ConvergenceSignal :=
  let tickerActivity :=
    groupByTicker insiderTransactions congressTransactions institutionalHoldings in
  let signals := collect (fun e => signalOf now (fst e) (snd e)) tickerActivity in
  sort (fun a b => (convergenceScore b - convergenceScore a >? ofZ 0)%num) signals.

End ConvergenceAnalyzer.

(** ** db/database.ts *)

Inductive result (A : Type) : Type :=
| Ok (a : A)
| Throw (msg : string).
Arguments Ok {A} a.
Arguments Throw {A} msg.

Module Database.

(** The collections of the JSON document; [stock_prices] and [metadata]
    play no part in saving events and are left out. *)
Record DatabaseSchema := {
  insider_transactions : list InsiderTransaction;
  congress_transactions : list CongressTransaction;
  institutional_holdings : list InstitutionalHolding;
  convergence_signals : list ConvergenceSignal
}.

(** The object state between [initialize] and [close]: [data] is
    [this.db?.data] ([None] before [initialize] and after [close]);
    [idsDrawn] counts the calls of [generateId] so far.  Writing the JSON
    file back ([this.db.write()]) does not change [data] and is left out.
    The dates of the stored records are the [Date] objects of the events
    saved in this run; records read back from the file are in
    [DatabaseOnDisk]. *)
Record t := {
  data : option DatabaseSchema;
  idsDrawn : nat
}.

Definition defaultData : DatabaseSchema :=
  {| insider_transactions := []; congress_transactions := [];
     institutional_holdings := []; convergence_signals := [] |}.

Section Keys.
(** What a template literal makes of a [Date] and of a [number], and the
    sequence of strings [generateId] returns (time stamp and random
    suffix). *)
Variable showDate : Z -> string.
Variable showNum : num -> string.
Variable generateId : nat -> string.

Local Open Scope string_scope.

Definition getTransactionKey (tx : InsiderTransaction) : string :=
  i_ticker tx ++ "-" ++ insiderName tx ++ "-"
    ++ showDate (i_transactionDate tx) ++ "-" ++ showNum (i_shares tx).

Definition getCongressKey (tx : CongressTransaction) : string :=
  c_ticker tx ++ "-" ++ memberName tx ++ "-"
    ++ showDate (c_transactionDate tx) ++ "-"
    ++ showNum (rmin (c_amountRange tx)).

Definition getHoldingKey (h : InstitutionalHolding) : string :=
  h_ticker h ++ "-" ++ institutionCIK h ++ "-" ++ showDate (h_reportDate h).

Definition withInsiderId (tx : InsiderTransaction) (id : string) :=
  {| i_id := Some id; i_ticker := i_ticker tx;
     i_companyName := i_companyName tx; insiderName := insiderName tx;
     insiderTitle := insiderTitle tx;
     i_transactionType := i_transactionType tx; i_shares := i_shares tx;
     i_pricePerShare := i_pricePerShare tx;
     i_transactionDate := i_transactionDate tx;
     i_filingDate := i_filingDate tx |}.

Definition withCongressId (tx : CongressTransaction) (id : string) :=
  {| c_id := Some id; c_ticker := c_ticker tx; memberName := memberName tx;
     c_committees := c_committees tx;
     c_transactionType := c_transactionType tx;
     c_transactionDate := c_transactionDate tx;
     c_disclosureDate := c_disclosureDate tx;
     c_amountRange := c_amountRange tx |}.

Definition withHoldingId (h : InstitutionalHolding) (id : string) :=
  {| h_id := Some id; h_ticker := h_ticker h;
     institutionName := institutionName h;
     institutionCIK := institutionCIK h; h_companyName := h_companyName h;
     h_shares := h_shares h; h_value := h_value h;
     h_filingDate := h_filingDate h; h_reportDate := h_reportDate h;
     h_changeType := h_changeType h;
     h_ownershipPercent := h_ownershipPercent h |}.

Definition saveInsiderTransaction (transaction : InsiderTransaction) (d : t)
  : result t :=
  match data d with
  | None => Throw "Database not initialized"
  | Some dt =>
      let key := getTransactionKey transaction in
      let exists_ :=
        existsb (fun tx => String.eqb (getTransactionKey tx) key)
          (insider_transactions dt) in
      if negb exists_ then
        Ok {| data := Some
                {| insider_transactions :=
                     insider_transactions dt
                     ++ [withInsiderId transaction (generateId (idsDrawn d))];
                   congress_transactions := congress_transactions dt;
                   institutional_holdings := institutional_holdings dt;
                   convergence_signals := convergence_signals dt |};
              idsDrawn := S (idsDrawn d) |}
      else Ok d
  end.

Definition saveCongressTransaction (transaction : CongressTransaction) (d : t)
  : result t :=
  match data d with
  | None => Throw "Database not initialized"
  | Some dt =>
      let key := getCongressKey transaction in
      let exists_ :=
        existsb (fun tx => String.eqb (getCongressKey tx) key)
          (congress_transactions dt) in
      if negb exists_ then
        Ok {| data := Some
                {| insider_transactions := insider_transactions dt;
                   congress_transactions :=
                     congress_transactions dt
                     ++ [withCongressId transaction (generateId (idsDrawn d))];
                   institutional_holdings := institutional_holdings dt;
                   convergence_signals := convergence_signals dt |};
              idsDrawn := S (idsDrawn d) |}
      else Ok d
  end.

Definition saveInstitutionalHolding (holding : InstitutionalHolding) (d : t)
  : result t :=
  match data d with
  | None => Throw "Database not initialized"
  | Some dt =>
      let key := getHoldingKey holding in
      let exists_ :=
        existsb (fun h => String.eqb (getHoldingKey h) key)
          (institutional_holdings dt) in
      if negb exists_ then
        Ok {| data := Some
                {| insider_transactions := insider_transactions dt;
                   congress_transactions := congress_transactions dt;
                   institutional_holdings :=
                     institutional_holdings dt
                     ++ [withHoldingId holding (generateId (idsDrawn d))];
                   convergence_signals := convergence_signals dt |};
              idsDrawn := S (idsDrawn d) |}
      else Ok d
  end.

(** [for (const tx of transactions) await this.saveInsiderTransaction(tx)]:
    the first throw ends the loop. *)
Fixpoint saveInsiderTransactions (transactions : list InsiderTransaction)
    (d : t) : result t :=
  match transactions with
  | [] => Ok d
  | tx :: rest =>
      match saveInsiderTransaction tx d with
      | Ok d' => saveInsiderTransactions rest d'
      | Throw e => Throw e
      end
  end.

End Keys.

End Database.

(** ** types/backtest.ts and backtest/backtester.ts *)

Module Backtester.

(** *** Date objects

    [runBacktest] keeps one [Date] object, [currentDate], that it advances in
    place with [setDate], and stores references to it in the positions and
    trades it builds.  A heap maps the location of a [Date] object to its
    time value. *)
Definition loc := nat.
Definition heap := list Z.

Definition msPerDay : Z := 1000 * 60 * 60 * 24.

Definition getTime (h : heap) (l : loc) : Z := nth l h 0%Z.

(** [new Date(t)] *)
Definition newDate (h : heap) (t : Z) : heap * loc := (h ++ [t], List.length h).

Fixpoint setTime (h : heap) (l : loc) (t : Z) : heap :=
  match h, l with
  | [], _ => []
  | _ :: h', O => t :: h'
  | x :: h', S l' => x :: setTime h' l' t
  end.

(** [d.toDateString()] names the calendar day of [d]. *)
Definition dayOf (t : Z) : Z := (t / msPerDay)%Z.

Record HistoricalPrice := {
  p_date : Z;
  open : num;
  high : num;
  low : num;
  close : num;
  adjustedClose : num;
  volume : num
}.

(** [maxPositions] and [holdingPeriodDays] are whole numbers;
    [positionSizing] is never read and is left out. *)
Record BacktestConfig := {
  startDate : Z;
  endDate : Z;
  initialCapital : num;
  minConvergenceScore : num;
  maxPositions : Z;
  holdingPeriodDays : Z;
  stopLoss : option num;
  takeProfit : option num
}.

Inductive ExitReason := holding_period | stop_loss | take_profit | end_of_test.

Record BacktestTrade := {
  t_ticker : string;
  t_entryDate : loc;
  t_entryPrice : num;
  exitDate : loc;
  exitPrice : num;
  t_shares : num;
  positionValue : num;
  returnPercent : num;
  returnDollars : num;
  convergenceScoreAtEntry : num;
  holdingDays : Z;
  exitReason : ExitReason
}.

Record BacktestResult := {
  config : BacktestConfig;
  period : option (Z * Z);
  trades : list BacktestTrade;
  totalReturn : num;
  totalReturnDollars : num;
  finalCapital : num;
  winRate : num;
  avgWin : num;
  avgLoss : num;
  maxDrawdown : num;
  maxDrawdownDate : option loc;
  totalTrades : nat;
  winningTrades : nat;
  losingTrades : nat;
  avgHoldingPeriod : num;
  bestTrade : option BacktestTrade;
  worstTrade : option BacktestTrade
}.

Record SPYComparison := {
  strategyReturn : num;
  spyReturn : num;
  alpha : num;
  outperformed : bool;
  strategyFinalValue : num;
  spyFinalValue : num
}.

Record Position := {
  signal : ConvergenceSignal;
  entryDate : loc;
  entryPrice : num;
  shares : num
}.

(** *** The [openPositions] map: a [Map] iterates in insertion order. *)
Definition PositionMap := list (string * Position).

Definition has (m : PositionMap) (k : string) : bool :=
  existsb (fun e => String.eqb (fst e) k) m.

(** [m.set(k, v)]: a present key keeps its place and takes the new value. *)
Fixpoint set (k : string) (v : Position) (m : PositionMap) : PositionMap :=
  match m with
  | [] => [(k, v)]
  | (k', v') :: m' =>
      if String.eqb k' k then (k', v) :: m' else (k', v') :: set k v m'
  end.

Definition delete (k : string) (m : PositionMap) : PositionMap :=
  filter (fun e => negb (String.eqb (fst e) k)) m.

(** [l.slice(0, n)]: a negative [n] counts from the end. *)
Definition slice0 {A} (l : list A) (n : Z) : list A :=
  if (n <? 0)%Z
  then firstn (Z.to_nat (Z.max (Z.of_nat (List.length l) + n) 0)) l
  else firstn (Z.to_nat n) l.

(** *** getPriceOnDate *)
Definition getPriceOnDate (prices : list HistoricalPrice) (target : Z)
  : option HistoricalPrice :=
  match find (fun p => (p_date p >=? target)%Z) prices with
  | Some p => Some p
  | None => last (map Some prices) None
  end.

(** The state of one run. *)
Record Sim := {
  dates : heap;
  capital : num;
  maxCapital : num;
  s_maxDrawdown : num;
  s_maxDrawdownDate : option loc;
  s_trades : list BacktestTrade;
  openPositions : PositionMap
}.

Section Run.
(** [loadHistoricalPrices(ticker, {start, end})]: the price service, by
    ticker and the time values of the range ends.  The cache in front of
    it only memoises. *)
Variable loadHistoricalPrices : string -> Z -> Z -> list HistoricalPrice.
Variable cfg : BacktestConfig.
(** The location of [currentDate]. *)
Variable currentDate : loc.

(** One turn of the loop that opens positions. *)
Definition enter (s : Sim) (sg : ConvergenceSignal) : Sim :=
  let now := getTime (dates s) currentDate in
  let prices :=
    loadHistoricalPrices (ticker sg) now
      (endDate cfg + holdingPeriodDays cfg * 24 * 60 * 60 * 1000)%Z in
  match getPriceOnDate prices now with
  | Some entryPrice =>
      if (capital s >? ofZ 0)%num then
        let positionSize :=
          (capital s
           / ofZ (maxPositions cfg - Z.of_nat (List.length (openPositions s))))%num in
        let shares := floor (positionSize / close entryPrice)%num in
        if (shares >? ofZ 0)%num then
          {| dates := dates s;
             capital := (capital s - shares * close entryPrice)%num;
             maxCapital := maxCapital s;
             s_maxDrawdown := s_maxDrawdown s;
             s_maxDrawdownDate := s_maxDrawdownDate s;
             s_trades := s_trades s;
             openPositions :=
               set (ticker sg)
                 {| signal := sg; entryDate := currentDate;
                    entryPrice := close entryPrice; shares := shares |}
                 (openPositions s) |}
        else s
      else s
  | None => s
  end.

(** The four checks, each overwriting the outcome of the ones before. *)
Definition exitDecision (returnPercent : num) (daysSinceEntry now : Z)
  : bool * ExitReason :=
  let d := (false, holding_period) in
  let d :=
    match stopLoss cfg with
    | Some sl =>
        if (truthy sl && (returnPercent <=? neg sl)%num)%bool
        then (true, stop_loss) else d
    | None => d
    end in
  let d :=
    match takeProfit cfg with
    | Some tp =>
        if (truthy tp && (returnPercent >=? tp)%num)%bool
        then (true, take_profit) else d
    | None => d
    end in
  let d :=
    if (daysSinceEntry >=? holdingPeriodDays cfg)%Z
    then (true, holding_period) else d in
  if (now >=? endDate cfg)%Z then (true, end_of_test) else d.

(** One turn of the loop over [openPositions.entries()]. *)
Definition checkExit (s : Sim) (e : string * Position) : Sim :=
  let '(tk, position) := e in
  let now := getTime (dates s) currentDate in
  let entered := getTime (dates s) (entryDate position) in
  let daysSinceEntry := ((now - entered) / msPerDay)%Z in
  let prices := loadHistoricalPrices tk entered now in
  match getPriceOnDate prices now with
  | None => s
  | Some currentPrice =>
      let returnPercent :=
        ((close currentPrice - entryPrice position) / entryPrice position
         * ofZ 100)%num in
      let '(shouldExit, exitReason) :=
        exitDecision returnPercent daysSinceEntry now in
      if shouldExit then
        let returnDollars :=
          (shares position * (close currentPrice - entryPrice position))%num in
        {| dates := dates s;
           capital := (capital s + shares position * close currentPrice)%num;
           maxCapital := maxCapital s;
           s_maxDrawdown := s_maxDrawdown s;
           s_maxDrawdownDate := s_maxDrawdownDate s;
           s_trades :=
             s_trades s ++
             [ {| t_ticker := tk;
                  t_entryDate := entryDate position;
                  t_entryPrice := entryPrice position;
                  exitDate := currentDate;
                  exitPrice := close currentPrice;
                  t_shares := shares position;
                  positionValue := (shares position * entryPrice position)%num;
                  returnPercent := returnPercent;
                  returnDollars := returnDollars;
                  convergenceScoreAtEntry := convergenceScore (signal position);
                  holdingDays := daysSinceEntry;
                  exitReason := exitReason |} ];
           openPositions := delete tk (openPositions s) |}
      else s
  end.

(** [cash + sum of shares * entryPrice] over the open positions. *)
Definition costBasis (m : PositionMap) : num :=
  fold_left (fun sum e => (sum + shares (snd e) * entryPrice (snd e))%num)
    m (ofZ 0).

Definition trackDrawdown (s : Sim) : Sim :=
  let totalValue := (capital s + costBasis (openPositions s))%num in
  let maxCapital := max (maxCapital s) totalValue in
  let currentDrawdown := ((totalValue - maxCapital) / maxCapital * ofZ 100)%num in
  if (currentDrawdown <? s_maxDrawdown s)%num then
    let '(h, l) := newDate (dates s) (getTime (dates s) currentDate) in
    {| dates := h; capital := capital s; maxCapital := maxCapital;
       s_maxDrawdown := currentDrawdown; s_maxDrawdownDate := Some l;
       s_trades := s_trades s; openPositions := openPositions s |}
  else
    {| dates := dates s; capital := capital s; maxCapital := maxCapital;
       s_maxDrawdown := s_maxDrawdown s;
       s_maxDrawdownDate := s_maxDrawdownDate s;
       s_trades := s_trades s; openPositions := openPositions s |}.

(** [currentDate.setDate(currentDate.getDate() + 1)] *)
Definition nextDay (s : Sim) : Sim :=
  {| dates :=
       setTime (dates s) currentDate
         (getTime (dates s) currentDate + msPerDay)%Z;
     capital := capital s; maxCapital := maxCapital s;
     s_maxDrawdown := s_maxDrawdown s;
     s_maxDrawdownDate := s_maxDrawdownDate s;
     s_trades := s_trades s; openPositions := openPositions s |}.

Variable qualifiedSignals : list ConvergenceSignal.

Definition daySignals (s : Sim) : list ConvergenceSignal :=
  filter
    (fun sg =>
       ((dayOf (date sg) =? dayOf (getTime (dates s) currentDate))%Z
        && negb (has (openPositions s) (ticker sg)))%bool)
    qualifiedSignals.

Definition openNew (s : Sim) : Sim :=
  fold_left enter
    (slice0 (daySignals s)
       (maxPositions cfg - Z.of_nat (List.length (openPositions s))))
    s.

Definition closeDue (s : Sim) : Sim :=
  fold_left checkExit (openPositions s) s.

(** The body of the [while] loop. *)
Definition day (s : Sim) : Sim :=
  nextDay (trackDrawdown (closeDue (openNew s))).

(** [while (currentDate <= endDate) { ... }]; [None] when the fuel runs
    out before the condition fails. *)
Fixpoint simulate (fuel : nat) (s : Sim) : option Sim :=
  if (getTime (dates s) currentDate <=? endDate cfg)%Z then
    match fuel with
    | O => None
    | S fuel' => simulate fuel' (day s)
    end
  else Some s.

End Run.

Definition sumBy {A} (f : A -> num) (l : list A) : num :=
  fold_left (fun sum x => (sum + f x)%num) l (ofZ 0).

Definition ofNat (n : nat) : num := ofZ (Z.of_nat n).

Definition pickBest (best : option BacktestTrade) (t : BacktestTrade)
  : option BacktestTrade :=
  let bound :=
    match best with
    | Some b => or (returnPercent b) NInf
    | None => NInf
    end in
  if (returnPercent t >? bound)%num then Some t else best.

Definition pickWorst (worst : option BacktestTrade) (t : BacktestTrade)
  : option BacktestTrade :=
  let bound :=
    match worst with
    | Some b => or (returnPercent b) PInf
    | None => PInf
    end in
  if (returnPercent t <? bound)%num then Some t else worst.

(** The final metrics, from the state the loop ends in. *)
Definition summarize (cfg : BacktestConfig) (s : Sim) : BacktestResult :=
  let trades := s_trades s in
  let capital := capital s in
  let initialCapital := initialCapital cfg in
  let winningTrades := filter (fun t => (returnPercent t >? ofZ 0)%num) trades in
  let losingTrades := filter (fun t => (returnPercent t <=? ofZ 0)%num) trades in
  let n := List.length trades in
  {| config := cfg;
     period := Some (startDate cfg, endDate cfg);
     trades := trades;
     totalReturn := ((capital - initialCapital) / initialCapital * ofZ 100)%num;
     totalReturnDollars := (capital - initialCapital)%num;
     finalCapital := capital;
     winRate :=
       if Nat.ltb 0 n then (ofNat (List.length winningTrades) / ofNat n)%num
       else ofZ 0;
     avgWin :=
       if Nat.ltb 0 (List.length winningTrades)
       then (sumBy returnPercent winningTrades
             / ofNat (List.length winningTrades))%num
       else ofZ 0;
     avgLoss :=
       if Nat.ltb 0 (List.length losingTrades)
       then (sumBy returnPercent losingTrades
             / ofNat (List.length losingTrades))%num
       else ofZ 0;
     maxDrawdown := s_maxDrawdown s;
     maxDrawdownDate := s_maxDrawdownDate s;
     totalTrades := n;
     winningTrades := List.length winningTrades;
     losingTrades := List.length losingTrades;
     avgHoldingPeriod :=
       if Nat.ltb 0 n
       then (sumBy (fun t => ofZ (holdingDays t)) trades / ofNat n)%num
       else ofZ 0;
     bestTrade := fold_left pickBest trades None;
     worstTrade := fold_left pickWorst trades None |}.

(** The state before the first day: [currentDate = new Date(startDate)] is
    the only [Date] object of the run so far, at location 0. *)
Definition start (cfg : BacktestConfig) : Sim :=
  {| dates := [startDate cfg];
     capital := initialCapital cfg;
     maxCapital := initialCapital cfg;
     s_maxDrawdown := ofZ 0;
     s_maxDrawdownDate := None;
     s_trades := [];
     openPositions := [] |}.

(** The number of turns of the [while] loop. *)
Definition daysToRun (cfg : BacktestConfig) : nat :=
  Z.to_nat ((endDate cfg - startDate cfg) / msPerDay + 1).

(** [runBacktest(config)].  [signals] is what [generateSignalsForPeriod]
    hands back (the stored signals, or none without a database).  The result
    comes with the heap, in which the date fields of the trades are read. *)
Definition runBacktest
    (loadHistoricalPrices : string -> Z -> Z -> list HistoricalPrice)
    (signals : list ConvergenceSignal) (cfg : BacktestConfig)
  : option (heap * BacktestResult) :=
  let qualifiedSignals :=
    filter (fun s => (convergenceScore s >=? minConvergenceScore cfg)%num)
      signals in
  match simulate loadHistoricalPrices cfg 0%nat qualifiedSignals
          (daysToRun cfg) (start cfg) with
  | Some s => Some (dates s, summarize cfg s)
  | None => None
  end.

(** The state at the end of the [n]-th turn of the loop of [runBacktest]. *)
Definition afterDays
    (loadHistoricalPrices : string -> Z -> Z -> list HistoricalPrice)
    (signals : list ConvergenceSignal) (cfg : BacktestConfig) (n : nat) : Sim :=
  Nat.iter n
    (day loadHistoricalPrices cfg 0%nat
       (filter (fun s => (convergenceScore s >=? minConvergenceScore cfg)%num)
          signals))
    (start cfg).

(** [compareToSPY(result)] *)
Definition compareToSPY
    (loadHistoricalPrices : string -> Z -> Z -> list HistoricalPrice)
    (result : BacktestResult) : SPYComparison :=
  let degenerate :=
    {| strategyReturn := totalReturn result;
       spyReturn := ofZ 0;
       alpha := totalReturn result;
       outperformed := true;
       strategyFinalValue := finalCapital result;
       spyFinalValue := initialCapital (config result) |} in
  match period result with
  | None => degenerate
  | Some (periodStart, periodEnd) =>
      let spyPrices := loadHistoricalPrices "SPY"%string periodStart periodEnd in
      if Nat.ltb (List.length spyPrices) 2 then degenerate
      else
        let spyStartPrice :=
          match spyPrices with p :: _ => close p | [] => NaN end in
        let spyEndPrice :=
          match last (map Some spyPrices) None with
          | Some p => close p | None => NaN end in
        let spyReturn :=
          ((spyEndPrice - spyStartPrice) / spyStartPrice * ofZ 100)%num in
        let alpha := (totalReturn result - spyReturn)%num in
        {| strategyReturn := totalReturn result;
           spyReturn := spyReturn;
           alpha := alpha;
           outperformed := (totalReturn result >? spyReturn)%num;
           strategyFinalValue := finalCapital result;
           spyFinalValue :=
             (initialCapital (config result)
              * (ofZ 1 + spyReturn / ofZ 100))%num |}
  end.

End Backtester.

(** ** Concrete inputs used by the examples of Part II *)

Module Scenarios.
Import Backtester ConvergenceAnalyzer.
Local Open Scope string_scope.

Definition bar (d : Z) (c : num) : HistoricalPrice :=
  {| p_date := d; open := c; high := c; low := c; close := c;
     adjustedClose := c; volume := ofZ 1000000 |}.

Definition day0 : Z := 0.
Definition day1 : Z := msPerDay.
Definition day2 : Z := 2 * msPerDay.

(** A signal for NVDA dated on the first day of the window. *)
Definition nvda : ConvergenceSignal :=
  {| ticker := "NVDA"; companyName := None; date := day0;
     convergenceScore := ofZ 85; insiderScore := ofZ 90;
     congressScore := ofZ 75; institutionalScore := ofZ 80;
     convergenceBonus := ofZ 20;
     signals := {| insiderBuys := 3; congressBuys := 2;
                   institutionalIncreases := 5 |};
     recentBuyers := [] |}.

(** A price service that, like the mocks of the test suite, answers every
    request with the same two daily bars. *)
Definition falling (_ : string) (_ _ : Z) : list HistoricalPrice :=
  [bar day0 (ofZ 100); bar day1 (ofZ 79)].
Definition rising (_ : string) (_ _ : Z) : list HistoricalPrice :=
  [bar day0 (ofZ 100); bar day1 (ofZ 130)].
Definition worthless (_ : string) (_ _ : Z) : list HistoricalPrice :=
  [bar day0 (ofZ 0)].
Definition noPrices (_ : string) (_ _ : Z) : list HistoricalPrice := [].

(** The position that the first day of the NVDA runs opens: 200 shares
    at 100, dated by [currentDate] itself. *)
Definition nvdaPosition : Position :=
  {| signal := nvda; entryDate := 0%nat; entryPrice := ofZ 100;
     shares := ofZ 200 |}.

Definition baseConfig : BacktestConfig :=
  {| startDate := day0; endDate := day1; initialCapital := ofZ 100000;
     minConvergenceScore := ofZ 60; maxPositions := 5;
     holdingPeriodDays := 1; stopLoss := Some (ofZ 20);
     takeProfit := Some (ofZ 25) |}.

Definition withCapital (c : num) (cfg : BacktestConfig) : BacktestConfig :=
  {| startDate := startDate cfg; endDate := endDate cfg; initialCapital := c;
     minConvergenceScore := minConvergenceScore cfg;
     maxPositions := maxPositions cfg;
     holdingPeriodDays := holdingPeriodDays cfg;
     stopLoss := stopLoss cfg; takeProfit := takeProfit cfg |}.

Definition withMaxPositions (n : Z) (cfg : BacktestConfig) : BacktestConfig :=
  {| startDate := startDate cfg; endDate := endDate cfg;
     initialCapital := initialCapital cfg;
     minConvergenceScore := minConvergenceScore cfg;
     maxPositions := n;
     holdingPeriodDays := holdingPeriodDays cfg;
     stopLoss := stopLoss cfg; takeProfit := takeProfit cfg |}.

Definition withWindow (a b : Z) (cfg : BacktestConfig) : BacktestConfig :=
  {| startDate := a; endDate := b;
     initialCapital := initialCapital cfg;
     minConvergenceScore := minConvergenceScore cfg;
     maxPositions := maxPositions cfg;
     holdingPeriodDays := holdingPeriodDays cfg;
     stopLoss := stopLoss cfg; takeProfit := takeProfit cfg |}.

(** The base configuration over a window of three days. *)
Definition threeDays : BacktestConfig := withWindow day0 day2 baseConfig.

(** A result as the test suite builds them by hand: a losing strategy. *)
Definition losingResult (p : option (Z * Z)) : BacktestResult :=
  {| config := baseConfig; period := p; trades := [];
     totalReturn := ofZ (-3); totalReturnDollars := ofZ (-3000);
     finalCapital := ofZ 97000; winRate := frac 4 10; avgWin := ofZ 4;
     avgLoss := ofZ (-5); maxDrawdown := ofZ (-12); maxDrawdownDate := None;
     totalTrades := 10; winningTrades := 4; losingTrades := 6;
     avgHoldingPeriod := ofZ 30; bestTrade := None; worstTrade := None |}.

Definition spyBars (_ : string) (_ _ : Z) : list HistoricalPrice :=
  [bar day0 (ofZ 453); bar day1 (ofZ 533)].

Definition insiderEvent (title : string) (kind : TransactionType)
    (sh price : num) : InsiderWeightInput :=
  {| wi_insiderTitle := title; wi_transactionType := TransactionType_str kind;
     wi_shares := sh; wi_pricePerShare := price |}.

(** An insider buy of 1000 shares at $10 by a CEO, on day [d]. *)
Definition ceoBuy (tk name : string) (d : Z) : InsiderTransaction :=
  {| i_id := None; i_ticker := tk; i_companyName := None;
     insiderName := name; insiderTitle := "CEO";
     i_transactionType := BUY; i_shares := ofZ 1000;
     i_pricePerShare := ofZ 10; i_transactionDate := d * msPerDay;
     i_filingDate := d * msPerDay |}.

Definition sixBuys : list InsiderTransaction :=
  [ ceoBuy "ACME" "A" 1; ceoBuy "ACME" "B" 2; ceoBuy "ACME" "C" 3;
    ceoBuy "ACME" "D" 4; ceoBuy "ACME" "E" 5; ceoBuy "ACME" "F" 6 ].

(** A store right after [initialize], with nothing on file. *)
Definition emptyStore : Database.t :=
  {| Database.data := Some Database.defaultData; Database.idsDrawn := 0 |}.

(** Stand-ins for the renderings of dates and numbers in template literals
    and for the identifiers drawn. *)
Definition showZ (z : Z) : string :=
  if (z =? 0)%Z then "0" else if (z <? 0)%Z then "neg" else "pos".
Definition showNum (x : num) : string :=
  match x with Fin _ => "n" | PInf => "Infinity" | NInf => "-Infinity"
          | NaN => "NaN" end.
Definition ids (n : nat) : string :=
  match n with O => "id0" | _ => "idn" end.

End Scenarios.

(** ** Notions used to state the properties *)

Module Notions.
Import ConvergenceAnalyzer Backtester.

(** *** Numbers *)

(** A finite number that is at least [0], and one that is above [0]. *)
Definition nonneg (x : num) : Prop := exists a, x = Fin a /\ 0 <= a.
Definition positive (x : num) : Prop := exists a, x = Fin a /\ 0 < a.

(** [x] lies in [[0, 100]]. *)
Definition inRange (x : num) : Prop :=
  (ofZ 0 <=? x)%num = true /\ (x <=? ofZ 100)%num = true.

(** *** Weights and signals *)

(** The weight the table [INSIDER_WEIGHTS] lists for a title. *)
Definition listedWeight (title : string) : option num :=
  option_map snd (find (fun e => String.eqb (fst e) title) INSIDER_WEIGHTS).

(** The overall score as a function of the three category scores and the
    bonus: the weighted blend plus the bonus, raised by 1.2 when the bonus
    shows two or more active categories, capped at 100. *)
Definition overallScore (insiderScore congressScore institutionalScore bonus : num)
  : num :=
  min (ofZ 100)
    ((insiderScore * frac 35 100 + congressScore * frac 3 10
      + institutionalScore * frac 25 100 + bonus)
     * (if (bonus >=? ofZ 15)%num then frac 12 10 else ofZ 1))%num.

(** The tickers of a grouping, in insertion order. *)
Definition keys (m : list (string * Activity)) : list string := map fst m.

(** [m[k]], or the empty activity when [k] is not a key. *)
Definition get (k : string) (m : list (string * Activity)) : Activity :=
  match find (fun e => String.eqb (fst e) k) m with
  | Some e => snd e
  | None => noActivity
  end.

(** One of the three grouping loops of [detectConvergence]. *)
Definition addAll {E} (tickerOf : E -> string)
    (push : E -> Activity -> Activity) (xs : list E) (m : list (string * Activity)) :=
  fold_left (fun m x => touch (tickerOf x) (push x) m) xs m.

(** The events of one ticker, each list in arrival order. *)
Definition byTicker (k : string) (i : list InsiderTransaction)
    (c : list CongressTransaction) (h : list InstitutionalHolding) : Activity :=
  {| insider := filter (fun tx => String.eqb (i_ticker tx) k) i;
     congress := filter (fun tx => String.eqb (c_ticker tx) k) c;
     institutional := filter (fun x => String.eqb (h_ticker x) k) h |}.

(** What of a signal the arrival order cannot change: the ticker, the
    overall score, the category scores, the bonus and the counts. *)
Definition core (s : ConvergenceSignal)
  : string * (num * num * num * num * num) * SignalDetails :=
  (ticker s,
   (convergenceScore s, insiderScore s, congressScore s,
    institutionalScore s, convergenceBonus s),
   signals s).

(** The recent-actor list the detector builds from the events of a ticker:
    the first five insider buys, the first three legislator purchases and
    the first three institutional increases in arrival order, put in
    descending order of date by a stable sort. *)
Definition recentActors (a : Activity) : list RecentBuyer :=
  sort (fun x y => (b_date y - b_date x >? 0)%Z)
    (map insiderBuyer (firstn 5 (filter isInsiderBuy (insider a)))
     ++ map congressBuyer (firstn 3 (filter isCongressBuy (congress a)))
     ++ map institutionBuyer
          (firstn 3 (filter isInstitutionalIncrease (institutional a)))).

(** *** The store *)

(** Some stored record has the dedup key [k]. *)
Definition known {A} (key : A -> string) (k : string) (l : list A) : bool :=
  existsb (fun y => String.eqb (key y) k) l.

(** The number of stored records with the dedup key [k]. *)
Definition keyCount {A} (key : A -> string) (k : string) (l : list A) : nat :=
  List.length (filter (fun y => String.eqb (key y) k) l).

(** The dedup keys of a stored collection are pairwise distinct. *)
Definition distinctKeys {A} (key : A -> string) (l : list A) : Prop :=
  NoDup (map key l).

(** *** The simulator *)

(** The benchmark is undefined for [result] under the price service [feed]:
    the result has no period, or the service has fewer than two bars for it. *)
Definition benchmarkUndefined
    (feed : string -> Z -> Z -> list HistoricalPrice)
    (result : BacktestResult) : Prop :=
  match period result with
  | None => True
  | Some (a, b) => (List.length (feed "SPY"%string a b) < 2)%nat
  end.

(** The four exit conditions, as [checkExit] tests them. *)
Definition stopLossHit (cfg : BacktestConfig) (returnPercent : num) : bool :=
  match stopLoss cfg with
  | Some sl => (truthy sl && (returnPercent <=? neg sl)%num)%bool
  | None => false
  end.

Definition takeProfitHit (cfg : BacktestConfig) (returnPercent : num) : bool :=
  match takeProfit cfg with
  | Some tp => (truthy tp && (returnPercent >=? tp)%num)%bool
  | None => false
  end.

Definition holdingReached (cfg : BacktestConfig) (daysSinceEntry : Z) : bool :=
  (daysSinceEntry >=? holdingPeriodDays cfg)%Z.

Definition windowEnded (cfg : BacktestConfig) (now : Z) : bool :=
  (now >=? endDate cfg)%Z.

(** The reason recorded when some condition holds: end of the window
    before the holding period, before take-profit, before stop-loss. *)
Definition recordedReason (cfg : BacktestConfig) (returnPercent : num)
    (daysSinceEntry now : Z) : option ExitReason :=
  if windowEnded cfg now then Some end_of_test
  else if holdingReached cfg daysSinceEntry then Some holding_period
  else if takeProfitHit cfg returnPercent then Some take_profit
  else if stopLossHit cfg returnPercent then Some stop_loss
  else None.

(** The return in percent and the days held that [checkExit] computes for
    a position at the price bar [p]. *)
Definition returnAt (position : Position) (p : HistoricalPrice) : num :=
  ((close p - entryPrice position) / entryPrice position * ofZ 100)%num.

Definition daysHeld (s : Sim) (currentDate : loc) (position : Position) : Z :=
  ((getTime (dates s) currentDate - getTime (dates s) (entryDate position))
   / msPerDay)%Z.

(** Every bar of the price service closes above 0. *)
Definition pricesPositive (feed : string -> Z -> Z -> list HistoricalPrice)
  : Prop :=
  forall tk a b p, In p (feed tk a b) -> (close p >? ofZ 0)%num = true.


(** Nothing has happened: no position, no trade, the starting capital. *)
Definition idle (cfg : BacktestConfig) (s : Sim) : Prop :=
  openPositions s = [] /\ s_trades s = []
  /\ capital s = initialCapital cfg.

(** Every position is dated by the [Date] object at location 0, where
    [runBacktest] keeps [currentDate]. *)
Definition datedByCurrentDate (m : PositionMap) : Prop :=
  Forall (fun e => entryDate (snd e) = 0%nat) m.

End Notions.

Import Notions.

(** ** db/database.ts: the queries *)

Module DatabaseQueries.
Import Database Backtester.

(** [const cutoffDate = new Date(); cutoffDate.setDate(cutoffDate.getDate()
    - lookbackDays)]: [now] is the reading of the clock, [lookbackDays] a
    whole number of days. *)
Definition cutoff (now lookbackDays : Z) : Z := (now - lookbackDays * msPerDay)%Z.

Definition notInitialized {A} : result A := Throw "Database not initialized".

Definition getInsiderTransactions (now : Z) (tk : string) (lookbackDays : Z)
    (d : t) : result (list InsiderTransaction) :=
  match data d with
  | None => notInitialized
  | Some dt =>
      Ok (filter
            (fun tx =>
               (String.eqb (i_ticker tx) tk
                && (i_transactionDate tx >=? cutoff now lookbackDays)%Z)%bool)
            (insider_transactions dt))
  end.

Definition getAllInsiderTransactions (now lookbackDays : Z) (d : t)
  : result (list InsiderTransaction) :=
  match data d with
  | None => notInitialized
  | Some dt =>
      Ok (filter
            (fun tx => (i_transactionDate tx >=? cutoff now lookbackDays)%Z)
            (insider_transactions dt))
  end.

Definition getCongressTransactions (now : Z) (tk : string) (lookbackDays : Z)
    (d : t) : result (list CongressTransaction) :=
  match data d with
  | None => notInitialized
  | Some dt =>
      Ok (filter
            (fun tx =>
               (String.eqb (c_ticker tx) tk
                && (c_transactionDate tx >=? cutoff now lookbackDays)%Z)%bool)
            (congress_transactions dt))
  end.

Definition getAllCongressTransactions (now lookbackDays : Z) (d : t)
  : result (list CongressTransaction) :=
  match data d with
  | None => notInitialized
  | Some dt =>
      Ok (filter
            (fun tx => (c_transactionDate tx >=? cutoff now lookbackDays)%Z)
            (congress_transactions dt))
  end.

Definition getInstitutionalHoldings (now : Z) (tk : string) (lookbackDays : Z)
    (d : t) : result (list InstitutionalHolding) :=
  match data d with
  | None => notInitialized
  | Some dt =>
      Ok (filter
            (fun h =>
               (String.eqb (h_ticker h) tk
                && (h_filingDate h >=? cutoff now lookbackDays)%Z)%bool)
            (institutional_holdings dt))
  end.

Definition getAllInstitutionalHoldings (now lookbackDays : Z) (d : t)
  : result (list InstitutionalHolding) :=
  match data d with
  | None => notInitialized
  | Some dt =>
      Ok (filter
            (fun h => (h_filingDate h >=? cutoff now lookbackDays)%Z)
            (institutional_holdings dt))
  end.

(** [saveConvergenceSignal]: a plain push. *)
Definition saveConvergenceSignal (sg : ConvergenceSignal) (d : t) : result t :=
  match data d with
  | None => notInitialized
  | Some dt =>
      Ok {| data := Some
              {| insider_transactions := insider_transactions dt;
                 congress_transactions := congress_transactions dt;
                 institutional_holdings := institutional_holdings dt;
                 convergence_signals := convergence_signals dt ++ [sg] |};
            idsDrawn := idsDrawn d |}
  end.

Definition getConvergenceSignals (now lookbackDays : Z) (d : t)
  : result (list ConvergenceSignal) :=
  match data d with
  | None => notInitialized
  | Some dt =>
      Ok (filter (fun s => (date s >=? cutoff now lookbackDays)%Z)
            (convergence_signals dt))
  end.

Record Activity3 := {
  insiderTransactions : list InsiderTransaction;
  congressTransactions : list CongressTransaction;
  institutionalHoldings : list InstitutionalHolding
}.

(** [getAllActivityForTicker]: the three queries of [Promise.all]. *)
Definition getAllActivityForTicker (now : Z) (tk : string) (lookbackDays : Z)
    (d : t) : result Activity3 :=
  match getInsiderTransactions now tk lookbackDays d with
  | Throw e => Throw e
  | Ok i =>
      match getCongressTransactions now tk lookbackDays d with
      | Throw e => Throw e
      | Ok c =>
          match getInstitutionalHoldings now tk lookbackDays d with
          | Throw e => Throw e
          | Ok h =>
              Ok {| insiderTransactions := i; congressTransactions := c;
                    institutionalHoldings := h |}
          end
      end
  end.

(** [counts[k] = (counts[k] || 0) + 1] on the object [activityCounts], whose
    entries come out in insertion order.  Tickers are taken to be neither
    integer-like strings, which an object lists first, nor names of
    [Object.prototype]. *)
Fixpoint bump (k : string) (m : list (string * nat)) : list (string * nat) :=
  match m with
  | [] => [(k, 1%nat)]
  | (k', n) :: m' =>
      if String.eqb k' k then (k', S n) :: m' else (k', n) :: bump k m'
  end.

Definition activityCounts (now lookbackDays : Z) (dt : DatabaseSchema)
  : list (string * nat) :=
  let c := cutoff now lookbackDays in
  let m :=
    fold_left
      (fun m tx => if (i_transactionDate tx >=? c)%Z then bump (i_ticker tx) m else m)
      (insider_transactions dt) [] in
  let m :=
    fold_left
      (fun m tx => if (c_transactionDate tx >=? c)%Z then bump (c_ticker tx) m else m)
      (congress_transactions dt) m in
  fold_left
    (fun m h =>
       if ((h_filingDate h >=? c)%Z
           && match h_changeType h with Some INCREASE => true | _ => false end)%bool
       then bump (h_ticker h) m else m)
    (institutional_holdings dt) m.

Definition getTopStocksByActivity (now limit lookbackDays : Z) (d : t)
  : result (list (string * nat)) :=
  match data d with
  | None => notInitialized
  | Some dt =>
      Ok (slice0
            (ConvergenceAnalyzer.sort (fun a b => Nat.ltb (snd a) (snd b))
               (activityCounts now lookbackDays dt))
            limit)
  end.

(** [tickers.add(k)] on a [Set], which iterates in insertion order. *)
Definition addTicker (k : string) (s : list string) : list string :=
  if existsb (String.eqb k) s then s else s ++ [k].

Definition uniqueTickers (now lookbackDays : Z) (dt : DatabaseSchema)
  : list string :=
  let c := cutoff now lookbackDays in
  let s :=
    fold_left
      (fun s tx =>
         if ((i_transactionDate tx >=? c)%Z
             && String.eqb (TransactionType_str (i_transactionType tx)) "BUY")%bool
         then addTicker (i_ticker tx) s else s)
      (insider_transactions dt) [] in
  let s :=
    fold_left
      (fun s tx =>
         if ((c_transactionDate tx >=? c)%Z
             && String.eqb (c_transactionType tx) "PURCHASE")%bool
         then addTicker (c_ticker tx) s else s)
      (congress_transactions dt) s in
  fold_left
    (fun s h =>
       if ((h_filingDate h >=? c)%Z
           && match h_changeType h with Some INCREASE => true | _ => false end)%bool
       then addTicker (h_ticker h) s else s)
    (institutional_holdings dt) s.

Definition getUniqueTickersWithActivity (now lookbackDays : Z) (d : t)
  : result (list string) :=
  match data d with
  | None => notInitialized
  | Some dt => Ok (uniqueTickers now lookbackDays dt)
  end.

(** *** Stock prices

    The [stock_prices] object of the document, a map from ticker to bars,
    is kept beside the collections. *)
Definition PriceTable := list (string * list HistoricalPrice).

Record Store := {
  base : t;
  stock_prices : PriceTable
}.

(** [stock_prices[ticker] = prices] *)
Fixpoint assign (k : string) (v : list HistoricalPrice) (m : PriceTable)
  : PriceTable :=
  match m with
  | [] => [(k, v)]
  | (k', v') :: m' =>
      if String.eqb k' k then (k', v) :: m' else (k', v') :: assign k v m'
  end.

(** [stock_prices[ticker] || []], for a ticker that is no name of
    [Object.prototype]. *)
Definition pricesOf (k : string) (m : PriceTable) : list HistoricalPrice :=
  match find (fun e => String.eqb (fst e) k) m with
  | Some e => snd e
  | None => []
  end.

Definition saveStockPrices (tk : string) (prices : list HistoricalPrice)
    (st : Store) : result Store :=
  match data (base st) with
  | None => notInitialized
  | Some _ =>
      Ok {| base := base st; stock_prices := assign tk prices (stock_prices st) |}
  end.

Definition getStockPrices (tk : string) (from to : Z) (st : Store)
  : result (list HistoricalPrice) :=
  match data (base st) with
  | None => notInitialized
  | Some _ =>
      Ok (filter (fun p => ((p_date p >=? from)%Z && (p_date p <=? to)%Z)%bool)
            (pricesOf tk (stock_prices st)))
  end.

End DatabaseQueries.

(** ** analysis/convergence.ts: scoring from the store *)

Module Analyzer.
Import Database DatabaseQueries ConvergenceAnalyzer Backtester.

Record StockScore := {
  ss_ticker : string;
  ss_companyName : option string;
  overallScore : num;
  ss_insiderScore : num;
  ss_congressScore : num;
  ss_institutionalScore : num;
  ss_convergenceBonus : num;
  ss_recentBuyers : list RecentBuyer;
  ss_signals : SignalDetails
}.

(** The score returned without a database and without a signal. *)
Definition defaultScore (tk : string) : StockScore :=
  {| ss_ticker := tk; ss_companyName := None; overallScore := ofZ 0;
     ss_insiderScore := ofZ 0; ss_congressScore := ofZ 0;
     ss_institutionalScore := ofZ 0; ss_convergenceBonus := ofZ 0;
     ss_recentBuyers := [];
     ss_signals := {| insiderBuys := 0; congressBuys := 0;
                      institutionalIncreases := 0 |} |}.

Definition scoreOfSignal (tk : string) (s : ConvergenceSignal) : StockScore :=
  {| ss_ticker := tk; ss_companyName := companyName s;
     overallScore := convergenceScore s;
     ss_insiderScore := insiderScore s;
     ss_congressScore := congressScore s;
     ss_institutionalScore := institutionalScore s;
     ss_convergenceBonus := convergenceBonus s;
     ss_recentBuyers := recentBuyers s;
     ss_signals := signals s |}.

(** [scoreStock(ticker, lookbackDays)]; [db] is [this.db], [now] the reading
    of the clock during the call. *)
Definition scoreStock (now : Z) (db : option t) (tk : string) (lookbackDays : Z)
  : result StockScore :=
  match db with
  | None => Ok (defaultScore tk)
  | Some d =>
      match getAllActivityForTicker now tk lookbackDays d with
      | Throw e => Throw e
      | Ok activity =>
          let signals :=
            detectConvergence now (insiderTransactions activity)
              (congressTransactions activity)
              (institutionalHoldings activity) in
          match find (fun s => String.eqb (ticker s) tk) signals with
          | None => Ok (defaultScore tk)
          | Some tickerSignal => Ok (scoreOfSignal tk tickerSignal)
          end
      end
  end.

(** The loop of [getTopPicks] over the tickers. *)
Fixpoint scoreAll (now : Z) (db : option t) (lookbackDays : Z) (minScore : num)
    (tickers : list string) (scores : list StockScore)
  : result (list StockScore) :=
  match tickers with
  | [] => Ok scores
  | tk :: rest =>
      match scoreStock now db tk lookbackDays with
      | Throw e => Throw e
      | Ok score =>
          scoreAll now db lookbackDays minScore rest
            (if (overallScore score >=? minScore)%num
             then scores ++ [score] else scores)
      end
  end.

Definition getTopPicks (now : Z) (db : option t) (limit lookbackDays : Z)
    (minScore : num) : result (list StockScore) :=
  match db with
  | None => Ok []
  | Some d =>
      match getUniqueTickersWithActivity now lookbackDays d with
      | Throw e => Throw e
      | Ok tickers =>
          match scoreAll now db lookbackDays minScore tickers [] with
          | Throw e => Throw e
          | Ok scores =>
              Ok (slice0
                    (sort (fun a b =>
                             (overallScore b - overallScore a >? ofZ 0)%num)
                       scores)
                    limit)
          end
      end
  end.

Definition analyzeFromDatabase (now : Z) (db : option t) (lookbackDays : Z)
  : result (list ConvergenceSignal) :=
  match db with
  | None => Throw "Database not set"
  | Some d =>
      match getAllInsiderTransactions now lookbackDays d with
      | Throw e => Throw e
      | Ok i =>
          match getAllCongressTransactions now lookbackDays d with
          | Throw e => Throw e
          | Ok c =>
              match getAllInstitutionalHoldings now lookbackDays d with
              | Throw e => Throw e
              | Ok h => Ok (detectConvergence now i c h)
              end
          end
      end
  end.

End Analyzer.

(** ** backtest/backtester.ts: signals of a period, several periods, statistics *)

Module BacktestReports.
Import Database DatabaseQueries Backtester.

(** [Math.ceil((endDate.getTime() - startDate.getTime()) / msPerDay)] *)
Definition daysDiff (startDate endDate : Z) : Z :=
  (- ((- (endDate - startDate)) / msPerDay))%Z.

(** [generateSignalsForPeriod]; [db] is [this.db]. *)
Definition generateSignalsForPeriod (now : Z) (db : option t)
    (startDate endDate : Z) : result (list ConvergenceSignal) :=
  match db with
  | Some d => getConvergenceSignals now (daysDiff startDate endDate) d
  | None => Ok []
  end.

(** [loadHistoricalSignals] does the same under another name. *)
Definition loadHistoricalSignals (now : Z) (db : option t)
    (startDate endDate : Z) : result (list ConvergenceSignal) :=
  match db with
  | None => Ok []
  | Some d => getConvergenceSignals now (daysDiff startDate endDate) d
  end.

(** [runBacktest(config)] with the signals it fetches itself. *)
Definition runBacktestFromStore (now : Z) (db : option t)
    (loadHistoricalPrices : string -> Z -> Z -> list HistoricalPrice)
    (cfg : BacktestConfig) : result (heap * BacktestResult) :=
  match generateSignalsForPeriod now db (startDate cfg) (endDate cfg) with
  | Throw e => Throw e
  | Ok signals =>
      match runBacktest loadHistoricalPrices signals cfg with
      | Some r => Ok r
      | None => Throw "the loop did not end"
      end
  end.

Record MultiPeriodConfig := {
  periods : list (Z * Z);
  m_initialCapital : num;
  m_minConvergenceScore : num;
  m_maxPositions : Z;
  m_holdingPeriodDays : Z
}.

(** The configuration [runMultiplePeriods] builds for one period: it names
    neither [stopLoss] nor [takeProfit]. *)
Definition periodConfig (mc : MultiPeriodConfig) (p : Z * Z) : BacktestConfig :=
  {| startDate := fst p; endDate := snd p;
     initialCapital := m_initialCapital mc;
     minConvergenceScore := m_minConvergenceScore mc;
     maxPositions := m_maxPositions mc;
     holdingPeriodDays := m_holdingPeriodDays mc;
     stopLoss := None; takeProfit := None |}.

(** [{...result, period}] *)
Definition withPeriod (r : BacktestResult) (p : Z * Z) : BacktestResult :=
  {| config := config r; period := Some p; trades := trades r;
     totalReturn := totalReturn r;
     totalReturnDollars := totalReturnDollars r;
     finalCapital := finalCapital r; winRate := winRate r;
     avgWin := avgWin r; avgLoss := avgLoss r;
     maxDrawdown := maxDrawdown r; maxDrawdownDate := maxDrawdownDate r;
     totalTrades := totalTrades r; winningTrades := winningTrades r;
     losingTrades := losingTrades r;
     avgHoldingPeriod := avgHoldingPeriod r;
     bestTrade := bestTrade r; worstTrade := worstTrade r |}.

Fixpoint runPeriods (now : Z) (db : option t)
    (loadHistoricalPrices : string -> Z -> Z -> list HistoricalPrice)
    (mc : MultiPeriodConfig) (ps : list (Z * Z))
    (results : list (heap * BacktestResult))
  : result (list (heap * BacktestResult)) :=
  match ps with
  | [] => Ok results
  | p :: rest =>
      match runBacktestFromStore now db loadHistoricalPrices (periodConfig mc p) with
      | Throw e => Throw e
      | Ok (h, r) =>
          runPeriods now db loadHistoricalPrices mc rest
            (results ++ [(h, withPeriod r p)])
      end
  end.

Definition runMultiplePeriods (now : Z) (db : option t)
    (loadHistoricalPrices : string -> Z -> Z -> list HistoricalPrice)
    (mc : MultiPeriodConfig) : result (list (heap * BacktestResult)) :=
  runPeriods now db loadHistoricalPrices mc (periods mc) [].

Record PeriodReturn := {
  pr_period : option (Z * Z);
  pr_return : num
}.

Record AggregateStats := {
  averageReturn : num;
  medianReturn : num;
  a_totalTrades : nat;
  overallWinRate : num;
  bestPeriod : PeriodReturn;
  worstPeriod : PeriodReturn;
  consistencyScore : num;
  averageAlpha : num
}.

Definition pickBestPeriod (best : option BacktestResult) (r : BacktestResult)
  : option BacktestResult :=
  let bound :=
    match best with
    | Some b => or (totalReturn b) NInf
    | None => NInf
    end in
  if (totalReturn r >? bound)%num then Some r else best.

Definition pickWorstPeriod (worst : option BacktestResult) (r : BacktestResult)
  : option BacktestResult :=
  let bound :=
    match worst with
    | Some b => or (totalReturn b) PInf
    | None => PInf
    end in
  if (totalReturn r <? bound)%num then Some r else worst.

Definition periodReturnOf (now : Z) (r : option BacktestResult) : PeriodReturn :=
  match r with
  | Some r => {| pr_period := period r; pr_return := totalReturn r |}
  | None => {| pr_period := Some (now, now); pr_return := ofZ 0 |}
  end.

(** The middle of a list of returns in ascending order. *)
Definition median (returns : list num) : num :=
  let n := List.length returns in
  if Nat.ltb 0 n then
    if Nat.eqb (n mod 2) 0
    then ((nth (n / 2 - 1) returns NaN + nth (n / 2) returns NaN) / ofZ 2)%num
    else nth (n / 2) returns NaN
  else ofZ 0.

Definition calculateAggregateStats (now : Z)
    (loadHistoricalPrices : string -> Z -> Z -> list HistoricalPrice)
    (results : list BacktestResult) : AggregateStats :=
  let returns :=
    ConvergenceAnalyzer.sort (fun a b => (a - b >? ofZ 0)%num)
      (map totalReturn results) in
  let n := List.length results in
  let totalTrades := fold_left (fun sum r => (sum + totalTrades r)%nat) results 0%nat in
  let totalWins := fold_left (fun sum r => (sum + winningTrades r)%nat) results 0%nat in
  let positiveReturns :=
    List.length (filter (fun r => (totalReturn r >? ofZ 0)%num) results) in
  let totalAlpha :=
    fold_left
      (fun sum r => (sum + alpha (compareToSPY loadHistoricalPrices r))%num)
      results (ofZ 0) in
  {| averageReturn :=
       if Nat.ltb 0 (List.length returns)
       then (sumBy (fun r => r) returns / ofNat (List.length returns))%num
       else ofZ 0;
     medianReturn := median returns;
     a_totalTrades := totalTrades;
     overallWinRate :=
       if Nat.ltb 0 totalTrades then (ofNat totalWins / ofNat totalTrades)%num
       else ofZ 0;
     bestPeriod := periodReturnOf now (fold_left pickBestPeriod results None);
     worstPeriod := periodReturnOf now (fold_left pickWorstPeriod results None);
     consistencyScore :=
       if Nat.ltb 0 n then (ofNat positiveReturns / ofNat n)%num else ofZ 0;
     averageAlpha :=
       if Nat.ltb 0 n then (totalAlpha / ofNat n)%num else ofZ 0 |}.

End BacktestReports.

(** ** runPaperTrading.ts: the time-decay weights *)

Module TimeDecay.
Import Backtester.

Definition getInsiderTimeDecayWeight (daysOld : num) : num :=
  if (daysOld <=? ofZ 5)%num then ofZ 1
  else if (daysOld <=? ofZ 14)%num then frac 85 100
  else if (daysOld <=? ofZ 30)%num then frac 65 100
  else if (daysOld <=? ofZ 60)%num then frac 45 100
  else if (daysOld <=? ofZ 90)%num then frac 30 100
  else if (daysOld <=? ofZ 180)%num then frac 15 100
  else frac 5 100.

Inductive ExecutiveKind := IsCFO | IsCEO | Other (baseMultiplier : num).

(** The first chain of tests of [getExecutiveAlphaMultiplier]. *)
Definition executiveKind (title : string) : ExecutiveKind :=
  let titleUpper := toUpperCase title in
  if (includes titleUpper "CFO" || includes titleUpper "CHIEF FINANCIAL")%bool
  then IsCFO
  else if (includes titleUpper "CEO" || includes titleUpper "CHIEF EXECUTIVE")%bool
  then IsCEO
  else if (includes titleUpper "COO" || includes titleUpper "PRESIDENT"
           || includes titleUpper "CHIEF OPERATING")%bool
  then Other (frac 95 100)
  else if includes titleUpper "FOUNDER" then Other (frac 105 100)
  else if (includes titleUpper "10%" || includes titleUpper "OWNER")%bool
  then Other (frac 90 100)
  else if (includes titleUpper "VICE PRESIDENT" || includes titleUpper "EVP"
           || includes titleUpper "SVP")%bool
  then Other (frac 85 100)
  else if includes titleUpper "DIRECTOR" then Other (frac 75 100)
  else if includes titleUpper "OFFICER" then Other (frac 70 100)
  else Other (frac 65 100).

Definition getExecutiveAlphaMultiplier (title : string) (daysOld : num) : num :=
  match executiveKind title with
  | IsCFO =>
      if (daysOld <=? ofZ 90)%num then frac 126 100
      else if (daysOld <=? ofZ 180)%num then frac 112 100
      else if (daysOld <=? ofZ 270)%num then frac 110 100
      else frac 102 100
  | IsCEO =>
      if (daysOld <=? ofZ 90)%num then ofZ 1
      else if (daysOld <=? ofZ 180)%num then frac 95 100
      else frac 90 100
  | Other baseMultiplier => baseMultiplier
  end.

Definition getCongressTimeDecayWeight (daysOld : num) (isEliteTrader : bool)
  : num :=
  let eliteMultiplier := if isEliteTrader then frac 15 10 else ofZ 1 in
  let baseWeight :=
    if (daysOld <=? ofZ 14)%num then frac 80 100
    else if (daysOld <=? ofZ 30)%num then frac 60 100
    else if (daysOld <=? ofZ 45)%num then frac 45 100
    else if (daysOld <=? ofZ 60)%num then frac 30 100
    else if (daysOld <=? ofZ 90)%num then frac 15 100
    else frac 5 100 in
  min (baseWeight * eliteMultiplier)%num (ofZ 1).

(** [daysSinceTrade(tradeDate)]: [trade] is the time value of
    [new Date(tradeDate)], NaN when the string is no date. *)
Definition daysSinceTrade (now : Z) (trade : num) : num :=
  floor ((ofZ now - trade) / ofZ msPerDay)%num.

End TimeDecay.

(** ** paperTrading/autoTrader.ts: sizing a buy *)

Module AutoTrader.

Module CONFIG.
Definition MAX_POSITION_PERCENT : num := frac 10 100.
Definition MIN_CASH_RESERVE : num := ofZ 1000.
Definition MAX_POSITIONS : nat := 20.
End CONFIG.

(** What the broker answers during one [executePick], every call
    succeeding: the market state, whether the ticker is held, the account,
    the number of positions, the latest price and the status of the order. *)
Record Broker := {
  isMarketOpen : bool;
  hasPosition : bool;
  equity : num;
  cash : num;
  positionCount : nat;
  latestPrice : num;
  orderStatus : string;
  orderQty : num
}.

Inductive Action := buy | sell | skip.

Record TradeResult := {
  success : bool;
  symbol : string;
  action : Action;
  reason : string;
  amount : option num;
  tr_shares : option num;
  price : option num
}.

Definition skipped (tk why : string) : TradeResult :=
  {| success := false; symbol := tk; action := skip; reason := why;
     amount := None; tr_shares := None; price := None |}.

Definition executePick (b : Broker) (tk : string) (confidence : num)
  : TradeResult :=
  if negb (isMarketOpen b) then skipped tk "Market is closed"
  else if hasPosition b then skipped tk "Already holding this position"
  else if Nat.leb CONFIG.MAX_POSITIONS (positionCount b)
  then skipped tk "Max positions reached (20)"
  else
    let confidenceMultiplier := min (confidence / ofZ 100)%num (ofZ 1) in
    let maxPositionSize := (equity b * CONFIG.MAX_POSITION_PERCENT)%num in
    let positionSize := (maxPositionSize * confidenceMultiplier)%num in
    let availableCash := (cash b - CONFIG.MIN_CASH_RESERVE)%num in
    if ((availableCash <? positionSize)%num && (availableCash <? ofZ 100)%num)%bool
    then skipped tk "Insufficient cash"
    else
      let tradeAmount := min positionSize availableCash in
      {| success := true; symbol := tk; action := buy;
         reason := ("Order submitted: " ++ orderStatus b)%string;
         amount := Some tradeAmount; tr_shares := Some (orderQty b);
         price := Some (latestPrice b) |}.

End AutoTrader.

(** ** db/database.ts: the store on file

    With a path other than [':memory:'], which is what every runner uses
    ([new Database()]), the store is a JSON file: [db.write()] puts
    [JSON.stringify(data)] in the file and [db.read()] takes
    [JSON.parse] of the file for [data].  A [Date] does not survive the round
    trip: it goes out as the ISO string of its time value and comes back as
    that string.  The insider transactions are modelled; the other two
    collections of events are saved with the same code. *)

Module DatabaseOnDisk.
Import Backtester DatabaseQueries.

(** A date field of a record at run time: the [Date] object of an incoming
    event, or the ISO string read back from the file.  Both carry the time
    value. *)
Inductive DateField := DateObject (t : Z) | IsoString (t : Z).

(** [new Date(x).getTime()] *)
Definition timeOf (d : DateField) : Z :=
  match d with DateObject t => t | IsoString t => t end.

(** [JSON.parse(JSON.stringify(x))] on a date field. *)
Definition dateThroughJSON (d : DateField) : DateField := IsoString (timeOf d).

Record RawInsiderTransaction := {
  raw_id : option string;
  raw_ticker : string;
  raw_companyName : option string;
  raw_insiderName : string;
  raw_insiderTitle : string;
  raw_transactionType : TransactionType;
  raw_shares : num;
  raw_pricePerShare : num;
  raw_transactionDate : DateField;
  raw_filingDate : DateField
}.

(** [JSON.parse(JSON.stringify(tx))], for a record whose numbers are
    finite: strings and finite numbers come back as they went. *)
Definition throughJSON (tx : RawInsiderTransaction) : RawInsiderTransaction :=
  {| raw_id := raw_id tx; raw_ticker := raw_ticker tx;
     raw_companyName := raw_companyName tx;
     raw_insiderName := raw_insiderName tx;
     raw_insiderTitle := raw_insiderTitle tx;
     raw_transactionType := raw_transactionType tx;
     raw_shares := raw_shares tx; raw_pricePerShare := raw_pricePerShare tx;
     raw_transactionDate := dateThroughJSON (raw_transactionDate tx);
     raw_filingDate := dateThroughJSON (raw_filingDate tx) |}.

(** [file] is the collection in the JSON file, [None] while there is no
    file; [data] is [this.db?.data]; [idsDrawn] counts the calls of
    [generateId]. *)
Record t := {
  file : option (list RawInsiderTransaction);
  data : option (list RawInsiderTransaction);
  idsDrawn : nat
}.

(** Before the first run: no file, no [initialize] yet. *)
Definition newStore : t := {| file := None; data := None; idsDrawn := 0 |}.

(** [initialize()]: [db.read()], and the default data written out when the
    file has none. *)
Definition initialize (d : t) : t :=
  match file d with
  | Some l => {| file := file d; data := Some l; idsDrawn := idsDrawn d |}
  | None => {| file := Some []; data := Some []; idsDrawn := idsDrawn d |}
  end.

(** [close()]: a last [db.write()], and [this.db = null]. *)
Definition close (d : t) : t :=
  {| file := match data d with
             | Some l => Some (map throughJSON l)
             | None => file d
             end;
     data := None; idsDrawn := idsDrawn d |}.

Section Keys.
(** What a template literal makes of a [Date] ([Date.prototype.toString]),
    the ISO string [JSON.stringify] makes of it, what a template literal
    makes of a number, and the strings [generateId] returns. *)
Variable dateToString : Z -> string.
Variable toISOString : Z -> string.
Variable showNum : num -> string.
Variable generateId : nat -> string.

Local Open Scope string_scope.

(** [`${x}`] for a date field: a string is interpolated as it is. *)
Definition showDateField (d : DateField) : string :=
  match d with
  | DateObject t => dateToString t
  | IsoString t => toISOString t
  end.

Definition getTransactionKey (tx : RawInsiderTransaction) : string :=
  raw_ticker tx ++ "-" ++ raw_insiderName tx ++ "-"
    ++ showDateField (raw_transactionDate tx) ++ "-" ++ showNum (raw_shares tx).

Definition withId (tx : RawInsiderTransaction) (id : string) :=
  {| raw_id := Some id; raw_ticker := raw_ticker tx;
     raw_companyName := raw_companyName tx;
     raw_insiderName := raw_insiderName tx;
     raw_insiderTitle := raw_insiderTitle tx;
     raw_transactionType := raw_transactionType tx;
     raw_shares := raw_shares tx; raw_pricePerShare := raw_pricePerShare tx;
     raw_transactionDate := raw_transactionDate tx;
     raw_filingDate := raw_filingDate tx |}.

Definition saveInsiderTransaction (transaction : RawInsiderTransaction) (d : t)
  : result t :=
  match data d with
  | None => Throw "Database not initialized"
  | Some l =>
      let key := getTransactionKey transaction in
      let exists_ :=
        existsb (fun tx => String.eqb (getTransactionKey tx) key) l in
      if negb exists_ then
        let l' := (l ++ [withId transaction (generateId (idsDrawn d))])%list in
        Ok {| file := Some (map throughJSON l'); data := Some l';
              idsDrawn := S (idsDrawn d) |}
      else Ok d
  end.

End Keys.

Definition getInsiderTransactions (now : Z) (tk : string) (lookbackDays : Z)
    (d : t) : result (list RawInsiderTransaction) :=
  match data d with
  | None => Throw "Database not initialized"
  | Some l =>
      Ok (filter
            (fun tx =>
               (String.eqb (raw_ticker tx) tk
                && (timeOf (raw_transactionDate tx)
                    >=? cutoff now lookbackDays)%Z)%bool)
            l)
  end.

End DatabaseOnDisk.

(** ** More notions and inputs for the properties *)

Module MoreNotions.
Import ConvergenceAnalyzer Backtester Database DatabaseQueries.
Import BacktestReports AutoTrader Scenarios.

(** The holding [h] with another change classification. *)
Definition withChange (h : InstitutionalHolding) (c : option ChangeType)
  : InstitutionalHolding :=
  {| h_id := h_id h; h_ticker := h_ticker h;
     institutionName := institutionName h;
     institutionCIK := institutionCIK h; h_companyName := h_companyName h;
     h_shares := h_shares h; h_value := h_value h;
     h_filingDate := h_filingDate h; h_reportDate := h_reportDate h;
     h_changeType := c; h_ownershipPercent := h_ownershipPercent h |}.

(** A legislator's transaction as the weight function sees it. *)
Definition congressEvent (committees : option (list string)) (kind : string)
    (lo hi : num) : CongressWeightInput :=
  {| wc_memberName := "Member"; wc_committees := committees;
     wc_transactionType := kind;
     wc_amountRange := {| rmin := lo; rmax := hi |} |}.

(** The free slots [enter] divides the cash by. *)
Definition slots (cfg : BacktestConfig) (s : Sim) : Z :=
  (maxPositions cfg - Z.of_nat (List.length (openPositions s)))%Z.

(** A trade whose entry and exit dates are the [Date] object of
    [currentDate], with no day counted between them. *)
Definition sameDay (t : BacktestTrade) : Prop :=
  t_entryDate t = 0%nat /\ exitDate t = 0%nat /\ holdingDays t = 0%Z.

(** What the exit reason of a trade tells about the configuration and the
    return of the trade. *)
Definition justified (cfg : BacktestConfig) (t : BacktestTrade) : Prop :=
  match exitReason t with
  | stop_loss =>
      exists sl, stopLoss cfg = Some sl /\ truthy sl = true
                 /\ (returnPercent t <=? neg sl)%num = true
  | take_profit =>
      exists tp, takeProfit cfg = Some tp /\ truthy tp = true
                 /\ (returnPercent t >=? tp)%num = true
  | holding_period => (holdingPeriodDays cfg <= 0)%Z
  | end_of_test => True
  end.

(** A finite number other than 0: a number that [x || y] keeps. *)
Definition finiteNonzero (x : num) : Prop := exists q, x = Fin q /\ ~ q == 0.

(** An initialized store with one signal on file and nothing else. *)
Definition storeWithSignal (sg : ConvergenceSignal) : Database.t :=
  {| Database.data :=
       Some {| insider_transactions := []; congress_transactions := [];
               institutional_holdings := []; convergence_signals := [sg] |};
     Database.idsDrawn := 0 |}.

(** The database of a backtester, when it has one, is initialized. *)
Definition ready (db : option Database.t) : Prop :=
  match db with
  | Some d => Database.data d <> None
  | None => True
  end.

(** Two periods of two days, run with the settings of [baseConfig]. *)
Definition twoPeriods : MultiPeriodConfig :=
  {| periods := [(day0, day1); (day1, day2)];
     m_initialCapital := ofZ 100000; m_minConvergenceScore := ofZ 60;
     m_maxPositions := 5; m_holdingPeriodDays := 1 |}.

(** The count a list of entries holds for a key, 0 when the key is missing. *)
Definition countFor (tk : string) (m : list (string * nat)) : nat :=
  match find (fun e => String.eqb (fst e) tk) m with
  | Some e => snd e
  | None => 0%nat
  end.

(** The events of a ticker that [getTopStocksByActivity] counts: the
    insider and legislator transactions and the increased holdings since
    the cutoff. *)
Definition activityOf (now lookbackDays : Z) (dt : DatabaseSchema)
    (tk : string) : nat :=
  let c := cutoff now lookbackDays in
  (List.length
     (filter (fun tx => ((i_transactionDate tx >=? c)%Z
                         && String.eqb (i_ticker tx) tk)%bool)
        (insider_transactions dt))
   + List.length
       (filter (fun tx => ((c_transactionDate tx >=? c)%Z
                           && String.eqb (c_ticker tx) tk)%bool)
          (congress_transactions dt))
   + List.length
       (filter (fun h => ((h_filingDate h >=? c)%Z
                          && match h_changeType h with
                             | Some INCREASE => true
                             | _ => false
                             end
                          && String.eqb (h_ticker h) tk)%bool)
          (institutional_holdings dt)))%nat.

(** A broker with the market open, 3 positions, 50000 of equity and 3000 of
    cash, that does not hold the ticker asked about. *)
Definition openBroker : Broker :=
  {| isMarketOpen := true; hasPosition := false; equity := ofZ 50000;
     cash := ofZ 3000; positionCount := 3; latestPrice := ofZ 120;
     orderStatus := "accepted"; orderQty := ofZ 10 |}.

(** A signal for AMD dated on the first day of the window, and a price
    service under which NVDA rises from 100 to 130 and every other ticker
    falls from 50 to 25. *)
Definition amd : ConvergenceSignal :=
  {| ticker := "AMD"; companyName := None; date := day0;
     convergenceScore := ofZ 70; insiderScore := ofZ 60;
     congressScore := ofZ 50; institutionalScore := ofZ 40;
     convergenceBonus := ofZ 15;
     signals := {| insiderBuys := 1; congressBuys := 1;
                   institutionalIncreases := 0 |};
     recentBuyers := [] |}.

Definition twoStocks (tk : string) (_ _ : Z) : list HistoricalPrice :=
  if String.eqb tk "NVDA"
  then [bar day0 (ofZ 100); bar day1 (ofZ 130)]
  else [bar day0 (ofZ 50); bar day1 (ofZ 25)].

(** A string of ASCII characters, on which [toUpperCase] and [toLowerCase]
    of [String.prototype] change the letters a-z and A-Z only. *)
Definition asciiOnly (s : string) : Prop :=
  forallb (fun c => Nat.ltb (nat_of_ascii c) 128) (list_ascii_of_string s) = true.

(** Midnight UTC of 15 January 2024, its renderings by
    [Date.prototype.toString] in the zone UTC and by [toISOString] (the
    renderings of other time values are not needed and left unspecific),
    and an insider buy dated then, as a scraper hands it over. *)
Definition jan15 : Z := 1705276800000.

Definition toStringUTC (t : Z) : string :=
  if (t =? jan15)%Z
  then "Mon Jan 15 2024 00:00:00 GMT+0000 (Coordinated Universal Time)"
  else "another Date".

Definition toISOStringUTC (t : Z) : string :=
  if (t =? jan15)%Z then "2024-01-15T00:00:00.000Z" else "another ISO string".

Definition cookBuy : DatabaseOnDisk.RawInsiderTransaction :=
  {| DatabaseOnDisk.raw_id := None; DatabaseOnDisk.raw_ticker := "AAPL";
     DatabaseOnDisk.raw_companyName := None;
     DatabaseOnDisk.raw_insiderName := "Tim Cook";
     DatabaseOnDisk.raw_insiderTitle := "CEO";
     DatabaseOnDisk.raw_transactionType := BUY;
     DatabaseOnDisk.raw_shares := ofZ 10000;
     DatabaseOnDisk.raw_pricePerShare := frac 3610 20;
     DatabaseOnDisk.raw_transactionDate := DatabaseOnDisk.DateObject jan15;
     DatabaseOnDisk.raw_filingDate := DatabaseOnDisk.DateObject jan15 |}.

End MoreNotions.

Import MoreNotions.

(* ================================================================== *)
(** * Part II. Properties                                              *)
(* ================================================================== *)

(** ** Benchmark comparator *)

Module ComparatorFacts.
Import Backtester Scenarios.

Lemma compareToSPY_undefined feed result :
  benchmarkUndefined feed result ->
  compareToSPY feed result =
  {| strategyReturn := totalReturn result; spyReturn := ofZ 0;
     alpha := totalReturn result; outperformed := true;
     strategyFinalValue := finalCapital result;
     spyFinalValue := initialCapital (config result) |}.
Proof.
  unfold benchmarkUndefined, compareToSPY.
  destruct (period result) as [[a b]|]; [|reflexivity].
  intros H. apply Nat.ltb_lt in H. now rewrite H.
Qed.

(** C9.  With fewer than two benchmark bars (or no period) the comparison
    reports a benchmark return of 0 and an alpha equal to the strategy's
    total return; [compareToSPY] is a total function, so nothing is raised.
    With two or more bars the benchmark return is
    (last close - first close) / first close, in percent like the strategy's
    return, and alpha is the strategy's return minus it. *)
Theorem benchmark_comparison feed result :
  (benchmarkUndefined feed result ->
     spyReturn (compareToSPY feed result) = ofZ 0
     /\ alpha (compareToSPY feed result) = totalReturn result)
  /\ (forall a b first mid last_,
        period result = Some (a, b) ->
        feed "SPY"%string a b = first :: mid ++ [last_] ->
        spyReturn (compareToSPY feed result)
          = ((close last_ - close first) / close first * ofZ 100)%num
        /\ alpha (compareToSPY feed result)
          = (totalReturn result - spyReturn (compareToSPY feed result))%num).
Proof.
  split.
  - intros H. rewrite (compareToSPY_undefined _ _ H). now split.
  - intros a b first mid last_ Hp Hf.
    unfold compareToSPY. rewrite Hp, Hf.
    replace (Nat.ltb (List.length (first :: mid ++ [last_])) 2) with false.
    2:{ symmetry. apply Nat.ltb_ge. simpl. rewrite length_app. simpl. lia. }
    assert (Hl : last (map Some (first :: mid ++ [last_])) None = Some last_).
    { change (first :: mid ++ [last_]) with ((first :: mid) ++ [last_]).
      rewrite map_app. simpl map at 2. apply last_last. }
    rewrite Hl. simpl. now split.
Qed.

Lemma benchmark_comparison_witness :
  (spyReturn (compareToSPY noPrices (losingResult (Some (day0, day1)))) = ofZ 0
   /\ alpha (compareToSPY noPrices (losingResult (Some (day0, day1)))) = ofZ (-3))
  /\ spyReturn (compareToSPY spyBars (losingResult (Some (day0, day1))))
     = ((ofZ 533 - ofZ 453) / ofZ 453 * ofZ 100)%num.
Proof.
  split.
  - apply (proj1 (benchmark_comparison noPrices (losingResult (Some (day0, day1))))).
    cbv. lia.
  - apply (proj2 (benchmark_comparison spyBars (losingResult (Some (day0, day1))))
             day0 day1 (bar day0 (ofZ 453)) [] (bar day1 (ofZ 533))).
    + reflexivity.
    + reflexivity.
Defined.

(** C10.  Whenever the benchmark is undefined the comparison reports
    [outperformed = true], whatever the strategy returned; there is a result
    with a strictly negative total return for which it does. *)
Theorem undefined_benchmark_outperformed :
  (forall feed result,
      benchmarkUndefined feed result ->
      outperformed (compareToSPY feed result) = true)
  /\ (exists feed result,
        (totalReturn result <? ofZ 0)%num = true
        /\ benchmarkUndefined feed result
        /\ outperformed (compareToSPY feed result) = true).
Proof.
  split.
  - intros feed result H. now rewrite (compareToSPY_undefined _ _ H).
  - exists noPrices, (losingResult None). repeat split.
Qed.

Lemma undefined_benchmark_outperformed_witness :
  outperformed (compareToSPY noPrices (losingResult (Some (day0, day1)))) = true.
Proof.
  apply (proj1 undefined_benchmark_outperformed).
  cbv. lia.
Defined.

End ComparatorFacts.

(** ** Ingestion into the store *)

Module DatabaseFacts.
Import Database Scenarios.

Section KeyedList.
Variable A : Type.
Variable key : A -> string.

Lemma known_app k l z :
  known key k (l ++ [z]) = (known key k l || String.eqb (key z) k)%bool.
Proof.
  unfold known. rewrite existsb_app. simpl. now rewrite orb_false_r.
Qed.

Lemma keyCount_app k l z :
  keyCount key k (l ++ [z])
  = (keyCount key k l + if String.eqb (key z) k then 1 else 0)%nat.
Proof.
  unfold keyCount. rewrite filter_app, length_app. simpl.
  now destruct (String.eqb (key z) k).
Qed.

Lemma unknown_count k l : known key k l = false -> keyCount key k l = 0%nat.
Proof.
  unfold known, keyCount. induction l as [|y l IH]; simpl; [easy|].
  destruct (String.eqb (key y) k); simpl; [discriminate|exact IH].
Qed.

Lemma known_unique_count k l :
  NoDup (map key l) -> known key k l = true -> keyCount key k l = 1%nat.
Proof.
  induction l as [|y l IH]; intros Hnd Hk; [discriminate|].
  simpl in Hnd. inversion Hnd as [|? ? Hnotin Hnd']; subst.
  unfold known in Hk. simpl in Hk. unfold keyCount. simpl.
  destruct (String.eqb (key y) k) eqn:E; simpl in *.
  - f_equal. apply String.eqb_eq in E. subst k.
    apply unknown_count. unfold known.
    destruct (existsb _ l) eqn:Ex in |- *; [|reflexivity].
    apply existsb_exists in Ex. destruct Ex as [z [Hz Ez]].
    apply String.eqb_eq in Ez. exfalso. apply Hnotin.
    rewrite <- Ez. now apply in_map.
  - now apply IH.
Qed.

Lemma unknown_notin k l : known key k l = false -> ~ In k (map key l).
Proof.
  intros Hk Hin. apply in_map_iff in Hin. destruct Hin as [y [Ey Hy]].
  assert (known key k l = true); [|congruence].
  apply existsb_exists. exists y. split; [exact Hy|].
  now apply String.eqb_eq.
Qed.
End KeyedList.

Section Idempotence.
Variable showDate : Z -> string.
Variable showNum : num -> string.
Variable generateId : nat -> string.

Abbreviation insiderKey := (getTransactionKey showDate showNum).
Abbreviation congressKey := (getCongressKey showDate showNum).
Abbreviation holdingKey := (getHoldingKey showDate).
Abbreviation saveInsider := (saveInsiderTransaction showDate showNum generateId).
Abbreviation saveCongress := (saveCongressTransaction showDate showNum generateId).
Abbreviation saveHolding := (saveInstitutionalHolding showDate generateId).

Lemma insider_key_stamped tx id :
  insiderKey (withInsiderId tx id) = insiderKey tx.
Proof. reflexivity. Qed.
Lemma congress_key_stamped tx id :
  congressKey (withCongressId tx id) = congressKey tx.
Proof. reflexivity. Qed.
Lemma holding_key_stamped h id :
  holdingKey (withHoldingId h id) = holdingKey h.
Proof. reflexivity. Qed.

(** Both saves, for the collection [l] of [dt] keyed by [key]: either the
    key is known already and nothing changes, or the first save appends
    the stamped record and the second one finds it. *)
Ltac settle_save key k l Hd Hnd Hk stamped :=
  let Ex := fresh "Ex" in
  rewrite Hd;
  change (existsb (fun y => String.eqb (key y) k) l) with (known key k l);
  destruct (known key k l) eqn:Ex; simpl;
  [ eexists; split; [reflexivity|]; rewrite Hd; simpl; split;
    [ rewrite Hk;
      change (existsb (fun y => String.eqb (key y) k) l) with (known key k l);
      rewrite Ex; reflexivity
    | now apply known_unique_count ]
  | eexists; split; [reflexivity|]; simpl; split;
    [ rewrite Hk;
      match goal with
      | |- context [existsb ?f (l ++ [?z])] =>
          change (existsb f (l ++ [z])) with (known key k (l ++ [z]))
      end;
      rewrite known_app, stamped, String.eqb_refl, orb_true_r; reflexivity
    | rewrite keyCount_app, stamped, String.eqb_refl;
      rewrite (unknown_count _ _ _ Ex); reflexivity ] ].

Lemma insider_idempotent d dt tx tx' :
  data d = Some dt ->
  distinctKeys insiderKey (insider_transactions dt) ->
  insiderKey tx' = insiderKey tx ->
  exists d1,
    saveInsider tx d = Ok d1
    /\ saveInsider tx' d1 = Ok d1
    /\ match data d1 with
       | Some dt1 =>
           keyCount insiderKey (insiderKey tx) (insider_transactions dt1) = 1%nat
       | None => False
       end.
Proof.
  intros Hd Hnd Hk. unfold saveInsiderTransaction.
  settle_save (getTransactionKey showDate showNum)
    (getTransactionKey showDate showNum tx) (insider_transactions dt)
    Hd Hnd Hk insider_key_stamped.
Qed.

Lemma congress_idempotent d dt tx tx' :
  data d = Some dt ->
  distinctKeys congressKey (congress_transactions dt) ->
  congressKey tx' = congressKey tx ->
  exists d1,
    saveCongress tx d = Ok d1
    /\ saveCongress tx' d1 = Ok d1
    /\ match data d1 with
       | Some dt1 =>
           keyCount congressKey (congressKey tx) (congress_transactions dt1) = 1%nat
       | None => False
       end.
Proof.
  intros Hd Hnd Hk. unfold saveCongressTransaction.
  settle_save (getCongressKey showDate showNum)
    (getCongressKey showDate showNum tx) (congress_transactions dt)
    Hd Hnd Hk congress_key_stamped.
Qed.

Lemma holding_idempotent d dt h h' :
  data d = Some dt ->
  distinctKeys holdingKey (institutional_holdings dt) ->
  holdingKey h' = holdingKey h ->
  exists d1,
    saveHolding h d = Ok d1
    /\ saveHolding h' d1 = Ok d1
    /\ match data d1 with
       | Some dt1 =>
           keyCount holdingKey (holdingKey h) (institutional_holdings dt1) = 1%nat
       | None => False
       end.
Proof.
  intros Hd Hnd Hk. unfold saveInstitutionalHolding.
  settle_save (getHoldingKey showDate)
    (getHoldingKey showDate h) (institutional_holdings dt)
    Hd Hnd Hk holding_key_stamped.
Qed.

(** Saving keeps the keys of the insider collection pairwise distinct, so
    every store built from the empty one by saves has distinct keys. *)
Lemma saveInsider_keeps_distinct d dt tx d1 dt1 :
  data d = Some dt -> distinctKeys insiderKey (insider_transactions dt) ->
  saveInsider tx d = Ok d1 -> data d1 = Some dt1 ->
  distinctKeys insiderKey (insider_transactions dt1).
Proof.
  intros Hd Hnd Hs Hd1. unfold saveInsiderTransaction in Hs.
  rewrite Hd in Hs.
  destruct (existsb _ _) eqn:Ex in Hs; simpl in Hs.
  - inversion Hs; subst. congruence.
  - inversion Hs; subst. simpl in Hd1. inversion Hd1; subst. simpl.
    unfold distinctKeys. rewrite map_app. simpl.
    apply NoDup_app_remove_l with (l := []). simpl.
    apply Permutation_NoDup with (l := insiderKey tx :: map insiderKey (insider_transactions dt)).
    + rewrite insider_key_stamped. apply Permutation_cons_append.
    + constructor; [|exact Hnd]. now apply unknown_notin.
Qed.
End Idempotence.

(** A batch that holds an event twice stores it once. *)
Lemma batch_with_duplicate showDate showNum generateId d dt tx :
  data d = Some dt ->
  distinctKeys (getTransactionKey showDate showNum) (insider_transactions dt) ->
  saveInsiderTransactions showDate showNum generateId [tx; tx] d
  = saveInsiderTransaction showDate showNum generateId tx d.
Proof.
  intros Hd Hnd.
  destruct (@insider_idempotent showDate showNum generateId d dt tx tx
              Hd Hnd eq_refl) as (d1 & E1 & E2 & _).
  simpl. now rewrite E1, E2.
Qed.

(** Events that agree on ticker, name, transaction date and share count
    have the same dedup key. *)
Lemma same_event_same_key showDate showNum tx tx' :
  i_ticker tx' = i_ticker tx -> insiderName tx' = insiderName tx ->
  i_transactionDate tx' = i_transactionDate tx -> i_shares tx' = i_shares tx ->
  getTransactionKey showDate showNum tx' = getTransactionKey showDate showNum tx.
Proof.
  intros E1 E2 E3 E4. unfold getTransactionKey. now rewrite E1, E2, E3, E4.
Qed.

(** Within one run ingestion is idempotent under equality of dedup keys.
    In an initialised store whose keys are pairwise distinct, saving an insider
    event and then an event with the same key
    (ticker-name-transaction date-shares) succeeds both times, the second
    save leaves the store as it is, and exactly one stored record carries
    the key; likewise for legislator events
    (ticker-member-transaction date-range minimum) and institutional
    holdings (ticker-institution CIK-report date). *)
Theorem ingestion_idempotent
    (showDate : Z -> string) (showNum : num -> string) (generateId : nat -> string)
    (d : t) (dt : DatabaseSchema) :
  data d = Some dt ->
  (forall tx tx',
      distinctKeys (getTransactionKey showDate showNum) (insider_transactions dt) ->
      getTransactionKey showDate showNum tx' = getTransactionKey showDate showNum tx ->
      exists d1,
        saveInsiderTransaction showDate showNum generateId tx d = Ok d1
        /\ saveInsiderTransaction showDate showNum generateId tx' d1 = Ok d1
        /\ match data d1 with
           | Some dt1 =>
               keyCount (getTransactionKey showDate showNum)
                 (getTransactionKey showDate showNum tx)
                 (insider_transactions dt1) = 1%nat
           | None => False
           end)
  /\ (forall tx tx',
      distinctKeys (getCongressKey showDate showNum) (congress_transactions dt) ->
      getCongressKey showDate showNum tx' = getCongressKey showDate showNum tx ->
      exists d1,
        saveCongressTransaction showDate showNum generateId tx d = Ok d1
        /\ saveCongressTransaction showDate showNum generateId tx' d1 = Ok d1
        /\ match data d1 with
           | Some dt1 =>
               keyCount (getCongressKey showDate showNum)
                 (getCongressKey showDate showNum tx)
                 (congress_transactions dt1) = 1%nat
           | None => False
           end)
  /\ (forall h h',
      distinctKeys (getHoldingKey showDate) (institutional_holdings dt) ->
      getHoldingKey showDate h' = getHoldingKey showDate h ->
      exists d1,
        saveInstitutionalHolding showDate generateId h d = Ok d1
        /\ saveInstitutionalHolding showDate generateId h' d1 = Ok d1
        /\ match data d1 with
           | Some dt1 =>
               keyCount (getHoldingKey showDate) (getHoldingKey showDate h)
                 (institutional_holdings dt1) = 1%nat
           | None => False
           end).
Proof.
  intros Hd. repeat split.
  - intros tx tx' Hnd Hk. now apply insider_idempotent with (dt := dt).
  - intros tx tx' Hnd Hk. now apply congress_idempotent with (dt := dt).
  - intros h h' Hnd Hk. now apply holding_idempotent with (dt := dt).
Qed.

Lemma ingestion_idempotent_witness :
  exists d1,
    saveInsiderTransaction showZ showNum ids (ceoBuy "AAPL" "Tim Cook" 3) emptyStore
      = Ok d1
    /\ saveInsiderTransaction showZ showNum ids (ceoBuy "AAPL" "Tim Cook" 3) d1
      = Ok d1
    /\ match data d1 with
       | Some dt1 =>
           keyCount (getTransactionKey showZ showNum)
             (getTransactionKey showZ showNum (ceoBuy "AAPL" "Tim Cook" 3))
             (insider_transactions dt1) = 1%nat
       | None => False
       end.
Proof.
  apply (proj1 (@ingestion_idempotent showZ showNum ids emptyStore
                  defaultData eq_refl)).
  - constructor.
  - reflexivity.
Defined.

End DatabaseFacts.

(** ** The store on file *)

Module DiskFacts.
Import DatabaseOnDisk Scenarios.
Local Open Scope string_scope.

Lemma append_cancel_l a x y : a ++ x = a ++ y -> x = y.
Proof.
  induction a as [|c a IH]; simpl; [auto|]. intros [= H]. auto.
Qed.

Lemma length_append a b : String.length (a ++ b) = (String.length a + String.length b)%nat.
Proof.
  induction a as [|c a IH]; simpl; [reflexivity|]. now rewrite IH.
Qed.

Lemma append_cancel_r b x y : x ++ b = y ++ b -> x = y.
Proof.
  revert y. induction x as [|c x IH]; intros [|c' y] H; simpl in H.
  - reflexivity.
  - apply (f_equal String.length) in H. simpl in H.
    rewrite length_append in H. lia.
  - apply (f_equal String.length) in H. simpl in H.
    rewrite length_append in H. lia.
  - injection H as -> H. f_equal. now apply IH.
Qed.

Section Reload.
Variable dateToString toISOString : Z -> string.
Variable showNum : num -> string.
Variable generateId : nat -> string.

Abbreviation key := (getTransactionKey dateToString toISOString showNum).
Abbreviation save := (saveInsiderTransaction dateToString toISOString showNum generateId).

(** The key of a record and of the same record with another date field
    differ as the renderings of the two date fields do. *)
Lemma key_by_date tx tx' :
  raw_ticker tx' = raw_ticker tx -> raw_insiderName tx' = raw_insiderName tx ->
  raw_shares tx' = raw_shares tx ->
  (key tx' = key tx
   <-> showDateField dateToString toISOString (raw_transactionDate tx')
       = showDateField dateToString toISOString (raw_transactionDate tx)).
Proof.
  intros Et En Es. unfold getTransactionKey. rewrite Et, En, Es. split.
  - intros H. do 4 apply append_cancel_l in H. now apply append_cancel_r in H.
  - now intros ->.
Qed.

Lemma key_withId tx id : key (withId tx id) = key tx.
Proof. reflexivity. Qed.

(** C8, as the code has it.  Within one run the second save of an event
    is a no-op.  But the dedup key interpolates the raw date field, which
    is a [Date] in an incoming event and an ISO string in a record read
    back from the file: after the store is closed and initialized again,
    the same event (with finite numbers, which the file keeps) has another
    key than its stored record, is stored a second time, and the query
    returns both records. *)
Theorem reloaded_event_stored_twice tx t0 :
  raw_transactionDate tx = DateObject t0 ->
  is_fin (raw_shares tx) = true -> is_fin (raw_pricePerShare tx) = true ->
  dateToString t0 <> toISOString t0 ->
  exists d2 d4,
    save tx (initialize newStore) = Ok d2
    /\ save tx d2 = Ok d2
    /\ save tx (initialize (close d2)) = Ok d4
    /\ data d4
       = Some [throughJSON (withId tx (generateId 0%nat));
               withId tx (generateId 1%nat)]
    /\ forall now lookbackDays,
         (DatabaseQueries.cutoff now lookbackDays + Backtester.msPerDay <= t0)%Z ->
         getInsiderTransactions now (raw_ticker tx) lookbackDays d4
         = Ok [throughJSON (withId tx (generateId 0%nat));
               withId tx (generateId 1%nat)].
Proof.
  intros Edate _ _ Hdiff.
  assert (Hsame : String.eqb (key (withId tx (generateId 0%nat))) (key tx) = true).
  { rewrite key_withId. apply String.eqb_refl. }
  assert (Hother : String.eqb (key (throughJSON (withId tx (generateId 0%nat))))
                     (key tx) = false).
  { apply String.eqb_neq. intros E.
    apply key_by_date in E; try reflexivity.
    cbn [throughJSON withId raw_transactionDate] in E.
    rewrite Edate in E. cbn in E. congruence. }
  exists {| file := Some [throughJSON (withId tx (generateId 0%nat))];
            data := Some [withId tx (generateId 0%nat)]; idsDrawn := 1 |}.
  exists {| file := Some [throughJSON (throughJSON (withId tx (generateId 0%nat)));
                          throughJSON (withId tx (generateId 1%nat))];
            data := Some [throughJSON (withId tx (generateId 0%nat));
                          withId tx (generateId 1%nat)];
            idsDrawn := 2 |}.
  split; [reflexivity|].
  split.
  { unfold saveInsiderTransaction. cbn [data existsb].
    rewrite Hsame. reflexivity. }
  split.
  { unfold saveInsiderTransaction, initialize, close.
    cbn [data file map existsb]. rewrite Hother. reflexivity. }
  split; [reflexivity|].
  intros now lookbackDays Hc. unfold getInsiderTransactions.
  cbn [data filter throughJSON withId raw_ticker raw_transactionDate].
  rewrite Edate. cbn [dateThroughJSON timeOf].
  rewrite String.eqb_refl.
  replace (t0 >=? DatabaseQueries.cutoff now lookbackDays)%Z with true
    by (symmetry; apply Z.geb_le; unfold Backtester.msPerDay in Hc; lia).
  reflexivity.
Qed.

End Reload.

Lemma reloaded_event_stored_twice_witness :
  exists d2 d4,
    saveInsiderTransaction toStringUTC toISOStringUTC showNum ids cookBuy
      (initialize newStore) = Ok d2
    /\ saveInsiderTransaction toStringUTC toISOStringUTC showNum ids cookBuy d2
       = Ok d2
    /\ saveInsiderTransaction toStringUTC toISOStringUTC showNum ids cookBuy
         (initialize (close d2)) = Ok d4
    /\ data d4
       = Some [throughJSON (withId cookBuy (ids 0%nat));
               withId cookBuy (ids 1%nat)]
    /\ forall now lookbackDays,
         (DatabaseQueries.cutoff now lookbackDays + Backtester.msPerDay
          <= jan15)%Z ->
         getInsiderTransactions now (raw_ticker cookBuy) lookbackDays d4
         = Ok [throughJSON (withId cookBuy (ids 0%nat));
               withId cookBuy (ids 1%nat)].
Proof.
  apply (@reloaded_event_stored_twice toStringUTC toISOStringUTC showNum ids
           cookBuy jan15).
  - reflexivity.
  - reflexivity.
  - reflexivity.
  - vm_compute. discriminate.
Defined.

End DiskFacts.

(** ** Arithmetic of the number model *)

Module NumFacts.

Lemma leb_Fin a b : (Fin a <=? Fin b)%num = true <-> a <= b.
Proof.
  unfold leb, cmp. rewrite Qle_alt.
  destruct (a ?= b); split; intros H; try easy; now contradiction H.
Qed.

Lemma ltb_Fin a b : (Fin a <? Fin b)%num = true <-> a < b.
Proof.
  unfold ltb, cmp. rewrite Qlt_alt.
  destruct (a ?= b); split; intros H; easy.
Qed.

Lemma geb_Fin a b : (Fin a >=? Fin b)%num = true <-> b <= a.
Proof. unfold geb. apply leb_Fin. Qed.

Lemma gtb_Fin a b : (Fin a >? Fin b)%num = true <-> b < a.
Proof. unfold gtb. apply ltb_Fin. Qed.

Lemma leb_trans x y z :
  (x <=? y)%num = true -> (y <=? z)%num = true -> (x <=? z)%num = true.
Proof.
  destruct x as [a| | |], y as [b| | |], z as [c| | |]; try easy.
  rewrite !leb_Fin. apply Qle_trans.
Qed.

Lemma positive_nonneg x : positive x -> nonneg x.
Proof. intros [a [-> H]]. exists a. split; [easy|]. now apply Qlt_le_weak. Qed.

Lemma nonneg_ofZ z : (0 <= z)%Z -> nonneg (ofZ z).
Proof.
  intros H. exists (inject_Z z). split; [easy|].
  change 0 with (inject_Z 0). now rewrite <- Zle_Qle.
Qed.

Lemma positive_ofZ z : (0 < z)%Z -> positive (ofZ z).
Proof.
  intros H. exists (inject_Z z). split; [easy|].
  change 0 with (inject_Z 0). now rewrite <- Zlt_Qlt.
Qed.

Lemma positive_frac n d : (0 < n)%Z -> positive (frac n d).
Proof.
  intros H. eexists. split; [reflexivity|].
  unfold Qlt. simpl. lia.
Qed.

Lemma nonneg_add x y : nonneg x -> nonneg y -> nonneg (x + y)%num.
Proof.
  intros [a [-> Ha]] [b [-> Hb]]. exists (a + b). split; [easy|]. lra.
Qed.

Lemma nonneg_mul x y : nonneg x -> nonneg y -> nonneg (x * y)%num.
Proof.
  intros [a [-> Ha]] [b [-> Hb]]. exists (a * b). split; [easy|].
  now apply Qmult_le_0_compat.
Qed.

Lemma positive_mul x y : positive x -> positive y -> positive (x * y)%num.
Proof.
  intros [a [-> Ha]] [b [-> Hb]]. exists (a * b). split; [easy|].
  now apply Qmult_lt_0_compat.
Qed.

Lemma positive_add_l x y : positive x -> nonneg y -> positive (x + y)%num.
Proof.
  intros [a [-> Ha]] [b [-> Hb]]. exists (a + b). split; [easy|]. lra.
Qed.

Lemma positive_max x y : positive x -> nonneg y -> positive (max x y).
Proof.
  intros [a [-> Ha]] [b [-> Hb]]. unfold max, cmp.
  destruct (a ?= b) eqn:E.
  - now exists a.
  - exists b. split; [easy|]. apply Qlt_alt in E. lra.
  - now exists a.
Qed.

Lemma nonneg_max x y : nonneg x -> nonneg y -> nonneg (max x y).
Proof.
  intros [a [-> Ha]] [b [-> Hb]]. unfold max, cmp.
  destruct (a ?= b); [now exists a|now exists b|now exists a].
Qed.

Lemma nonneg_inRange_min x : nonneg x -> inRange (min (ofZ 100) x).
Proof.
  intros [a [-> Ha]]. unfold min, cmp, ofZ.
  destruct (inject_Z 100 ?= a) eqn:E; split; try reflexivity.
  - apply leb_Fin. exact Ha.
  - apply leb_Fin. apply Qgt_alt in E. now apply Qlt_le_weak.
Qed.

Lemma inRange_nonneg x : inRange x -> nonneg x.
Proof.
  intros [H0 H1]. destruct x as [a| | |]; try easy.
  exists a. split; [easy|]. now apply leb_Fin in H0.
Qed.

(** Multiplying by a positive factor keeps [<=] and [<]. *)
Lemma mul_leb_compat c x y :
  nonneg c -> (Fin x <=? Fin y)%num = true ->
  (c * Fin x <=? c * Fin y)%num = true.
Proof.
  intros [a [-> Ha]] H. apply leb_Fin in H.
  change ((Fin (a * x) <=? Fin (a * y))%num = true). apply leb_Fin. nra.
Qed.

Lemma mul_ltb_compat_r c x y :
  positive c -> (Fin x <? Fin y)%num = true ->
  (Fin x * c <? Fin y * c)%num = true.
Proof.
  intros [a [-> Ha]] H. apply ltb_Fin in H.
  change ((Fin (x * a) <? Fin (y * a))%num = true). apply ltb_Fin.
  now apply Qmult_lt_compat_r.
Qed.

End NumFacts.

(** ** Weight calculator *)

Module WeightFacts.
Import ConvergenceAnalyzer NumFacts Scenarios.

(** The loops that keep the largest matching table entry. *)
Lemma fold_max_positive (hit : string * num -> bool) table acc :
  positive acc -> Forall (fun e => nonneg (snd e)) table ->
  positive
    (fold_left (fun b e => if hit e then max b (snd e) else b) table acc).
Proof.
  intros Hacc Htab. revert acc Hacc.
  induction Htab as [|e table He _ IH]; intros acc Hacc; simpl; [exact Hacc|].
  apply IH. destruct (hit e); [|exact Hacc]. now apply positive_max.
Qed.

Lemma fold_max_nonneg (hit : string * num -> bool) table acc :
  nonneg acc -> Forall (fun e => nonneg (snd e)) table ->
  nonneg
    (fold_left (fun b e => if hit e then max b (snd e) else b) table acc).
Proof.
  intros Hacc Htab. revert acc Hacc.
  induction Htab as [|e table He _ IH]; intros acc Hacc; simpl; [exact Hacc|].
  apply IH. destruct (hit e); [|exact Hacc]. now apply nonneg_max.
Qed.

Lemma INSIDER_WEIGHTS_nonneg : Forall (fun e => nonneg (snd e)) INSIDER_WEIGHTS.
Proof. repeat constructor; apply nonneg_ofZ; simpl; lia. Qed.

Lemma CONGRESS_COMMITTEE_WEIGHTS_nonneg :
  Forall (fun e => nonneg (snd e)) CONGRESS_COMMITTEE_WEIGHTS.
Proof. repeat constructor; apply nonneg_ofZ; simpl; lia. Qed.

Lemma insiderBaseWeight_positive title : positive (insiderBaseWeight title).
Proof.
  unfold insiderBaseWeight.
  apply fold_max_positive with
    (hit := fun e => includes (toUpperCase title) (toUpperCase (fst e))).
  - apply positive_ofZ. lia.
  - exact INSIDER_WEIGHTS_nonneg.
Qed.

Lemma insiderTxMultiplier_positive kind : positive (insiderTxMultiplier kind).
Proof.
  unfold insiderTxMultiplier.
  destruct (String.eqb kind "BUY"); [apply positive_frac; lia|].
  destruct (String.eqb kind "SELL"); [apply positive_frac; lia|].
  apply positive_ofZ; lia.
Qed.

Lemma sizeMultiplier_positive v : positive (sizeMultiplier v).
Proof.
  unfold sizeMultiplier.
  repeat match goal with
         | |- context [if ?b then _ else _] => destruct b
         end;
    first [apply positive_ofZ; lia | apply positive_frac; lia].
Qed.

Lemma calculateInsiderWeight_positive input :
  positive (calculateInsiderWeight input).
Proof.
  unfold calculateInsiderWeight.
  apply positive_mul; [apply positive_mul|].
  - apply insiderBaseWeight_positive.
  - apply insiderTxMultiplier_positive.
  - apply sizeMultiplier_positive.
Qed.

Lemma committeeBonus_nonneg committees : nonneg (committeeBonus committees).
Proof.
  unfold committeeBonus.
  assert (H0 : nonneg (ofZ 0)) by (apply nonneg_ofZ; lia).
  revert H0. generalize (ofZ 0).
  induction committees as [|c cs IH]; intros acc Hacc; cbn [fold_left];
    [exact Hacc|].
  apply IH.
  apply fold_max_nonneg with
    (hit := fun e => includes (toLowerCase c) (toLowerCase (fst e))).
  - exact Hacc.
  - exact CONGRESS_COMMITTEE_WEIGHTS_nonneg.
Qed.

Lemma calculateCongressWeight_positive input :
  positive (calculateCongressWeight input).
Proof.
  unfold calculateCongressWeight.
  apply positive_mul; [apply positive_mul|].
  - apply positive_add_l; [apply positive_ofZ; lia|apply committeeBonus_nonneg].
  - destruct (String.eqb _ _); apply positive_frac; lia.
  - repeat match goal with
           | |- context [if ?b then _ else _] => destruct b
           end;
      first [apply positive_ofZ; lia | apply positive_frac; lia].
Qed.

Lemma calculateInstitutionalWeight_positive holding :
  positive (calculateInstitutionalWeight holding).
Proof.
  unfold calculateInstitutionalWeight.
  assert (H5 : positive (ofZ 5)) by (apply positive_ofZ; lia).
  assert (Hc : positive
                 match h_changeType holding with
                 | Some NEW => (ofZ 5 * ofZ 2)%num
                 | Some INCREASE => (ofZ 5 * frac 3 2)%num
                 | Some DECREASE | Some SOLD_OUT => (ofZ 5 * frac 3 10)%num
                 | _ => ofZ 5
                 end).
  { destruct (h_changeType holding) as [[]|]; try exact H5;
      apply positive_mul; try exact H5;
      first [apply positive_ofZ; lia | apply positive_frac; lia]. }
  revert Hc. generalize (match h_changeType holding with
                 | Some NEW => (ofZ 5 * ofZ 2)%num
                 | Some INCREASE => (ofZ 5 * frac 3 2)%num
                 | Some DECREASE | Some SOLD_OUT => (ofZ 5 * frac 3 10)%num
                 | _ => ofZ 5
                 end).
  intros b Hb.
  assert (Hv : positive
                 (if (h_value holding / ofZ 1000000 >=? ofZ 1000)%num
                  then (b * ofZ 3)%num
                  else if (h_value holding / ofZ 1000000 >=? ofZ 100)%num
                  then (b * ofZ 2)%num
                  else if (h_value holding / ofZ 1000000 >=? ofZ 10)%num
                  then (b * frac 3 2)%num else b)).
  { repeat match goal with
           | |- context [if ?c then _ else _] => destruct c
           end; try exact Hb; apply positive_mul; try exact Hb;
      first [apply positive_ofZ; lia | apply positive_frac; lia]. }
  revert Hv. generalize (if (h_value holding / ofZ 1000000 >=? ofZ 1000)%num
                  then (b * ofZ 3)%num
                  else if (h_value holding / ofZ 1000000 >=? ofZ 100)%num
                  then (b * ofZ 2)%num
                  else if (h_value holding / ofZ 1000000 >=? ofZ 10)%num
                  then (b * frac 3 2)%num else b).
  intros b' Hb'.
  destruct (h_ownershipPercent holding) as [p|]; [|exact Hb'].
  destruct (truthy p && (p >=? ofZ 10)%num)%bool; [|exact Hb'].
  apply positive_mul; [exact Hb'|apply positive_frac; lia].
Qed.

(** The size multiplier does not decrease with the dollar value. *)
Lemma sizeMultiplier_monotone v1 v2 :
  (v1 <=? v2)%num = true ->
  (sizeMultiplier v1 <=? sizeMultiplier v2)%num = true.
Proof.
  intros H.
  assert (Hup : forall k, (v1 >=? k)%num = true -> (v2 >=? k)%num = true).
  { intros k Hk. unfold geb in *. now apply leb_trans with v1. }
  unfold sizeMultiplier.
  destruct (v1 >=? ofZ 5000000)%num eqn:E1.
  { now rewrite (Hup _ E1). }
  destruct (v1 >=? ofZ 1000000)%num eqn:E2.
  { rewrite (Hup _ E2). now destruct (v2 >=? ofZ 5000000)%num. }
  destruct (v1 >=? ofZ 250000)%num eqn:E3.
  { rewrite (Hup _ E3).
    now destruct (v2 >=? ofZ 5000000)%num, (v2 >=? ofZ 1000000)%num. }
  destruct (v1 >=? ofZ 50000)%num eqn:E4.
  { rewrite (Hup _ E4).
    now destruct (v2 >=? ofZ 5000000)%num, (v2 >=? ofZ 1000000)%num,
      (v2 >=? ofZ 250000)%num. }
  now destruct (v2 >=? ofZ 5000000)%num, (v2 >=? ofZ 1000000)%num,
    (v2 >=? ofZ 250000)%num, (v2 >=? ofZ 50000)%num.
Qed.

(** X5.  Part (b) of the weight contract: for one title and one kind of
    transaction, a larger dollar value never gives a smaller weight. *)
Lemma weight_monotone_in_value title kind sh1 p1 sh2 p2 :
  (sh1 * p1 <=? sh2 * p2)%num = true ->
  (calculateInsiderWeight
     {| wi_insiderTitle := title; wi_transactionType := kind;
        wi_shares := sh1; wi_pricePerShare := p1 |}
   <=? calculateInsiderWeight
     {| wi_insiderTitle := title; wi_transactionType := kind;
        wi_shares := sh2; wi_pricePerShare := p2 |})%num = true.
Proof.
  intros H. unfold calculateInsiderWeight. simpl.
  pose proof (sizeMultiplier_monotone _ _ H) as Hm.
  destruct (sizeMultiplier_positive (sh1 * p1)%num) as [m1 [E1 _]].
  destruct (sizeMultiplier_positive (sh2 * p2)%num) as [m2 [E2 _]].
  rewrite E1, E2 in *.
  apply mul_leb_compat; [|exact Hm].
  apply positive_nonneg, positive_mul.
  - apply insiderBaseWeight_positive.
  - apply insiderTxMultiplier_positive.
Qed.

(** A title with a strictly larger base weight gives a strictly larger
    weight, for one kind of transaction and one size. *)
Lemma weight_follows_base_weight t1 t2 kind sh price :
  (insiderBaseWeight t1 <? insiderBaseWeight t2)%num = true ->
  (calculateInsiderWeight
     {| wi_insiderTitle := t1; wi_transactionType := kind;
        wi_shares := sh; wi_pricePerShare := price |}
   <? calculateInsiderWeight
     {| wi_insiderTitle := t2; wi_transactionType := kind;
        wi_shares := sh; wi_pricePerShare := price |})%num = true.
Proof.
  intros H. unfold calculateInsiderWeight. simpl.
  destruct (insiderBaseWeight_positive t1) as [b1 [E1 _]].
  destruct (insiderBaseWeight_positive t2) as [b2 [E2 _]].
  destruct (insiderTxMultiplier_positive kind) as [k [Ek Hk]].
  destruct (sizeMultiplier_positive (sh * price)%num) as [m [Em Hm]].
  rewrite E1, E2, Ek, Em in *.
  change ((Fin (b1 * k) * Fin m <? Fin (b2 * k) * Fin m)%num = true).
  apply mul_ltb_compat_r; [now exists m|].
  change ((Fin b1 * Fin k <? Fin b2 * Fin k)%num = true).
  apply mul_ltb_compat_r; [now exists k|exact H].
Qed.

(** Part (a) of the weight contract at the titles it names: with the same
    kind, shares and price, the title CEO outweighs the title Director. *)
Lemma ceo_outweighs_director kind sh price :
  (calculateInsiderWeight
     {| wi_insiderTitle := "Director"; wi_transactionType := kind;
        wi_shares := sh; wi_pricePerShare := price |}
   <? calculateInsiderWeight
     {| wi_insiderTitle := "CEO"; wi_transactionType := kind;
        wi_shares := sh; wi_pricePerShare := price |})%num = true.
Proof. apply weight_follows_base_weight. reflexivity. Qed.

(** C6.  The table ranks the title 10% Owner (7) above Officer (6) above
    Vice President (4); yet a Vice President's title contains "PRESIDENT"
    and takes the weight 8 of a President, so for every kind, share count
    and price the Vice President's event outweighs the 10% Owner's and the
    Officer's. *)
Theorem vice_president_outweighs_higher_ranked :
  listedWeight "Vice President" = Some (ofZ 4)
  /\ listedWeight "Officer" = Some (ofZ 6)
  /\ listedWeight "10% Owner" = Some (ofZ 7)
  /\ insiderBaseWeight "Vice President" = ofZ 8
  /\ forall kind sh price,
       (calculateInsiderWeight (insiderEvent "10% Owner" kind sh price)
        <? calculateInsiderWeight (insiderEvent "Vice President" kind sh price))%num
       = true
       /\ (calculateInsiderWeight (insiderEvent "Officer" kind sh price)
        <? calculateInsiderWeight (insiderEvent "Vice President" kind sh price))%num
       = true.
Proof.
  repeat split; try reflexivity;
    apply weight_follows_base_weight; reflexivity.
Qed.

End WeightFacts.

(** ** Convergence detector *)

Module DetectorFacts.
Import ConvergenceAnalyzer NumFacts WeightFacts Scenarios.

Section SortFacts.
Variable A : Type.
Variable after : A -> A -> bool.

Lemma insertSorted_perm x l : Permutation (insertSorted after x l) (x :: l).
Proof.
  induction l as [|y l IH]; simpl; [reflexivity|].
  destruct (after x y); [|reflexivity].
  rewrite IH. apply perm_swap.
Qed.

Lemma sort_perm l : Permutation (sort after l) l.
Proof.
  induction l as [|x l IH]; simpl; [reflexivity|].
  rewrite insertSorted_perm. now constructor.
Qed.

Lemma sort_In x l : In x (sort after l) <-> In x l.
Proof.
  split; apply Permutation_in; [|symmetry]; apply sort_perm.
Qed.
End SortFacts.

Section CollectFacts.
Variables A B : Type.
Variable f : A -> option B.

Lemma collect_In y l : In y (collect f l) <-> exists x, In x l /\ f x = Some y.
Proof.
  induction l as [|x l IH]; simpl.
  - split; [easy|]. now intros [x [[] _]].
  - destruct (f x) as [z|] eqn:E; simpl; rewrite IH; split.
    + intros [->|[x' [Hin Hx']]]; [now exists x; auto|exists x'; auto].
    + intros [x' [[->|Hin] Hx']]; [left; congruence|right; now exists x'].
    + intros [x' [Hin Hx']]. exists x'; auto.
    + intros [x' [[->|Hin] Hx']]; [congruence|now exists x'].
Qed.

Lemma collect_perm l l' :
  Permutation l l' -> Permutation (collect f l) (collect f l').
Proof.
  induction 1 as [|x l l' _ IH|x y l|l l' l'' _ IH1 _ IH2]; simpl.
  - reflexivity.
  - destruct (f x); [now constructor|exact IH].
  - destruct (f x), (f y); try reflexivity. apply perm_swap.
  - now transitivity (collect f l').
Qed.
End CollectFacts.

Lemma collect_ext {A B} (f g : A -> option B) l :
  (forall x, In x l -> f x = g x) -> collect f l = collect g l.
Proof.
  induction l as [|x l IH]; intros H; simpl; [reflexivity|].
  rewrite (H x (or_introl eq_refl)), IH; [reflexivity|].
  intros y Hy. apply H. now right.
Qed.

Lemma collect_map {A B C} (f : A -> option B) (g : B -> C) l :
  map g (collect f l) = collect (fun x => option_map g (f x)) l.
Proof.
  induction l as [|x l IH]; simpl; [reflexivity|].
  destruct (f x); simpl; now rewrite IH.
Qed.

Lemma collect_of_map {A B C} (f : B -> option C) (g : A -> B) l :
  collect f (map g l) = collect (fun x => f (g x)) l.
Proof.
  induction l as [|x l IH]; simpl; [reflexivity|].
  destruct (f (g x)); now rewrite IH.
Qed.

(** The running sums of weights. *)
Lemma sumWeights_nonneg {A} (w : A -> num) l :
  (forall x, positive (w x)) -> nonneg (sumWeights w l).
Proof.
  intros Hw. unfold sumWeights.
  assert (H0 : nonneg (ofZ 0)) by (apply nonneg_ofZ; lia).
  revert H0. generalize (ofZ 0).
  induction l as [|x l IH]; intros acc Hacc; simpl; [exact Hacc|].
  apply IH. apply nonneg_add; [exact Hacc|]. apply positive_nonneg, Hw.
Qed.

Lemma normalized_inRange s : nonneg s -> inRange (min (ofZ 100) (s * ofZ 2)%num).
Proof.
  intros H. apply nonneg_inRange_min, nonneg_mul; [exact H|].
  apply nonneg_ofZ; lia.
Qed.

Lemma bonusOf_nonneg n : nonneg (bonusOf n).
Proof.
  unfold bonusOf. destruct (Nat.leb 3 n); [apply nonneg_ofZ; lia|].
  destruct (Nat.leb 2 n); apply nonneg_ofZ; lia.
Qed.

(** The uplift is applied exactly when the bonus is 15 or 30. *)
Lemma uplift_by_bonus n : Nat.leb 2 n = (bonusOf n >=? ofZ 15)%num.
Proof.
  unfold bonusOf.
  destruct (Nat.leb 3 n) eqn:E3.
  - apply Nat.leb_le in E3.
    replace (Nat.leb 2 n) with true; [reflexivity|].
    symmetry. apply Nat.leb_le. lia.
  - destruct (Nat.leb 2 n); reflexivity.
Qed.

Lemma overallScore_inRange a b c bonus :
  nonneg a -> nonneg b -> nonneg c -> nonneg bonus ->
  inRange (overallScore a b c bonus).
Proof.
  intros Ha Hb Hc Hbonus. unfold overallScore.
  apply nonneg_inRange_min, nonneg_mul.
  - repeat apply nonneg_add; try assumption;
      (apply nonneg_mul; [assumption|]);
      apply positive_nonneg, positive_frac; lia.
  - destruct (bonus >=? ofZ 15)%num;
      [apply positive_nonneg, positive_frac; lia|apply nonneg_ofZ; lia].
Qed.

Lemma signalOf_scores now tk activity s :
  signalOf now tk activity = Some s ->
  inRange (insiderScore s) /\ inRange (congressScore s)
  /\ inRange (institutionalScore s) /\ inRange (convergenceScore s)
  /\ convergenceScore s
     = overallScore (insiderScore s) (congressScore s)
         (institutionalScore s) (convergenceBonus s).
Proof.
  unfold signalOf.
  set (ib := filter isInsiderBuy (insider activity)).
  set (cb := filter isCongressBuy (congress activity)).
  set (hb := filter isInstitutionalIncrease (institutional activity)).
  set (n := countTrue _).
  assert (Hi : inRange (min (ofZ 100) (sumWeights insiderWeightOf ib * ofZ 2)%num)).
  { apply normalized_inRange, sumWeights_nonneg.
    intros x. apply calculateInsiderWeight_positive. }
  assert (Hc : inRange (min (ofZ 100) (sumWeights congressWeightOf cb * ofZ 2)%num)).
  { apply normalized_inRange, sumWeights_nonneg.
    intros x. apply calculateCongressWeight_positive. }
  assert (Hh : inRange (min (ofZ 100)
                          (sumWeights calculateInstitutionalWeight hb * ofZ 2)%num)).
  { apply normalized_inRange, sumWeights_nonneg.
    intros x. apply calculateInstitutionalWeight_positive. }
  rewrite (uplift_by_bonus n).
  fold (overallScore (min (ofZ 100) (sumWeights insiderWeightOf ib * ofZ 2)%num)
          (min (ofZ 100) (sumWeights congressWeightOf cb * ofZ 2)%num)
          (min (ofZ 100) (sumWeights calculateInstitutionalWeight hb * ofZ 2)%num)
          (bonusOf n)).
  destruct (_ >? ofZ 10)%num; [|discriminate].
  intros E. inversion E; subst; clear E. simpl.
  repeat split; try apply Hi; try apply Hc; try apply Hh;
    apply overallScore_inRange;
    try apply bonusOf_nonneg; now apply inRange_nonneg.
Qed.

(** C4.  Every signal the detector emits has its three category scores and
    its overall score in [[0, 100]], and its overall score is the function
    [overallScore] of the three category scores and the bonus. *)
Theorem scores_bounded now insiderTransactions congressTransactions
    institutionalHoldings s :
  In s (detectConvergence now insiderTransactions congressTransactions
          institutionalHoldings) ->
  inRange (insiderScore s) /\ inRange (congressScore s)
  /\ inRange (institutionalScore s) /\ inRange (convergenceScore s)
  /\ convergenceScore s
     = overallScore (insiderScore s) (congressScore s)
         (institutionalScore s) (convergenceBonus s).
Proof.
  unfold detectConvergence. intros H.
  apply sort_In, collect_In in H. destruct H as [[tk activity] [_ H]].
  now apply signalOf_scores in H.
Qed.

Lemma scores_bounded_witness :
  exists s,
    detectConvergence 0 [ceoBuy "ACME" "A" 1] [] [] = [s]
    /\ inRange (insiderScore s) /\ inRange (convergenceScore s)
    /\ convergenceScore s
       = overallScore (insiderScore s) (congressScore s)
           (institutionalScore s) (convergenceBonus s).
Proof.
  eexists. split; [vm_compute; reflexivity|].
  match goal with
  | |- inRange (insiderScore ?s) /\ _ =>
      destruct (@scores_bounded 0 [ceoBuy "ACME" "A" 1] [] [] s)
        as (Hi & _ & _ & Ho & He)
  end.
  - vm_compute. left. reflexivity.
  - repeat split; assumption.
Defined.

(** *** Grouping by ticker *)

Lemma touch_keys_In k f m k' :
  In k' (keys (touch k f m)) <-> k' = k \/ In k' (keys m).
Proof.
  induction m as [|[k0 a] m IH]; simpl.
  - intuition congruence.
  - destruct (String.eqb k0 k) eqn:E; simpl.
    + apply String.eqb_eq in E. subst. intuition congruence.
    + fold (keys (touch k f m)). rewrite IH. fold (keys m). tauto.
Qed.

Lemma touch_keys_NoDup k f m : NoDup (keys m) -> NoDup (keys (touch k f m)).
Proof.
  induction m as [|[k0 a] m IH]; simpl; intros H.
  - repeat constructor. easy.
  - inversion H as [|? ? Hnotin Hnd]; subst.
    destruct (String.eqb k0 k) eqn:E; simpl.
    + now constructor.
    + constructor; [|now apply IH].
      fold (keys (touch k f m)). rewrite touch_keys_In.
      intros [->|Hin]; [|now apply Hnotin].
      now rewrite String.eqb_refl in E.
Qed.

Lemma get_touch_same k f m : get k (touch k f m) = f (get k m).
Proof.
  unfold get. induction m as [|[k0 a] m IH]; simpl.
  - now rewrite String.eqb_refl.
  - destruct (String.eqb k0 k) eqn:E; simpl; rewrite E; [reflexivity|exact IH].
Qed.

Lemma get_touch_other k f m k' : k' <> k -> get k' (touch k f m) = get k' m.
Proof.
  intros Hne. unfold get. induction m as [|[k0 a] m IH]; simpl.
  - destruct (String.eqb k k') eqn:E; [|reflexivity].
    apply String.eqb_eq in E. congruence.
  - destruct (String.eqb k0 k) eqn:E; simpl.
    + apply String.eqb_eq in E. subst k0.
      destruct (String.eqb k k') eqn:E'; [|reflexivity].
      apply String.eqb_eq in E'. congruence.
    + destruct (String.eqb k0 k'); [reflexivity|exact IH].
Qed.

Lemma get_In k a m : NoDup (keys m) -> In (k, a) m -> get k m = a.
Proof.
  unfold get. induction m as [|[k0 a0] m IH]; simpl; intros Hnd Hin; [easy|].
  inversion Hnd as [|? ? Hnotin Hnd']; subst.
  destruct Hin as [E|Hin].
  - inversion E; subst. now rewrite String.eqb_refl.
  - destruct (String.eqb k0 k) eqn:E; [|now apply IH].
    apply String.eqb_eq in E. subst k0. exfalso. apply Hnotin.
    change k with (fst (k, a)). now apply in_map.
Qed.

Section Grouping.
Variable E : Type.
Variable tickerOf : E -> string.
Variable push : E -> Activity -> Activity.

Lemma addAll_keys_In xs m k :
  In k (keys (addAll tickerOf push xs m)) <-> In k (keys m) \/ In k (map tickerOf xs).
Proof.
  unfold addAll. revert m. induction xs as [|x xs IH]; intros m; simpl.
  - tauto.
  - rewrite IH, touch_keys_In. split; intros H; intuition auto.
Qed.

Lemma addAll_keys_NoDup xs m : NoDup (keys m) -> NoDup (keys (addAll tickerOf push xs m)).
Proof.
  unfold addAll. revert m. induction xs as [|x xs IH]; intros m H; simpl.
  - exact H.
  - now apply IH, touch_keys_NoDup.
Qed.

Lemma addAll_get xs m k :
  get k (addAll tickerOf push xs m)
  = fold_left (fun a x => push x a)
      (filter (fun x => String.eqb (tickerOf x) k) xs) (get k m).
Proof.
  unfold addAll. revert m. induction xs as [|x xs IH]; intros m; simpl.
  - reflexivity.
  - rewrite IH. destruct (String.eqb (tickerOf x) k) eqn:Ek; simpl.
    + apply String.eqb_eq in Ek. subst k. now rewrite get_touch_same.
    + rewrite get_touch_other; [reflexivity|].
      intros ->. now rewrite String.eqb_refl in Ek.
Qed.
End Grouping.

Lemma pushInsider_all l a :
  fold_left (fun a x => pushInsider x a) l a
  = {| insider := insider a ++ l; congress := congress a;
       institutional := institutional a |}.
Proof.
  revert a. induction l as [|x l IH]; intros a; simpl.
  - rewrite app_nil_r. now destruct a.
  - rewrite IH. simpl. now rewrite <- app_assoc.
Qed.

Lemma pushCongress_all l a :
  fold_left (fun a x => pushCongress x a) l a
  = {| insider := insider a; congress := congress a ++ l;
       institutional := institutional a |}.
Proof.
  revert a. induction l as [|x l IH]; intros a; simpl.
  - rewrite app_nil_r. now destruct a.
  - rewrite IH. simpl. now rewrite <- app_assoc.
Qed.

Lemma pushInstitutional_all l a :
  fold_left (fun a x => pushInstitutional x a) l a
  = {| insider := insider a; congress := congress a;
       institutional := institutional a ++ l |}.
Proof.
  revert a. induction l as [|x l IH]; intros a; simpl.
  - rewrite app_nil_r. now destruct a.
  - rewrite IH. simpl. now rewrite <- app_assoc.
Qed.

Lemma groupByTicker_get i c h k :
  get k (groupByTicker i c h) = byTicker k i c h.
Proof.
  unfold groupByTicker.
  change (get k (addAll h_ticker pushInstitutional h
                   (addAll c_ticker pushCongress c
                      (addAll i_ticker pushInsider i []))) = byTicker k i c h).
  rewrite !addAll_get.
  rewrite pushInstitutional_all, pushCongress_all, pushInsider_all.
  reflexivity.
Qed.

Lemma groupByTicker_NoDup i c h : NoDup (keys (groupByTicker i c h)).
Proof.
  unfold groupByTicker.
  change (NoDup (keys (addAll h_ticker pushInstitutional h
                   (addAll c_ticker pushCongress c
                      (addAll i_ticker pushInsider i []))))).
  repeat apply addAll_keys_NoDup. constructor.
Qed.

Lemma groupByTicker_keys_In i c h k :
  In k (keys (groupByTicker i c h))
  <-> In k (map i_ticker i) \/ In k (map c_ticker c) \/ In k (map h_ticker h).
Proof.
  unfold groupByTicker.
  change (In k (keys (addAll h_ticker pushInstitutional h
                   (addAll c_ticker pushCongress c
                      (addAll i_ticker pushInsider i []))))
          <-> In k (map i_ticker i) \/ In k (map c_ticker c)
              \/ In k (map h_ticker h)).
  rewrite !addAll_keys_In. simpl. tauto.
Qed.

(** Every entry of the grouping holds the events of its ticker. *)
Lemma groupByTicker_entry i c h k a :
  In (k, a) (groupByTicker i c h) -> a = byTicker k i c h.
Proof.
  intros Hin. rewrite <- groupByTicker_get.
  symmetry. apply get_In; [apply groupByTicker_NoDup|exact Hin].
Qed.

(** *** Arrival order *)

(** Exact addition can be reordered. *)
Lemma add_right_comm x y z : ((x + y) + z = (x + z) + y)%num.
Proof.
  destruct x as [[an ad]| | |], y as [[bn bd]| | |], z as [[cn cd]| | |];
    try reflexivity.
  unfold add, Qplus. simpl. f_equal. f_equal.
  - rewrite !Pos2Z.inj_mul. ring.
  - rewrite <- !Pos.mul_assoc. f_equal. apply Pos.mul_comm.
Qed.

Lemma sumWeights_perm {A} (w : A -> num) l l' :
  Permutation l l' -> sumWeights w l = sumWeights w l'.
Proof.
  unfold sumWeights. generalize (ofZ 0).
  intros acc H. revert acc.
  induction H as [|x l l' _ IH|x y l|l l' l'' _ IH1 _ IH2]; intros acc; simpl.
  - reflexivity.
  - apply IH.
  - now rewrite add_right_comm.
  - now rewrite IH1.
Qed.

Lemma filter_perm {A} (p : A -> bool) l l' :
  Permutation l l' -> Permutation (filter p l) (filter p l').
Proof.
  induction 1 as [|x l l' _ IH|x y l|l l' l'' _ IH1 _ IH2]; simpl.
  - reflexivity.
  - destruct (p x); [now constructor|exact IH].
  - destruct (p x), (p y); try reflexivity. apply perm_swap.
  - now transitivity (filter p l').
Qed.

Lemma signalOf_core_perm now k a a' :
  Permutation (insider a) (insider a') ->
  Permutation (congress a) (congress a') ->
  Permutation (institutional a) (institutional a') ->
  option_map core (signalOf now k a) = option_map core (signalOf now k a').
Proof.
  intros Hi Hc Hh. unfold signalOf.
  apply (filter_perm isInsiderBuy) in Hi.
  apply (filter_perm isCongressBuy) in Hc.
  apply (filter_perm isInstitutionalIncrease) in Hh.
  rewrite (sumWeights_perm insiderWeightOf Hi).
  rewrite (sumWeights_perm congressWeightOf Hc).
  rewrite (sumWeights_perm calculateInstitutionalWeight Hh).
  rewrite (Permutation_length Hi), (Permutation_length Hc),
    (Permutation_length Hh).
  destruct (_ >? ofZ 10)%num; reflexivity.
Qed.

Lemma byTicker_perm k i i' c c' h h' :
  Permutation i i' -> Permutation c c' -> Permutation h h' ->
  Permutation (insider (byTicker k i c h)) (insider (byTicker k i' c' h'))
  /\ Permutation (congress (byTicker k i c h)) (congress (byTicker k i' c' h'))
  /\ Permutation (institutional (byTicker k i c h))
       (institutional (byTicker k i' c' h')).
Proof.
  intros Hi Hc Hh. simpl. repeat split; now apply filter_perm.
Qed.

Lemma groupByTicker_keys_perm i i' c c' h h' :
  Permutation i i' -> Permutation c c' -> Permutation h h' ->
  Permutation (keys (groupByTicker i c h)) (keys (groupByTicker i' c' h')).
Proof.
  intros Hi Hc Hh.
  apply NoDup_Permutation; try apply groupByTicker_NoDup.
  intros k. rewrite !groupByTicker_keys_In.
  assert (Ei : In k (map i_ticker i) <-> In k (map i_ticker i')).
  { split; apply Permutation_in, Permutation_map; [|symmetry]; exact Hi. }
  assert (Ec : In k (map c_ticker c) <-> In k (map c_ticker c')).
  { split; apply Permutation_in, Permutation_map; [|symmetry]; exact Hc. }
  assert (Eh : In k (map h_ticker h) <-> In k (map h_ticker h')).
  { split; apply Permutation_in, Permutation_map; [|symmetry]; exact Hh. }
  tauto.
Qed.

(** The signals before the final sort, ticker by ticker. *)
Lemma signals_by_key now i c h :
  collect (fun e => signalOf now (fst e) (snd e)) (groupByTicker i c h)
  = collect (fun k => signalOf now k (byTicker k i c h))
      (keys (groupByTicker i c h)).
Proof.
  unfold keys. rewrite collect_of_map. apply collect_ext.
  intros [k a] Hin. simpl. now rewrite (groupByTicker_entry _ _ _ _ _ Hin).
Qed.

Lemma signalOf_recent now k a s :
  signalOf now k a = Some s -> ticker s = k /\ recentBuyers s = recentActors a.
Proof.
  unfold signalOf. destruct (_ >? ofZ 10)%num; [|discriminate].
  intros E. inversion E; subst; clear E. simpl. split; reflexivity.
Qed.

(** C7, as the code has it.  Reordering the three event lists leaves the
    set of emitted signals unchanged in ticker, overall score, category
    scores, bonus and counts.  The recent-actor list of a signal is
    [recentActors] of the events of its ticker in arrival order: the first
    events per category, not the most recent ones. *)
Theorem arrival_order now i i' c c' h h' :
  Permutation i i' -> Permutation c c' -> Permutation h h' ->
  Permutation (map core (detectConvergence now i c h))
    (map core (detectConvergence now i' c' h'))
  /\ forall s, In s (detectConvergence now i c h) ->
       recentBuyers s = recentActors (byTicker (ticker s) i c h).
Proof.
  intros Hi Hc Hh. split.
  - unfold detectConvergence.
    rewrite !sort_perm, !signals_by_key, !collect_map.
    rewrite (collect_perm _ (groupByTicker_keys_perm Hi Hc Hh)).
    erewrite collect_ext; [reflexivity|].
    intros k _. simpl.
    destruct (byTicker_perm k Hi Hc Hh) as (Pi & Pc & Ph).
    now apply signalOf_core_perm.
  - intros s Hs. unfold detectConvergence in Hs.
    apply sort_In, collect_In in Hs. destruct Hs as [[k a] [Hin Hs]].
    simpl in Hs. apply groupByTicker_entry in Hin. subst a.
    apply signalOf_recent in Hs. destruct Hs as [-> Hr]. exact Hr.
Qed.

Lemma arrival_order_witness :
  Permutation (map core (detectConvergence 0 sixBuys [] []))
    (map core (detectConvergence 0 (rev sixBuys) [] [])).
Proof.
  apply (@arrival_order 0 sixBuys (rev sixBuys) [] [] [] []).
  - apply Permutation_rev.
  - constructor.
  - constructor.
Defined.

(** The inputs behind the counterexample to C7: six insider buys on one
    ticker.  The same events in reverse order give another recent-actor
    list, and the list of the first order lacks the most recent buyer, F. *)
Lemma recent_actors_depend_on_order :
  Permutation sixBuys (rev sixBuys)
  /\ map (fun s => map b_name (recentBuyers s))
       (detectConvergence 0 sixBuys [] [])
     = [["E"; "D"; "C"; "B"; "A"]]%string
  /\ map (fun s => map b_name (recentBuyers s))
       (detectConvergence 0 (rev sixBuys) [] [])
     = [["F"; "E"; "D"; "C"; "B"]]%string
  /\ ~ Permutation (detectConvergence 0 sixBuys [] [])
        (detectConvergence 0 (rev sixBuys) [] []).
Proof.
  split; [apply Permutation_rev|].
  split; [vm_compute; reflexivity|].
  split; [vm_compute; reflexivity|].
  intros H.
  apply (Permutation_map (fun s => map b_name (recentBuyers s))) in H.
  vm_compute in H.
  apply Permutation_length_1 in H. discriminate H.
Qed.

End DetectorFacts.

(** ** Backtesting simulator *)

Module BacktesterFacts.
Import Backtester NumFacts Scenarios.

Lemma fold_left_invariant {A B} (P : A -> Prop) (f : A -> B -> A) l a :
  (forall a x, P a -> P (f a x)) -> P a -> P (fold_left f l a).
Proof.
  intros Hf. revert a. induction l as [|x l IH]; intros a Ha; simpl; auto.
Qed.

(** *** The loop runs to its end *)

Section Clock.
Variable feed : string -> Z -> Z -> list HistoricalPrice.
Variable cfg : BacktestConfig.
Variable qs : list ConvergenceSignal.

Lemma enter_dates s sg : dates (enter feed cfg 0%nat s sg) = dates s.
Proof.
  unfold enter. destruct (getPriceOnDate _ _); [|reflexivity].
  destruct (_ >? _)%num; [|reflexivity].
  destruct (_ >? _)%num; reflexivity.
Qed.

Lemma checkExit_dates s e : dates (checkExit feed cfg 0%nat s e) = dates s.
Proof.
  unfold checkExit. destruct e as [tk position].
  destruct (getPriceOnDate _ _); [|reflexivity].
  destruct (exitDecision _ _ _ _) as [[|] r]; reflexivity.
Qed.

Lemma openNew_dates s : dates (openNew feed cfg 0%nat qs s) = dates s.
Proof.
  unfold openNew.
  apply (fold_left_invariant (fun s' => dates s' = dates s)); [|reflexivity].
  intros a x Ha. now rewrite enter_dates.
Qed.

Lemma closeDue_dates s : dates (closeDue feed cfg 0%nat s) = dates s.
Proof.
  unfold closeDue.
  apply (fold_left_invariant (fun s' => dates s' = dates s)); [|reflexivity].
  intros a x Ha. now rewrite checkExit_dates.
Qed.

(** A day later, [currentDate] is one day on. *)
Lemma day_clock s :
  dates s <> [] ->
  dates (day feed cfg 0%nat qs s) <> []
  /\ getTime (dates (day feed cfg 0%nat qs s)) 0%nat
     = (getTime (dates s) 0%nat + msPerDay)%Z.
Proof.
  intros Hne. unfold day, nextDay, trackDrawdown. simpl.
  set (s1 := closeDue feed cfg 0%nat (openNew feed cfg 0%nat qs s)).
  assert (E : dates s1 = dates s).
  { unfold s1. now rewrite closeDue_dates, openNew_dates. }
  destruct (_ <? _)%num; simpl; rewrite E;
    destruct (dates s) as [|t0 h]; try easy; simpl; split; easy.
Qed.

Lemma simulate_runs n s :
  dates s <> [] ->
  (forall k, (k < n)%nat ->
     (getTime (dates s) 0%nat + Z.of_nat k * msPerDay <= endDate cfg)%Z) ->
  (endDate cfg < getTime (dates s) 0%nat + Z.of_nat n * msPerDay)%Z ->
  simulate feed cfg 0%nat qs n s = Some (Nat.iter n (day feed cfg 0%nat qs) s).
Proof.
  revert s. induction n as [|n IH]; intros s Hne Hin Hout.
  - simpl. replace (_ <=? _)%Z with false; [reflexivity|].
    symmetry. apply Z.leb_gt. lia.
  - cbn [simulate]. replace (_ <=? _)%Z with true.
    2:{ symmetry. apply Z.leb_le. specialize (Hin 0%nat). lia. }
    destruct (@day_clock s Hne) as [Hne' Hclock].
    rewrite IH; [now rewrite Nat.iter_succ_r|exact Hne'| |].
    + intros k Hk. rewrite Hclock. specialize (Hin (S k)). lia.
    + rewrite Hclock. lia.
Qed.
End Clock.

(** [runBacktest] returns for every configuration, price service and signal
    list, with the state of the last of its [daysToRun] turns. *)
Lemma runBacktest_returns feed signals cfg :
  runBacktest feed signals cfg
  = Some (dates (afterDays feed signals cfg (daysToRun cfg)),
          summarize cfg (afterDays feed signals cfg (daysToRun cfg))).
Proof.
  unfold runBacktest, afterDays.
  assert (Hd : (0 < msPerDay)%Z) by reflexivity.
  pose proof (Z.mul_div_le (endDate cfg - startDate cfg) msPerDay Hd) as Hle.
  pose proof (Z.mod_pos_bound (endDate cfg - startDate cfg) msPerDay Hd) as Hmod.
  pose proof (Z.div_mod (endDate cfg - startDate cfg) msPerDay ltac:(lia)) as Hdm.
  rewrite simulate_runs; [reflexivity|easy| |];
    unfold daysToRun, start; cbn [dates getTime nth];
    set (a := (endDate cfg - startDate cfg)%Z) in *;
    generalize dependent msPerDay; intros d Hd Hle Hmod Hdm.
  - intros k Hk.
    assert (Hk' : (Z.of_nat k <= a / d)%Z) by lia.
    assert (Z.of_nat k * d <= a / d * d)%Z
      by (apply Z.mul_le_mono_nonneg_r; lia).
    lia.
  - assert (Hm : (a / d + 1 <= Z.of_nat (Z.to_nat (a / d + 1)))%Z) by lia.
    assert ((a / d + 1) * d <= Z.of_nat (Z.to_nat (a / d + 1)) * d)%Z
      by (apply Z.mul_le_mono_nonneg_r; lia).
    lia.
Qed.

(** *** Entry dates

    [entryDate: currentDate] stores the [Date] object of the loop, not a
    copy: every open position is dated by the location of [currentDate], so
    the days held that [checkExit] computes are 0 on every day. *)

Lemma set_dated k v m :
  entryDate v = 0%nat -> datedByCurrentDate m -> datedByCurrentDate (set k v m).
Proof.
  intros Hv Hm. induction Hm as [|[k0 v0] m He Hm IH]; simpl.
  - constructor; [exact Hv|constructor].
  - destruct (String.eqb k0 k); constructor; auto.
Qed.

Lemma delete_dated k m : datedByCurrentDate m -> datedByCurrentDate (delete k m).
Proof.
  intros Hm. induction Hm as [|[k0 v0] m He Hm IH]; simpl; [constructor|].
  destruct (negb (String.eqb k0 k)); [constructor|]; auto.
Qed.

Lemma positions_dated_by_currentDate feed signals cfg n :
  datedByCurrentDate (openPositions (afterDays feed signals cfg n)).
Proof.
  unfold afterDays. induction n as [|n IH]; [constructor|].
  rewrite Nat.iter_succ. set (s := Nat.iter n _ _) in *.
  unfold day, nextDay, trackDrawdown.
  assert (H : datedByCurrentDate
                (openPositions
                   (closeDue feed cfg 0%nat
                      (openNew feed cfg 0%nat
                         (filter (fun s0 => (convergenceScore s0
                                             >=? minConvergenceScore cfg)%num)
                            signals) s)))).
  { unfold closeDue, openNew.
    apply (fold_left_invariant (fun s' => datedByCurrentDate (openPositions s'))).
    - intros a [tk position] Ha. unfold checkExit.
      destruct (getPriceOnDate _ _); [|exact Ha].
      destruct (exitDecision _ _ _ _) as [[|] r]; [|exact Ha].
      now apply delete_dated.
    - apply (fold_left_invariant (fun s' => datedByCurrentDate (openPositions s')));
        [|exact IH].
      intros a sg Ha. unfold enter.
      destruct (getPriceOnDate _ _); [|exact Ha].
      destruct (_ >? _)%num; [|exact Ha].
      destruct (_ >? _)%num; [|exact Ha].
      now apply set_dated. }
  destruct (_ <? _)%num; exact H.
Qed.

Lemma daysHeld_zero s position :
  entryDate position = 0%nat -> daysHeld s 0%nat position = 0%Z.
Proof.
  intros E. unfold daysHeld. rewrite E. now rewrite Z.sub_diag.
Qed.

(** *** Exit reasons *)

Lemma exitDecision_recorded cfg returnPercent daysSinceEntry now :
  exitDecision cfg returnPercent daysSinceEntry now
  = match recordedReason cfg returnPercent daysSinceEntry now with
    | Some r => (true, r)
    | None => (false, holding_period)
    end.
Proof.
  unfold exitDecision, recordedReason, windowEnded, holdingReached,
    takeProfitHit, stopLossHit.
  destruct (now >=? endDate cfg)%Z; [reflexivity|].
  destruct (daysSinceEntry >=? holdingPeriodDays cfg)%Z; [reflexivity|].
  destruct (takeProfit cfg) as [tp|], (stopLoss cfg) as [sl|];
    repeat match goal with
           | |- context [if ?b then _ else _] => destruct b
           end; reflexivity.
Qed.

(** C1, as the code has it.  For an open position with a price for the day,
    [checkExit] records nothing and keeps the position when none of the four
    conditions holds; otherwise it appends exactly one trade for the ticker,
    removes the position, and tags the trade with the reason of the last
    condition that holds in the order stop-loss, take-profit, holding period,
    end of window.  So end of window comes first and stop-loss last: a
    position whose stop-loss and holding-period checks both succeed on a day
    before the end date is closed as [holding_period].  Without a price for
    the day nothing happens. *)
Theorem exit_reason_priority feed cfg currentDate s tk position :
  let now := getTime (dates s) currentDate in
  let prices :=
    feed tk (getTime (dates s) (entryDate position)) now in
  let s' := checkExit feed cfg currentDate s (tk, position) in
  (getPriceOnDate prices now = None -> s' = s)
  /\ (forall p,
        getPriceOnDate prices now = Some p ->
        match recordedReason cfg (returnAt position p)
                (daysHeld s currentDate position) now with
        | None => s' = s
        | Some r =>
            exists t,
              s_trades s' = s_trades s ++ [t]
              /\ t_ticker t = tk
              /\ exitReason t = r
              /\ openPositions s' = delete tk (openPositions s)
        end)
  /\ (forall returnPercent daysSinceEntry,
        stopLossHit cfg returnPercent = true ->
        holdingReached cfg daysSinceEntry = true ->
        windowEnded cfg now = false ->
        recordedReason cfg returnPercent daysSinceEntry now
        = Some holding_period).
Proof.
  intros now prices s'. subst s'. unfold checkExit.
  fold now. fold prices. repeat split.
  - intros ->. reflexivity.
  - intros p ->. fold (returnAt position p).
    change ((now - getTime (dates s) (entryDate position)) / msPerDay)%Z
      with (daysHeld s currentDate position).
    rewrite exitDecision_recorded.
    destruct (recordedReason _ _ _ _) as [r|]; [|reflexivity].
    eexists. simpl. repeat split.
  - intros rp d _ Hh He. unfold recordedReason. now rewrite He, Hh.
Qed.

Lemma exit_reason_priority_witness :
  exists t,
    s_trades
      (checkExit falling baseConfig 0%nat (afterDays falling [nvda] baseConfig 1)
         ("NVDA"%string, nvdaPosition))
    = s_trades (afterDays falling [nvda] baseConfig 1) ++ [t]
    /\ exitReason t = end_of_test.
Proof.
  destruct (@exit_reason_priority falling baseConfig 0%nat
              (afterDays falling [nvda] baseConfig 1) "NVDA"%string nvdaPosition)
    as (_ & H & _).
  specialize (H (bar day1 (ofZ 79)) eq_refl).
  assert (E : recordedReason baseConfig
                (returnAt nvdaPosition (bar day1 (ofZ 79)))
                (daysHeld (afterDays falling [nvda] baseConfig 1) 0%nat
                   nvdaPosition)
                (getTime (dates (afterDays falling [nvda] baseConfig 1)) 0%nat)
              = Some end_of_test) by reflexivity.
  rewrite E in H. destruct H as (t & Ht & _ & Hr & _).
  exists t. split; assumption.
Defined.

(** The run behind the counterexample to C1: NVDA is bought at 100 on the
    first day of a two-day window with a 20% stop-loss and a holding period
    of one day, and closes at 79 on the second day.  The one trade recorded
    has a return of -21% and is tagged [end_of_test], not [stop_loss]. *)
Lemma stop_loss_overridden :
  s_trades (afterDays falling [nvda] baseConfig 1) = []
  /\ map fst (openPositions (afterDays falling [nvda] baseConfig 1))
     = ["NVDA"%string]
  /\ exists h r t,
       runBacktest falling [nvda] baseConfig = Some (h, r)
       /\ trades r = s_trades (afterDays falling [nvda] baseConfig 2)
       /\ trades r = [t]
       /\ stopLossHit baseConfig (returnPercent t) = true
       /\ exitReason t = end_of_test
       /\ exitReason t <> stop_loss.
Proof.
  split; [reflexivity|]. split; [reflexivity|].
  rewrite runBacktest_returns. eexists. eexists. eexists.
  split; [reflexivity|].
  split; [reflexivity|].
  split; [vm_compute; reflexivity|].
  split; [reflexivity|]. split; [reflexivity|discriminate].
Qed.

(** *** Percentages over a zero base *)

(** C5.  With a starting capital of 0 the run returns a total return of NaN;
    with a bar that closes at 0 the position is entered at price 0 and its
    trade carries a return of NaN.  Neither division is guarded, unlike the
    divisions by a number of trades in the same function. *)
Theorem zero_base_gives_NaN :
  (exists h r,
      runBacktest noPrices [] (withCapital (ofZ 0) baseConfig) = Some (h, r)
      /\ trades r = []
      /\ winRate r = ofZ 0
      /\ totalReturn r = NaN)
  /\ (exists h r t,
        runBacktest worthless [nvda] baseConfig = Some (h, r)
        /\ trades r = [t]
        /\ t_entryPrice t = ofZ 0
        /\ returnPercent t = NaN
        /\ totalReturn r = NaN).
Proof.
  split.
  - rewrite runBacktest_returns. eexists. eexists.
    split; [reflexivity|]. repeat split.
  - rewrite runBacktest_returns. eexists. eexists. eexists.
    split; [reflexivity|].
    split; [vm_compute; reflexivity|]. repeat split.
Qed.

(** *** Configurations the simulator should refuse *)

Lemma last_Some_In {A} (l : list A) x :
  last (map Some l) None = Some x -> In x l.
Proof.
  induction l as [|y l IH]; simpl; [discriminate|].
  destruct l as [|z l]; simpl in *.
  - intros E. inversion E. now left.
  - intros E. right. now apply IH.
Qed.

Lemma getPriceOnDate_In prices target p :
  getPriceOnDate prices target = Some p -> In p prices.
Proof.
  unfold getPriceOnDate. destruct (find _ prices) as [p'|] eqn:E.
  - intros E'. inversion E'; subst. now apply find_some in E.
  - apply last_Some_In.
Qed.

Lemma Qdiv_pos_neg a m : 0 < a -> m < 0 -> a / m < 0.
Proof.
  intros Ha Hm.
  assert (H : a / m * m == a) by (field; lra).
  nra.
Qed.

Lemma Qdiv_neg_pos x b : x < 0 -> 0 < b -> x / b < 0.
Proof.
  intros Hx Hb.
  assert (H : x / b * b == x) by (field; lra).
  nra.
Qed.

Lemma Qeq_bool_nonzero x : ~ x == 0 -> Qeq_bool x 0 = false.
Proof.
  intros H. destruct (Qeq_bool x 0) eqn:E; [|reflexivity].
  now apply Qeq_bool_iff in E.
Qed.

Lemma floor_negative x : x < 0 -> (Fin (inject_Z (Qfloor x)) >? ofZ 0)%num = false.
Proof.
  intros Hx. destruct (_ >? _)%num eqn:E; [|reflexivity].
  apply gtb_Fin in E. pose proof (Qfloor_le x) as Hf.
  change (inject_Z 0) with 0 in E. lra.
Qed.

(** With a negative number of free slots no share count comes out
    positive. *)
Lemma no_shares_for_negative_slots c d p :
  (c >? ofZ 0)%num = true -> (d < 0)%Z -> (p >? ofZ 0)%num = true ->
  (floor (c / ofZ d / p) >? ofZ 0)%num = false.
Proof.
  intros Hc Hd Hp.
  assert (Hm : inject_Z d < 0).
  { change 0 with (inject_Z 0). now rewrite <- Zlt_Qlt. }
  destruct c as [a| | |]; try discriminate Hc;
    destruct p as [b| | |]; try discriminate Hp.
  - apply gtb_Fin in Hc. apply gtb_Fin in Hp.
    change (inject_Z 0) with 0 in Hc, Hp.
    unfold div, ofZ. rewrite Qeq_bool_nonzero by lra.
    rewrite Qeq_bool_nonzero by lra. unfold floor.
    apply floor_negative, Qdiv_neg_pos; [|exact Hp].
    now apply Qdiv_pos_neg.
  - unfold div, ofZ. rewrite Qeq_bool_nonzero by lra. reflexivity.
  - apply gtb_Fin in Hp. change (inject_Z 0) with 0 in Hp.
    unfold div at 2. unfold ofZ.
    replace (Qle_bool 0 (inject_Z d)) with false.
    2:{ symmetry. destruct (Qle_bool 0 (inject_Z d)) eqn:E; [|reflexivity].
        apply Qle_bool_iff in E. lra. }
    unfold div. replace (Qle_bool 0 b) with true; [reflexivity|].
    symmetry. apply Qle_bool_iff. lra.
  - unfold div at 2. unfold ofZ.
    destruct (Qle_bool 0 (inject_Z d)); reflexivity.
Qed.

Section Idle.
Variable feed : string -> Z -> Z -> list HistoricalPrice.
Variable cfg : BacktestConfig.
Variable qs : list ConvergenceSignal.

Lemma enter_refused s sg :
  pricesPositive feed ->
  (maxPositions cfg - Z.of_nat (List.length (openPositions s)) < 0)%Z ->
  enter feed cfg 0%nat s sg = s.
Proof.
  intros Hpos Hslots. unfold enter.
  destruct (getPriceOnDate _ _) as [p|] eqn:Ep; [|reflexivity].
  apply getPriceOnDate_In, Hpos in Ep.
  destruct (capital s >? ofZ 0)%num eqn:Ec; [|reflexivity].
  now rewrite no_shares_for_negative_slots.
Qed.

Lemma day_idle s :
  pricesPositive feed -> (maxPositions cfg <= 0)%Z ->
  idle cfg s -> idle cfg (day feed cfg 0%nat qs s).
Proof.
  intros Hpos Hmax (Ho & Ht & Hc).
  assert (E1 : openNew feed cfg 0%nat qs s = s).
  { unfold openNew. rewrite Ho. simpl List.length.
    destruct (Z.eq_dec (maxPositions cfg) 0) as [E0|Hne].
    - rewrite E0. reflexivity.
    - apply (fold_left_invariant (fun s' => s' = s)); [|reflexivity].
      intros a x ->. apply enter_refused; [exact Hpos|].
      rewrite Ho. simpl. lia. }
  assert (E2 : closeDue feed cfg 0%nat s = s).
  { unfold closeDue. now rewrite Ho. }
  unfold day. rewrite E1, E2. unfold idle, nextDay, trackDrawdown. simpl.
  destruct (_ <? _)%num; simpl; auto.
Qed.
End Idle.

(** C2, as the code has it.  [runBacktest] checks nothing of its
    configuration.  With the end date before the start date, or with
    [maxPositions <= 0] and a price service whose bars close above 0, it
    runs to its end and returns a result without trades whose final capital
    is the starting capital. *)
Theorem invalid_config_runs_empty feed signals cfg :
  (endDate cfg < startDate cfg)%Z
  \/ ((maxPositions cfg <= 0)%Z /\ pricesPositive feed) ->
  exists h r,
    runBacktest feed signals cfg = Some (h, r)
    /\ trades r = []
    /\ totalTrades r = 0%nat
    /\ finalCapital r = initialCapital cfg.
Proof.
  intros H. rewrite runBacktest_returns.
  assert (Hidle : idle cfg (afterDays feed signals cfg (daysToRun cfg))).
  { destruct H as [Hend|[Hmax Hpos]].
    - replace (daysToRun cfg) with 0%nat; [repeat split|].
      unfold daysToRun.
      assert ((endDate cfg - startDate cfg) / msPerDay < 0)%Z
        by (apply Z.div_lt_upper_bound; [reflexivity|lia]).
      lia.
    - unfold afterDays. induction (daysToRun cfg) as [|n IH].
      + repeat split.
      + rewrite Nat.iter_succ. now apply day_idle. }
  destruct Hidle as (Ho & Ht & Hc).
  eexists. eexists. split; [reflexivity|].
  unfold summarize. simpl. rewrite Ht. repeat split. exact Hc.
Qed.

Lemma rising_positive : pricesPositive rising.
Proof.
  intros tk a b p [<-|[<-|[]]]; reflexivity.
Qed.

Lemma invalid_config_runs_empty_witness :
  exists h r,
    runBacktest rising [nvda] (withMaxPositions (-1) baseConfig) = Some (h, r)
    /\ trades r = []
    /\ totalTrades r = 0%nat
    /\ finalCapital r = ofZ 100000.
Proof.
  apply (@invalid_config_runs_empty rising [nvda]
           (withMaxPositions (-1) baseConfig)).
  right. split; [simpl; lia|exact rising_positive].
Defined.

(** The runs behind the counterexample to C2: with [maxPositions = 0], and
    with the end date a day before the start date, [runBacktest] returns a
    result, and the result has no trades although a qualifying signal and
    prices are there. *)
Lemma invalid_config_accepted :
  (maxPositions (withMaxPositions 0 baseConfig) <= 0)%Z
  /\ (exists h r,
        runBacktest rising [nvda] (withMaxPositions 0 baseConfig) = Some (h, r)
        /\ trades r = [])
  /\ (endDate (withWindow day1 day0 baseConfig)
      < startDate (withWindow day1 day0 baseConfig))%Z
  /\ (exists h r,
        runBacktest rising [nvda] (withWindow day1 day0 baseConfig) = Some (h, r)
        /\ trades r = []).
Proof.
  split; [simpl; lia|]. split.
  - rewrite runBacktest_returns. eexists. eexists. split; reflexivity.
  - split; [reflexivity|].
    rewrite runBacktest_returns. eexists. eexists. split; reflexivity.
Qed.

(** *** The position map *)

(** [set] on the position map. *)
Lemma set_keys_In k v m k' :
  In k' (map fst (set k v m)) <-> k' = k \/ In k' (map fst m).
Proof.
  induction m as [|[k0 v0] m IH]; simpl.
  - intuition congruence.
  - destruct (String.eqb k0 k) eqn:E; simpl.
    + apply String.eqb_eq in E. subst. intuition congruence.
    + rewrite IH. tauto.
Qed.

Lemma set_keys_NoDup k v m :
  NoDup (map fst m) -> NoDup (map fst (set k v m)).
Proof.
  induction m as [|[k0 v0] m IH]; simpl; intros H.
  - repeat constructor. easy.
  - inversion H as [|? ? Hnotin Hnd]; subst.
    destruct (String.eqb k0 k) eqn:E; simpl.
    + now constructor.
    + constructor; [|now apply IH].
      rewrite set_keys_In. intros [->|Hin]; [|now apply Hnotin].
      now rewrite String.eqb_refl in E.
Qed.

Lemma set_length k v m :
  (List.length m <= List.length (set k v m) <= S (List.length m))%nat.
Proof.
  induction m as [|[k0 v0] m IH]; simpl; [lia|].
  destruct (String.eqb k0 k); simpl; lia.
Qed.

Lemma delete_keys_In k m k' :
  In k' (map fst (delete k m)) -> In k' (map fst m).
Proof.
  unfold delete. intros H. apply in_map_iff in H.
  destruct H as [e [E He]]. apply filter_In in He.
  apply in_map_iff. exists e. tauto.
Qed.

Lemma delete_keys_NoDup k m : NoDup (map fst m) -> NoDup (map fst (delete k m)).
Proof.
  induction m as [|[k0 v0] m IH]; simpl; intros H; [constructor|].
  inversion H as [|? ? Hnotin Hnd]; subst.
  destruct (negb (String.eqb k0 k)); simpl; [|now apply IH].
  constructor; [|now apply IH].
  intros Hin. apply Hnotin. now apply delete_keys_In in Hin.
Qed.

Lemma delete_absent k m : ~ In k (map fst m) -> delete k m = m.
Proof.
  induction m as [|[k0 v0] m IH]; simpl; intros H; [reflexivity|].
  destruct (String.eqb k0 k) eqn:E; simpl.
  - apply String.eqb_eq in E. subst. exfalso. apply H. now left.
  - rewrite IH; [reflexivity|]. intros Hin. apply H. now right.
Qed.

Lemma delete_keeps k m e : In e m -> fst e <> k -> In e (delete k m).
Proof.
  intros Hin Hne. unfold delete. apply filter_In. split; [exact Hin|].
  destruct (String.eqb (fst e) k) eqn:E; [|reflexivity].
  apply String.eqb_eq in E. contradiction.
Qed.




End BacktesterFacts.

(** ** More on the convergence detector *)

Module DetectorMore.
Import ConvergenceAnalyzer NumFacts WeightFacts DetectorFacts Scenarios.

(** *** The stable sort puts its input in order *)

Section SortedFacts.
Variable A : Type.
Variable after : A -> A -> bool.
Variable good : A -> Prop.
Hypothesis after_asym :
  forall x y, good x -> good y -> after x y = true -> after y x = false.
Hypothesis notAfter_trans :
  forall x y z, good x -> good y -> good z ->
    after x y = false -> after y z = false -> after x z = false.

Lemma insertSorted_good x l :
  good x -> Forall good l -> Forall good (insertSorted after x l).
Proof.
  intros Hx Hl. induction Hl as [|y l Hy Hl IH]; simpl.
  - now constructor.
  - destruct (after x y); repeat constructor; auto.
Qed.

Lemma sort_good l : Forall good l -> Forall good (sort after l).
Proof.
  induction 1 as [|x l Hx Hl IH]; simpl; [constructor|].
  now apply insertSorted_good.
Qed.

Lemma insertSorted_sorted x l :
  good x -> Forall good l ->
  StronglySorted (fun a b => after a b = false) l ->
  StronglySorted (fun a b => after a b = false) (insertSorted after x l).
Proof.
  intros Hx Hl Hs. induction Hs as [|y l Hs IH Hy]; simpl.
  - repeat constructor.
  - inversion Hl as [|? ? Gy Gl]; subst.
    destruct (after x y) eqn:E.
    + constructor; [now apply IH|].
      apply Forall_forall. intros z Hz.
      apply (Permutation_in _ (insertSorted_perm after x l)) in Hz.
      destruct Hz as [<-|Hz]; [now apply after_asym|].
      rewrite Forall_forall in Hy. now apply Hy.
    + constructor; [now constructor|].
      constructor; [exact E|].
      rewrite Forall_forall in *. intros z Hz.
      apply notAfter_trans with y; auto.
Qed.

Lemma sort_sorted l :
  Forall good l -> StronglySorted (fun a b => after a b = false) (sort after l).
Proof.
  induction 1 as [|x l Hx Hl IH]; simpl; [constructor|].
  apply insertSorted_sorted; [exact Hx|now apply sort_good|exact IH].
Qed.
End SortedFacts.

Lemma StronglySorted_weaken {A} (R R' : A -> A -> Prop) (good : A -> Prop) l :
  (forall a b, good a -> good b -> R a b -> R' a b) ->
  Forall good l -> StronglySorted R l -> StronglySorted R' l.
Proof.
  intros Himp Hg Hs. induction Hs as [|x l Hs IH Hx]; [constructor|].
  inversion Hg as [|? ? Gx Gl]; subst.
  constructor; [now apply IH|].
  rewrite Forall_forall in *. intros y Hy. apply Himp; auto.
Qed.

(** Sorting by descending finite score. *)
Lemma sort_by_score_sorted {A} (f : A -> num) l :
  Forall (fun x => is_fin (f x) = true) l ->
  StronglySorted (fun a b => (f b <=? f a)%num = true)
    (sort (fun a b => (f b - f a >? ofZ 0)%num) l).
Proof.
  intros Hfin.
  assert (Hdiff : forall a b, is_fin (f a) = true -> is_fin (f b) = true ->
            ((f b - f a >? ofZ 0)%num = false <-> (f b <=? f a)%num = true)).
  { intros a b Ha Hb. destruct (f a) as [x| | |], (f b) as [y| | |];
      try discriminate.
    change ((Fin (y + - x) >? ofZ 0)%num = false <-> (Fin y <=? Fin x)%num = true).
    rewrite leb_Fin.
    destruct (Fin (y + - x) >? ofZ 0)%num eqn:E.
    - apply gtb_Fin in E. change (inject_Z 0) with 0 in E.
      split; [discriminate|]. intros. lra.
    - split; [|reflexivity]. intros _.
      destruct (Qlt_le_dec x y) as [Hlt|Hle]; [|exact Hle].
      assert ((Fin (y + - x) >? ofZ 0)%num = true); [|congruence].
      apply gtb_Fin. change (inject_Z 0) with 0. lra. }
  apply StronglySorted_weaken
    with (R := fun a b => (f b - f a >? ofZ 0)%num = false)
         (good := fun x => is_fin (f x) = true).
  - intros a b Ha Hb. now apply Hdiff.
  - now apply sort_good.
  - apply sort_sorted with (good := fun x => is_fin (f x) = true).
    + intros x y Hx Hy Hxy. apply Hdiff; auto.
      destruct (f x) as [a| | |], (f y) as [b| | |]; try discriminate.
      apply gtb_Fin in Hxy. change (inject_Z 0) with 0 in Hxy.
      apply leb_Fin. simpl in Hxy. lra.
    + intros x y z Hx Hy Hz Hxy Hyz.
      apply Hdiff in Hxy; auto. apply Hdiff in Hyz; auto. apply Hdiff; auto.
      now apply leb_trans with (f y).
    + exact Hfin.
Qed.

Lemma inRange_fin x : inRange x -> is_fin x = true.
Proof. intros H. apply inRange_nonneg in H. now destruct H as [a [-> _]]. Qed.

Lemma signalOf_threshold now k a s :
  signalOf now k a = Some s -> (convergenceScore s >? ofZ 10)%num = true.
Proof.
  unfold signalOf. destruct (_ >? ofZ 10)%num eqn:E; [|discriminate].
  intros H. inversion H; subst; clear H. exact E.
Qed.

(** X1.  The signals come out in descending order of overall score, and
    each of them scores above 10. *)
Theorem signals_sorted_above_floor now i c h :
  StronglySorted
    (fun a b => (convergenceScore b <=? convergenceScore a)%num = true)
    (detectConvergence now i c h)
  /\ Forall (fun s => (convergenceScore s >? ofZ 10)%num = true)
       (detectConvergence now i c h).
Proof.
  unfold detectConvergence. split.
  - apply sort_by_score_sorted. apply Forall_forall. intros s Hs.
    apply collect_In in Hs. destruct Hs as [[k a] [_ Hs]].
    apply signalOf_scores in Hs. apply inRange_fin. tauto.
  - apply Forall_forall. intros s Hs.
    apply sort_In, collect_In in Hs. destruct Hs as [[k a] [_ Hs]].
    now apply signalOf_threshold in Hs.
Qed.

Lemma collect_keys_NoDup now m :
  NoDup (keys m) ->
  NoDup (map ticker (collect (fun e => signalOf now (fst e) (snd e)) m)).
Proof.
  induction m as [|[k a] m IH]; simpl; intros Hnd; [constructor|].
  inversion Hnd as [|? ? Hnotin Hnd']; subst.
  destruct (signalOf now k a) as [s|] eqn:E; [|now apply IH].
  simpl. constructor; [|now apply IH].
  apply signalOf_recent in E. destruct E as [-> _].
  intros Hin. apply in_map_iff in Hin. destruct Hin as [s' [Et Hs']].
  apply collect_In in Hs'. destruct Hs' as [[k' a'] [Hin' Hs']].
  apply signalOf_recent in Hs'. destruct Hs' as [Ek' _]. simpl in Ek'.
  apply Hnotin. rewrite <- Et, Ek'.
  change k' with (fst (k', a')). now apply in_map.
Qed.

(** X2.  At most one signal is emitted per ticker, and the ticker of every
    signal is the ticker of some event of the input. *)
Theorem one_signal_per_ticker now i c h :
  NoDup (map ticker (detectConvergence now i c h))
  /\ forall s, In s (detectConvergence now i c h) ->
       In (ticker s) (map i_ticker i) \/ In (ticker s) (map c_ticker c)
       \/ In (ticker s) (map h_ticker h).
Proof.
  unfold detectConvergence. split.
  - apply Permutation_NoDup
      with (l := map ticker
                   (collect (fun e => signalOf now (fst e) (snd e))
                      (groupByTicker i c h))).
    + apply Permutation_map. symmetry. apply sort_perm.
    + apply collect_keys_NoDup, groupByTicker_NoDup.
  - intros s Hs. apply sort_In, collect_In in Hs.
    destruct Hs as [[k a] [Hin Hs]]. apply signalOf_recent in Hs.
    destruct Hs as [-> _]. simpl. apply groupByTicker_keys_In.
    change k with (fst (k, a)). now apply in_map.
Qed.






End DetectorMore.

(** ** More on the weight calculator *)

Module WeightMore.
Import ConvergenceAnalyzer NumFacts WeightFacts Scenarios.

Lemma mul_leb_compat_r c x y :
  nonneg c -> (Fin x <=? Fin y)%num = true ->
  (Fin x * c <=? Fin y * c)%num = true.
Proof.
  intros [a [-> Ha]] H. apply leb_Fin in H.
  change ((Fin (x * a) <=? Fin (y * a))%num = true). apply leb_Fin. nra.
Qed.

Lemma mul_ltb_compat_l c x y :
  positive c -> (Fin x <? Fin y)%num = true ->
  (c * Fin x <? c * Fin y)%num = true.
Proof.
  intros [a [-> Ha]] H. apply ltb_Fin in H.
  change ((Fin (a * x) <? Fin (a * y))%num = true). apply ltb_Fin. nra.
Qed.

Lemma weight_monotone_in_value_witness :
  (calculateInsiderWeight (insiderEvent "CFO" BUY (ofZ 1000) (ofZ 10))
   <=? calculateInsiderWeight (insiderEvent "CFO" BUY (ofZ 1000) (ofZ 300)))%num
  = true.
Proof.
  apply (@weight_monotone_in_value "CFO" "BUY" (ofZ 1000) (ofZ 10)
           (ofZ 1000) (ofZ 300)).
  reflexivity.
Defined.

(** X6.  For one title and one size, a sale weighs strictly less than an
    exercise, a gift or another transaction, which all weigh the same and
    strictly less than a buy. *)
Theorem insider_kind_order title sh price :
  let w kind := calculateInsiderWeight (insiderEvent title kind sh price) in
  (w SELL <? w OTHER)%num = true
  /\ w EXERCISE = w OTHER /\ w GIFT = w OTHER
  /\ (w OTHER <? w BUY)%num = true.
Proof.
  intros w. unfold w, calculateInsiderWeight, insiderEvent. simpl.
  destruct (insiderBaseWeight_positive title) as [b [Eb Hb]].
  destruct (sizeMultiplier_positive (sh * price)%num) as [m [Em Hm]].
  rewrite Eb, Em.
  assert (Hbm : 0 < b * m) by now apply Qmult_lt_0_compat.
  repeat split; apply ltb_Fin; change (inject_Z 1) with 1;
    assert (E1 : b * (3 # 10) * m == (3 # 10) * (b * m)) by ring;
    assert (E2 : b * 1 * m == b * m) by ring;
    assert (E3 : b * (3 # 2) * m == (3 # 2) * (b * m)) by ring;
    change (Z.to_pos 10) with 10%positive; change (Z.to_pos 2) with 2%positive;
    rewrite ?E1, ?E2, ?E3; lra.
Qed.

(** The committee bonus. *)
Lemma leb_max_l x y : nonneg x -> nonneg y -> (x <=? max x y)%num = true.
Proof.
  intros [a [-> Ha]] [b [-> Hb]]. unfold max, cmp.
  destruct (a ?= b) eqn:E; apply leb_Fin; try lra.
  apply Qlt_alt in E. lra.
Qed.

Lemma fold_max_grows (hit : string * num -> bool) table acc :
  nonneg acc -> Forall (fun e => nonneg (snd e)) table ->
  (acc <=? fold_left (fun b e => if hit e then max b (snd e) else b) table acc)%num
  = true.
Proof.
  intros Hacc Htab. revert acc Hacc.
  induction Htab as [|e table He Htab IH]; intros acc Hacc; simpl.
  - destruct Hacc as [a [-> _]]. apply leb_Fin. lra.
  - destruct (hit e).
    + apply leb_trans with (max acc (snd e)); [now apply leb_max_l|].
      apply IH. now apply nonneg_max.
    + now apply IH.
Qed.

Lemma committeeBonus_snoc cs c :
  committeeBonus (cs ++ [c])
  = fold_left
      (fun bonus (e : string * num) =>
         if includes (toLowerCase c) (toLowerCase (fst e))
         then max bonus (snd e) else bonus)
      CONGRESS_COMMITTEE_WEIGHTS (committeeBonus cs).
Proof. unfold committeeBonus. now rewrite fold_left_app. Qed.

Lemma amountMultiplier_monotone a1 a2 :
  (a1 <=? a2)%num = true ->
  ((if (a1 >=? ofZ 1000000)%num then ofZ 3
    else if (a1 >=? ofZ 250000)%num then ofZ 2
    else if (a1 >=? ofZ 50000)%num then frac 3 2 else ofZ 1)
   <=? (if (a2 >=? ofZ 1000000)%num then ofZ 3
        else if (a2 >=? ofZ 250000)%num then ofZ 2
        else if (a2 >=? ofZ 50000)%num then frac 3 2 else ofZ 1))%num = true.
Proof.
  intros H.
  assert (Hup : forall k, (a1 >=? k)%num = true -> (a2 >=? k)%num = true).
  { intros k Hk. unfold geb in *. now apply leb_trans with a1. }
  destruct (a1 >=? ofZ 1000000)%num eqn:E1.
  { now rewrite (Hup _ E1). }
  destruct (a1 >=? ofZ 250000)%num eqn:E2.
  { rewrite (Hup _ E2). now destruct (a2 >=? ofZ 1000000)%num. }
  destruct (a1 >=? ofZ 50000)%num eqn:E3.
  { rewrite (Hup _ E3).
    now destruct (a2 >=? ofZ 1000000)%num, (a2 >=? ofZ 250000)%num. }
  now destruct (a2 >=? ofZ 1000000)%num, (a2 >=? ofZ 250000)%num,
    (a2 >=? ofZ 50000)%num.
Qed.

(** X7.  For a legislator's transaction: one more committee never lowers
    the weight; a purchase weighs strictly more than the same transaction of
    any other kind; and a larger midpoint of the disclosed range never
    lowers the weight. *)
Theorem congress_weight_order cs kind lo hi :
  (forall c,
      (calculateCongressWeight (congressEvent (Some cs) kind lo hi)
       <=? calculateCongressWeight (congressEvent (Some (cs ++ [c])) kind lo hi))%num
      = true)
  /\ (kind <> "PURCHASE"%string ->
      (calculateCongressWeight (congressEvent (Some cs) kind lo hi)
       <? calculateCongressWeight (congressEvent (Some cs) "PURCHASE" lo hi))%num
      = true)
  /\ (forall lo' hi',
      ((lo + hi) / ofZ 2 <=? (lo' + hi') / ofZ 2)%num = true ->
      (calculateCongressWeight (congressEvent (Some cs) kind lo hi)
       <=? calculateCongressWeight (congressEvent (Some cs) kind lo' hi'))%num
      = true).
Proof.
  unfold calculateCongressWeight, congressEvent. cbn [wc_committees
    wc_transactionType wc_amountRange rmin rmax].
  pose proof (committeeBonus_nonneg cs) as HB.
  assert (Htx : forall k, positive (if String.eqb k "PURCHASE" then frac 3 2
                                    else frac 1 2)).
  { intros k. destruct (String.eqb k "PURCHASE"); apply positive_frac; lia. }
  assert (Ham : forall a, positive
            (if (a >=? ofZ 1000000)%num then ofZ 3
             else if (a >=? ofZ 250000)%num then ofZ 2
             else if (a >=? ofZ 50000)%num then frac 3 2 else ofZ 1)).
  { intros a. repeat match goal with
                     | |- context [if ?b then _ else _] => destruct b
                     end;
      first [apply positive_ofZ; lia | apply positive_frac; lia]. }
  repeat split.
  - intros c. rewrite committeeBonus_snoc.
    set (B' := fold_left _ CONGRESS_COMMITTEE_WEIGHTS (committeeBonus cs)).
    assert (Hgrow : (committeeBonus cs <=? B')%num = true).
    { apply fold_max_grows with
        (hit := fun e => includes (toLowerCase c) (toLowerCase (fst e)));
        [exact HB|exact CONGRESS_COMMITTEE_WEIGHTS_nonneg]. }
    assert (HB' : nonneg B').
    { apply fold_max_nonneg with
        (hit := fun e => includes (toLowerCase c) (toLowerCase (fst e)));
        [exact HB|exact CONGRESS_COMMITTEE_WEIGHTS_nonneg]. }
    clearbody B'.
    destruct HB as [b [Eb Hb]]. destruct HB' as [b' [Eb' Hb']].
    rewrite Eb, Eb' in *. apply leb_Fin in Hgrow.
    destruct (Htx kind) as [t [Et Ht]]. destruct (Ham ((lo + hi) / ofZ 2)%num)
      as [m [Em Hm]].
    rewrite Et, Em.
    change ((Fin ((inject_Z 5 + b) * t * m) <=? Fin ((inject_Z 5 + b') * t * m))%num
            = true).
    apply leb_Fin.
    assert (Htm : 0 < t * m) by now apply Qmult_lt_0_compat.
    setoid_replace ((inject_Z 5 + b) * t * m)
      with ((inject_Z 5 + b) * (t * m)) by ring.
    setoid_replace ((inject_Z 5 + b') * t * m)
      with ((inject_Z 5 + b') * (t * m)) by ring.
    apply Qmult_le_compat_r; lra.
  - intros Hk. apply String.eqb_neq in Hk. rewrite Hk. simpl String.eqb.
    destruct HB as [b [Eb Hb]]. rewrite Eb.
    destruct (Ham ((lo + hi) / ofZ 2)%num) as [m [Em Hm]]. rewrite Em.
    apply (@mul_ltb_compat_r (Fin m)); [now exists m|].
    apply (@mul_ltb_compat_l (ofZ 5 + Fin b)%num); [|reflexivity].
    exists (inject_Z 5 + b). split; [reflexivity|].
    change (inject_Z 5) with 5. lra.
  - intros lo' hi' Hle.
    pose proof (amountMultiplier_monotone _ _ Hle) as Hm.
    destruct (Ham ((lo + hi) / ofZ 2)%num) as [m [Em _]].
    destruct (Ham ((lo' + hi') / ofZ 2)%num) as [m' [Em' _]].
    rewrite Em, Em' in *.
    apply mul_leb_compat; [|exact Hm].
    apply positive_nonneg, positive_mul; [|apply Htx].
    apply positive_add_l; [apply positive_ofZ; lia|exact HB].
Qed.

Lemma congress_weight_order_witness :
  (calculateCongressWeight (congressEvent (Some []) "SALE" (ofZ 1001) (ofZ 15000))
   <? calculateCongressWeight
        (congressEvent (Some []) "PURCHASE" (ofZ 1001) (ofZ 15000)))%num = true
  /\ (calculateCongressWeight
        (congressEvent (Some []) "SALE" (ofZ 1001) (ofZ 15000))
      <=? calculateCongressWeight
            (congressEvent (Some []) "SALE" (ofZ 250001) (ofZ 500000)))%num = true.
Proof.
  destruct (@congress_weight_order [] "SALE" (ofZ 1001) (ofZ 15000))
    as (_ & Hp & Ha).
  split.
  - apply Hp. discriminate.
  - apply Ha. reflexivity.
Defined.

(** X8.  For one value and one ownership percentage, a decrease and a
    sold-out position weigh the same and strictly less than an unchanged or
    unclassified holding, which weighs strictly less than an increase,
    which weighs strictly less than a new position. *)
Theorem institutional_change_order h :
  let w c := calculateInstitutionalWeight (withChange h c) in
  w (Some SOLD_OUT) = w (Some DECREASE)
  /\ (w (Some DECREASE) <? w (Some NO_CHANGE))%num = true
  /\ w None = w (Some NO_CHANGE)
  /\ (w (Some NO_CHANGE) <? w (Some INCREASE))%num = true
  /\ (w (Some INCREASE) <? w (Some NEW))%num = true.
Proof.
  intros w. unfold w, calculateInstitutionalWeight, withChange.
  cbn [h_changeType h_value h_ownershipPercent].
  destruct (h_value h / ofZ 1000000 >=? ofZ 1000)%num;
    [|destruct (h_value h / ofZ 1000000 >=? ofZ 100)%num;
      [|destruct (h_value h / ofZ 1000000 >=? ofZ 10)%num]];
    (destruct (h_ownershipPercent h) as [p|];
     [destruct (truthy p && (p >=? ofZ 10)%num)%bool|]);
    repeat split.
Qed.

(** Letter case. *)
Lemma upper_ascii_idempotent c : upper_ascii (upper_ascii c) = upper_ascii c.
Proof. destruct c as [[] [] [] [] [] [] [] []]; reflexivity. Qed.

Lemma upper_lower_ascii c : upper_ascii (lower_ascii c) = upper_ascii c.
Proof. destruct c as [[] [] [] [] [] [] [] []]; reflexivity. Qed.

Lemma toUpperCase_idempotent s : toUpperCase (toUpperCase s) = toUpperCase s.
Proof.
  unfold toUpperCase. induction s as [|c s IH]; simpl; [reflexivity|].
  now rewrite upper_ascii_idempotent, IH.
Qed.

Lemma toUpperCase_toLowerCase s : toUpperCase (toLowerCase s) = toUpperCase s.
Proof.
  unfold toUpperCase, toLowerCase. induction s as [|c s IH]; simpl; [reflexivity|].
  now rewrite upper_lower_ascii, IH.
Qed.

(** X9.  For a title of ASCII characters, the weight and the actor type
    of an insider do not depend on the letter case of the title. *)
Theorem title_case_insensitive title kind sh price :
  asciiOnly title ->
  calculateInsiderWeight
    {| wi_insiderTitle := toUpperCase title; wi_transactionType := kind;
       wi_shares := sh; wi_pricePerShare := price |}
  = calculateInsiderWeight
      {| wi_insiderTitle := title; wi_transactionType := kind;
         wi_shares := sh; wi_pricePerShare := price |}
  /\ calculateInsiderWeight
       {| wi_insiderTitle := toLowerCase title; wi_transactionType := kind;
          wi_shares := sh; wi_pricePerShare := price |}
     = calculateInsiderWeight
         {| wi_insiderTitle := title; wi_transactionType := kind;
            wi_shares := sh; wi_pricePerShare := price |}
  /\ getInsiderType (toUpperCase title) = getInsiderType title
  /\ getInsiderType (toLowerCase title) = getInsiderType title.
Proof.
  intros _. unfold calculateInsiderWeight, insiderBaseWeight, getInsiderType.
  cbn [wi_insiderTitle wi_transactionType wi_shares wi_pricePerShare].
  rewrite toUpperCase_idempotent, toUpperCase_toLowerCase. repeat split.
Qed.

Lemma title_case_insensitive_witness :
  calculateInsiderWeight
    {| wi_insiderTitle := toUpperCase "Chief Executive Officer";
       wi_transactionType := "BUY";
       wi_shares := ofZ 10000; wi_pricePerShare := ofZ 150 |}
  = calculateInsiderWeight
      {| wi_insiderTitle := "Chief Executive Officer";
         wi_transactionType := "BUY";
         wi_shares := ofZ 10000; wi_pricePerShare := ofZ 150 |}
  /\ calculateInsiderWeight
       {| wi_insiderTitle := toLowerCase "Chief Executive Officer";
          wi_transactionType := "BUY";
          wi_shares := ofZ 10000; wi_pricePerShare := ofZ 150 |}
     = calculateInsiderWeight
         {| wi_insiderTitle := "Chief Executive Officer";
            wi_transactionType := "BUY";
            wi_shares := ofZ 10000; wi_pricePerShare := ofZ 150 |}
  /\ getInsiderType (toUpperCase "Chief Executive Officer")
     = getInsiderType "Chief Executive Officer"
  /\ getInsiderType (toLowerCase "Chief Executive Officer")
     = getInsiderType "Chief Executive Officer".
Proof.
  apply (@title_case_insensitive "Chief Executive Officer" "BUY" (ofZ 10000)
           (ofZ 150)).
  vm_compute. reflexivity.
Defined.

End WeightMore.

(** ** More on the backtesting simulator *)

Module BacktesterMore.
Import Backtester Database DatabaseQueries BacktestReports.
Import NumFacts BacktesterFacts Scenarios.

Lemma firstn_subset {A} n (l : list A) x : In x (firstn n l) -> In x l.
Proof.
  intros H. rewrite <- (firstn_skipn n l). apply in_or_app. now left.
Qed.

(** *** What one entry and one exit check do *)

Section Steps.
Variable feed : string -> Z -> Z -> list HistoricalPrice.
Variable cfg : BacktestConfig.
Variable qs : list ConvergenceSignal.

Lemma enter_spec s sg :
  enter feed cfg 0%nat s sg = s
  \/ exists bar,
       In bar (feed (ticker sg) (getTime (dates s) 0%nat)
                 (endDate cfg + holdingPeriodDays cfg * 24 * 60 * 60 * 1000)%Z)
       /\ (capital s >? ofZ 0)%num = true
       /\ (floor (capital s / ofZ (slots cfg s) / close bar) >? ofZ 0)%num = true
       /\ enter feed cfg 0%nat s sg
          = {| dates := dates s;
               capital :=
                 (capital s
                  - floor (capital s / ofZ (slots cfg s) / close bar) * close bar)%num;
               maxCapital := maxCapital s;
               s_maxDrawdown := s_maxDrawdown s;
               s_maxDrawdownDate := s_maxDrawdownDate s;
               s_trades := s_trades s;
               openPositions :=
                 set (ticker sg)
                   {| signal := sg; entryDate := 0%nat;
                      entryPrice := close bar;
                      shares := floor (capital s / ofZ (slots cfg s) / close bar) |}
                   (openPositions s) |}.
Proof.
  unfold enter, slots.
  destruct (getPriceOnDate _ _) as [bar|] eqn:Ep; [|now left].
  destruct (capital s >? ofZ 0)%num eqn:Ec; [|now left].
  destruct (floor
              (capital s
               / ofZ (maxPositions cfg
                      - Z.of_nat (List.length (openPositions s)))
               / close bar) >? ofZ 0)%num eqn:Es; [|now left].
  right. exists bar. apply getPriceOnDate_In in Ep.
  repeat split; assumption || reflexivity.
Qed.

Lemma checkExit_spec s tk position :
  checkExit feed cfg 0%nat s (tk, position) = s
  \/ exists bar r,
       In bar (feed tk (getTime (dates s) (entryDate position))
                 (getTime (dates s) 0%nat))
       /\ recordedReason cfg (returnAt position bar)
            (daysHeld s 0%nat position) (getTime (dates s) 0%nat) = Some r
       /\ checkExit feed cfg 0%nat s (tk, position)
          = {| dates := dates s;
               capital := (capital s + shares position * close bar)%num;
               maxCapital := maxCapital s;
               s_maxDrawdown := s_maxDrawdown s;
               s_maxDrawdownDate := s_maxDrawdownDate s;
               s_trades :=
                 s_trades s ++
                 [ {| t_ticker := tk;
                      t_entryDate := entryDate position;
                      t_entryPrice := entryPrice position;
                      exitDate := 0%nat;
                      exitPrice := close bar;
                      t_shares := shares position;
                      positionValue :=
                        (shares position * entryPrice position)%num;
                      returnPercent := returnAt position bar;
                      returnDollars :=
                        (shares position
                         * (close bar - entryPrice position))%num;
                      convergenceScoreAtEntry :=
                        convergenceScore (signal position);
                      holdingDays := daysHeld s 0%nat position;
                      exitReason := r |} ];
               openPositions := delete tk (openPositions s) |}.
Proof.
  unfold checkExit.
  destruct (getPriceOnDate _ _) as [bar|] eqn:Ep; [|now left].
  fold (returnAt position bar).
  change ((getTime (dates s) 0%nat - getTime (dates s) (entryDate position))
          / msPerDay)%Z with (daysHeld s 0%nat position).
  rewrite exitDecision_recorded.
  destruct (recordedReason _ _ _ _) as [r|] eqn:Er; [|now left].
  right. exists bar, r. apply getPriceOnDate_In in Ep.
  repeat split; assumption || reflexivity.
Qed.

(** An invariant of the state that every step of a day keeps is kept by the
    day. *)
Variable P : Sim -> Prop.
Hypothesis P_distinct : forall s, P s -> NoDup (map fst (openPositions s)).
Hypothesis P_enter :
  forall s sg, In sg qs -> P s -> slots cfg s <> 0%Z -> P (enter feed cfg 0%nat s sg).
Hypothesis P_exit :
  forall s tk position,
    P s -> In (tk, position) (openPositions s) ->
    P (checkExit feed cfg 0%nat s (tk, position)).
Hypothesis P_track : forall s, P s -> P (trackDrawdown 0%nat s).
Hypothesis P_next : forall s, P s -> P (nextDay 0%nat s).

Lemma openNew_keeps s : P s -> P (openNew feed cfg 0%nat qs s).
Proof.
  intros Hs. unfold openNew.
  set (l := slice0 _ _).
  assert (Hl : (slots cfg s < 0 \/ Z.of_nat (List.length l) <= slots cfg s)%Z).
  { unfold l, slice0, slots.
    destruct (_ <? 0)%Z eqn:E; [left; now apply Z.ltb_lt in E|right].
    apply Z.ltb_ge in E. rewrite length_firstn. lia. }
  assert (Hq : forall sg, In sg l -> In sg qs).
  { intros sg Hsg. unfold l, slice0 in Hsg.
    destruct (_ <? 0)%Z; apply firstn_subset in Hsg;
      unfold daySignals in Hsg; now apply filter_In in Hsg. }
  clearbody l. revert s Hs Hl.
  induction l as [|sg l IH]; intros s Hs Hl; simpl; [exact Hs|].
  apply IH.
  - intros sg' Hsg'. apply Hq. now right.
  - apply P_enter; [apply Hq; now left|exact Hs|].
    simpl List.length in Hl. lia.
  - assert (Hlen : (List.length (openPositions s)
                    <= List.length (openPositions (enter feed cfg 0%nat s sg))
                    <= S (List.length (openPositions s)))%nat).
    { destruct (enter_spec s sg) as [->|(bar & _ & _ & _ & ->)]; [lia|].
      cbn [openPositions]. apply set_length. }
    unfold slots in *. simpl List.length in Hl. lia.
Qed.

Lemma checkExits_keep l s :
  P s -> (forall e, In e l -> In e (openPositions s)) -> NoDup (map fst l) ->
  P (fold_left (checkExit feed cfg 0%nat) l s).
Proof.
  revert s.
  induction l as [|[tk position] l IH]; intros s Hs Hincl Hnd; cbn [fold_left];
    [exact Hs|].
  cbn [map fst] in Hnd. inversion Hnd as [|? ? Hnotin Hnd']; subst.
  apply IH.
  - apply P_exit; [exact Hs|]. apply Hincl. now left.
  - intros e He.
    assert (Hne : fst e <> tk).
    { intros E. apply Hnotin. rewrite <- E. now apply in_map. }
    assert (Hin : In e (openPositions s)) by (apply Hincl; now right).
    destruct (checkExit_spec s tk position) as [E|(bar & r & _ & _ & E)];
      rewrite E; [exact Hin|].
    cbn [openPositions]. now apply delete_keeps.
  - exact Hnd'.
Qed.

Lemma closeDue_keeps s : P s -> P (closeDue feed cfg 0%nat s).
Proof.
  intros Hs. unfold closeDue.
  apply checkExits_keep; [exact Hs|auto|now apply P_distinct].
Qed.

Lemma day_keeps s : P s -> P (day feed cfg 0%nat qs s).
Proof.
  intros Hs. unfold day. now apply P_next, P_track, closeDue_keeps, openNew_keeps.
Qed.

Lemma days_keep s n : P s -> P (Nat.iter n (day feed cfg 0%nat qs) s).
Proof.
  intros Hs. induction n as [|n IH]; [exact Hs|].
  rewrite Nat.iter_succ. now apply day_keeps.
Qed.
End Steps.

Lemma trackDrawdown_keeps s :
  openPositions (trackDrawdown 0%nat s) = openPositions s
  /\ s_trades (trackDrawdown 0%nat s) = s_trades s
  /\ capital (trackDrawdown 0%nat s) = capital s.
Proof.
  unfold trackDrawdown. destruct (_ <? _)%num; simpl; auto.
Qed.



Lemma recordedReason_justified cfg ret now r :
  recordedReason cfg ret 0 now = Some r ->
  match r with
  | stop_loss =>
      exists sl, stopLoss cfg = Some sl /\ truthy sl = true
                 /\ (ret <=? neg sl)%num = true
  | take_profit =>
      exists tp, takeProfit cfg = Some tp /\ truthy tp = true
                 /\ (ret >=? tp)%num = true
  | holding_period => (holdingPeriodDays cfg <= 0)%Z
  | end_of_test => True
  end.
Proof.
  unfold recordedReason, holdingReached, takeProfitHit, stopLossHit.
  destruct (windowEnded cfg now); [now intros [= <-]|].
  destruct (0 >=? holdingPeriodDays cfg)%Z eqn:Eh.
  { intros [= <-]. apply Z.geb_le in Eh. exact Eh. }
  destruct (takeProfit cfg) as [tp|].
  - destruct (truthy tp && (ret >=? tp)%num)%bool eqn:Et.
    + intros [= <-]. apply andb_true_iff in Et. exists tp. tauto.
    + destruct (stopLoss cfg) as [sl|]; [|discriminate].
      destruct (truthy sl && (ret <=? neg sl)%num)%bool eqn:Es; [|discriminate].
      intros [= <-]. apply andb_true_iff in Es. exists sl. tauto.
  - destruct (stopLoss cfg) as [sl|]; [|discriminate].
    destruct (truthy sl && (ret <=? neg sl)%num)%bool eqn:Es; [|discriminate].
    intros [= <-]. apply andb_true_iff in Es. exists sl. tauto.
Qed.

(** Every trade of a run is closed through the date object it was opened
    with, and its reason is backed by the configuration. *)
Lemma trades_sameDay_justified feed signals cfg n :
  Forall (fun t => sameDay t /\ justified cfg t)
    (s_trades (afterDays feed signals cfg n)).
Proof.
  unfold afterDays.
  set (qs := filter _ signals).
  pose (P := fun s : Sim =>
               NoDup (map fst (openPositions s))
               /\ datedByCurrentDate (openPositions s)
               /\ Forall (fun t => sameDay t /\ justified cfg t) (s_trades s)).
  assert (H : P (Nat.iter n (day feed cfg 0%nat qs) (start cfg))).
  { apply days_keep; unfold P.
    - tauto.
    - intros s sg _ (Hnd & Hd & Ht) _.
      destruct (enter_spec feed cfg s sg) as [E|(bar & _ & _ & _ & E)];
        rewrite E; [tauto|]. cbn [openPositions s_trades].
      repeat split; [now apply set_keys_NoDup|now apply set_dated|exact Ht].
    - intros s tk position (Hnd & Hd & Ht) Hin.
      destruct (checkExit_spec feed cfg s tk position)
        as [E|(bar & r & _ & Hr & E)]; rewrite E; [tauto|].
      cbn [openPositions s_trades].
      assert (He : entryDate position = 0%nat).
      { unfold datedByCurrentDate in Hd. rewrite Forall_forall in Hd.
        exact (Hd _ Hin). }
      rewrite (daysHeld_zero s position He) in *.
      repeat split; [now apply delete_keys_NoDup|now apply delete_dated|].
      apply Forall_app. split; [exact Ht|].
      constructor; [|constructor]. split.
      + repeat split; assumption || reflexivity.
      + unfold justified. cbn [exitReason returnPercent].
        now apply recordedReason_justified in Hr.
    - intros s Hs. destruct (trackDrawdown_keeps s) as (-> & -> & _). exact Hs.
    - intros s Hs. exact Hs.
    - repeat split; constructor. }
  exact (proj2 (proj2 H)).
Qed.

(** X10.  The exit reason of every trade of a run is backed by the
    configuration: [stop_loss] only with a configured stop-loss other than 0
    that the return of the trade has reached, [take_profit] only with a
    configured take-profit other than 0 that the return has reached, and
    [holding_period] only when [holdingPeriodDays] is 0 or negative. *)
Theorem exit_reasons_justified feed signals cfg :
  exists h r,
    runBacktest feed signals cfg = Some (h, r)
    /\ Forall (justified cfg) (trades r).
Proof.
  rewrite runBacktest_returns. eexists. eexists. split; [reflexivity|].
  cbn [summarize trades].
  eapply Forall_impl; [|apply trades_sameDay_justified]. now intros t [_ H].
Qed.

Lemma sum_of_zero_days ts acc :
  acc == 0 ->
  Forall (fun t => holdingDays t = 0%Z) ts ->
  exists q,
    fold_left (fun sum t => (sum + ofZ (holdingDays t))%num) ts (Fin acc) = Fin q
    /\ q == 0.
Proof.
  intros Hacc Hts. revert acc Hacc.
  induction Hts as [|t ts Ht Hts IH]; intros acc Hacc; cbn [fold_left].
  - now exists acc.
  - rewrite Ht. change (Fin acc + ofZ 0)%num with (Fin (acc + inject_Z 0)).
    apply IH. rewrite Hacc. reflexivity.
Qed.

(** X11.  [entryDate: currentDate] stores the date object of the loop
    itself: in every trade of a run the entry date and the exit date are one
    object, which reads the same time, the days held are 0, and the
    average holding period of the result is 0. *)
Theorem trades_closed_on_entry_date feed signals cfg :
  exists h r,
    runBacktest feed signals cfg = Some (h, r)
    /\ Forall (fun t => t_entryDate t = exitDate t
                        /\ getTime h (t_entryDate t) = getTime h (exitDate t)
                        /\ holdingDays t = 0%Z) (trades r)
    /\ exists q, avgHoldingPeriod r = Fin q /\ q == 0.
Proof.
  rewrite runBacktest_returns. eexists. eexists. split; [reflexivity|].
  pose proof (trades_sameDay_justified feed signals cfg (daysToRun cfg)) as H.
  cbn [summarize trades avgHoldingPeriod].
  set (ts := s_trades _) in *.
  assert (Hs : Forall sameDay ts).
  { eapply Forall_impl; [|exact H]. now intros t [Ht _]. }
  split.
  - eapply Forall_impl; [|exact Hs]. intros t (E1 & E2 & E3).
    rewrite E1, E2. auto.
  - destruct (Nat.ltb 0 (List.length ts)) eqn:En; [|now exists 0].
    apply Nat.ltb_lt in En.
    destruct (@sum_of_zero_days ts 0 ltac:(reflexivity)) as (q & Eq & Hq).
    { eapply Forall_impl; [|exact Hs]. now intros t (_ & _ & E). }
    unfold sumBy. change (ofZ 0) with (Fin 0) at 1. rewrite Eq.
    unfold ofNat, ofZ, div.
    rewrite Qeq_bool_nonzero.
    + eexists. split; [reflexivity|]. rewrite Hq. field.
      change 0 with (inject_Z 0). rewrite inject_Z_injective. lia.
    + change 0 with (inject_Z 0). rewrite inject_Z_injective. lia.
Qed.

(** *** The drawdown *)

Lemma ltb_leb_zero x y :
  (x <? y)%num = true -> (y <=? ofZ 0)%num = true -> (x <? ofZ 0)%num = true.
Proof.
  destruct x as [a| | |], y as [b| | |]; try discriminate; try reflexivity.
  intros H1 H2. apply ltb_Fin in H1. apply leb_Fin in H2. apply ltb_Fin. lra.
Qed.

Lemma ltb_leb x y : (x <? y)%num = true -> (x <=? y)%num = true.
Proof.
  unfold ltb, leb. destruct (cmp x y) as [[| |]|]; try discriminate; reflexivity.
Qed.

Lemma drawdown_tracked feed signals cfg n :
  let s := afterDays feed signals cfg n in
  match s_maxDrawdownDate s with
  | None => s_maxDrawdown s = ofZ 0
  | Some l => (s_maxDrawdown s <? ofZ 0)%num = true /\ l <> 0%nat
  end
  /\ dates s <> [].
Proof.
  unfold afterDays. induction n as [|n IH]; [now split|].
  rewrite Nat.iter_succ. set (s := Nat.iter n _ _) in *.
  unfold day. set (s1 := closeDue _ _ _ _).
  assert (E1 : s_maxDrawdown s1 = s_maxDrawdown s
               /\ s_maxDrawdownDate s1 = s_maxDrawdownDate s
               /\ dates s1 = dates s).
  { unfold s1, closeDue, openNew.
    apply (fold_left_invariant
             (fun s' => s_maxDrawdown s' = s_maxDrawdown s
                        /\ s_maxDrawdownDate s' = s_maxDrawdownDate s
                        /\ dates s' = dates s)).
    - intros a [tk position] Ha. unfold checkExit.
      destruct (getPriceOnDate _ _); [|exact Ha].
      destruct (exitDecision _ _ _ _) as [[|] r]; exact Ha.
    - apply (fold_left_invariant
               (fun s' => s_maxDrawdown s' = s_maxDrawdown s
                          /\ s_maxDrawdownDate s' = s_maxDrawdownDate s
                          /\ dates s' = dates s)); [|auto].
      intros a sg Ha. unfold enter.
      destruct (getPriceOnDate _ _); [|exact Ha].
      destruct (_ >? _)%num; [|exact Ha].
      destruct (_ >? _)%num; exact Ha. }
  destruct E1 as (Ed & El & Eh). destruct IH as [IH Hne].
  unfold nextDay, trackDrawdown.
  destruct (_ <? s_maxDrawdown s1)%num eqn:E;
    cbn [newDate dates s_maxDrawdown s_maxDrawdownDate fst snd].
  - split.
    + split.
      * apply ltb_leb_zero with (s_maxDrawdown s1); [exact E|].
        rewrite Ed. destruct (s_maxDrawdownDate s) as [l|].
        -- now apply ltb_leb.
        -- now rewrite IH.
      * rewrite Eh. destruct (dates s); [easy|simpl; lia].
    + rewrite Eh. destruct (dates s); [easy|discriminate].
  - rewrite Ed, El, Eh. split; [exact IH|].
    destruct (dates s); [easy|discriminate].
Qed.

(** X12.  The maximum drawdown of a result is never positive.  The
    drawdown date is missing exactly when the drawdown is 0; when present it
    is a [Date] object of its own, not the one the loop advances. *)
Theorem drawdown_never_positive feed signals cfg :
  exists h r,
    runBacktest feed signals cfg = Some (h, r)
    /\ (maxDrawdown r <=? ofZ 0)%num = true
    /\ match maxDrawdownDate r with
       | None => maxDrawdown r = ofZ 0
       | Some l => (maxDrawdown r <? ofZ 0)%num = true /\ l <> 0%nat
       end.
Proof.
  rewrite runBacktest_returns. eexists. eexists. split; [reflexivity|].
  cbn [summarize maxDrawdown maxDrawdownDate].
  destruct (drawdown_tracked feed signals cfg (daysToRun cfg)) as [H _].
  split; [|exact H].
  destruct (s_maxDrawdownDate _) as [l|].
  - now apply ltb_leb.
  - now rewrite H.
Qed.

(** *** The number of open positions *)

(** X13.  With [maxPositions] not negative, at the end of every day of a
    run the open positions are of pairwise different tickers and at most
    [maxPositions]. *)
Theorem open_positions_bounded feed signals cfg n :
  (0 <= maxPositions cfg)%Z ->
  NoDup (map fst (openPositions (afterDays feed signals cfg n)))
  /\ (Z.of_nat (List.length (openPositions (afterDays feed signals cfg n)))
      <= maxPositions cfg)%Z.
Proof.
  intros Hmax. unfold afterDays.
  apply (@days_keep feed cfg _
           (fun s => NoDup (map fst (openPositions s))
                     /\ (Z.of_nat (List.length (openPositions s))
                         <= maxPositions cfg)%Z)).
  - tauto.
  - intros s sg _ [Hnd Hlen] Hslots. unfold slots in Hslots.
    destruct (enter_spec feed cfg s sg) as [E|(bar & _ & _ & _ & E)];
      rewrite E; [tauto|]. cbn [openPositions].
    split; [now apply set_keys_NoDup|].
    pose proof (set_length (ticker sg)
                  {| signal := sg; entryDate := 0%nat; entryPrice := close bar;
                     shares := floor (capital s / ofZ (slots cfg s) / close bar) |}
                  (openPositions s)).
    lia.
  - intros s tk position [Hnd Hlen] Hin.
    destruct (checkExit_spec feed cfg s tk position)
      as [E|(bar & r & _ & _ & E)]; rewrite E; [tauto|].
    cbn [openPositions]. split; [now apply delete_keys_NoDup|].
    unfold delete. pose proof (filter_length_le
      (fun e : string * Position => negb (String.eqb (fst e) tk)) (openPositions s)).
    lia.
  - intros s Hs. destruct (trackDrawdown_keeps s) as (-> & _ & _). exact Hs.
  - intros s Hs. exact Hs.
  - split; [constructor|simpl; lia].
Qed.

Lemma open_positions_bounded_witness :
  NoDup (map fst (openPositions (afterDays rising [nvda] baseConfig 1)))
  /\ (Z.of_nat (List.length (openPositions (afterDays rising [nvda] baseConfig 1)))
      <= maxPositions baseConfig)%Z.
Proof.
  apply (@open_positions_bounded rising [nvda] baseConfig 1). cbv. discriminate.
Defined.

(** *** Where the trades come from *)

Lemma set_Forall (Q : string * Position -> Prop) k v m :
  Q (k, v) -> Forall Q m -> (forall k' v', Q (k', v') -> k' = k -> Q (k', v)) ->
  Forall Q (set k v m).
Proof.
  intros Hv Hm Hk. induction Hm as [|[k0 v0] m He Hm IH]; simpl.
  - constructor; [exact Hv|constructor].
  - destruct (String.eqb k0 k) eqn:E; constructor; auto.
    apply String.eqb_eq in E. subst k0. exact Hv.
Qed.

Lemma delete_Forall (Q : string * Position -> Prop) k m :
  Forall Q m -> Forall Q (delete k m).
Proof.
  intros Hm. induction Hm as [|[k0 v0] m He Hm IH]; simpl; [constructor|].
  destruct (negb (String.eqb k0 k)); [constructor|]; auto.
Qed.

(** X14.  Every trade of a run goes back to a signal of the input whose
    score reaches [minConvergenceScore]: the trade has the ticker of that
    signal and records its score as the score at entry. *)
Theorem trades_from_qualifying_signals feed signals cfg :
  exists h r,
    runBacktest feed signals cfg = Some (h, r)
    /\ Forall (fun t =>
                 exists sg,
                   In sg signals
                   /\ (convergenceScore sg >=? minConvergenceScore cfg)%num = true
                   /\ t_ticker t = ticker sg
                   /\ convergenceScoreAtEntry t = convergenceScore sg)
         (trades r).
Proof.
  rewrite runBacktest_returns. eexists. eexists. split; [reflexivity|].
  cbn [summarize trades]. unfold afterDays.
  set (qs := filter _ signals).
  set (from := fun (k : string) (score : num) =>
                 exists sg, In sg signals
                   /\ (convergenceScore sg >=? minConvergenceScore cfg)%num = true
                   /\ k = ticker sg /\ score = convergenceScore sg).
  change (Forall (fun t => from (t_ticker t) (convergenceScoreAtEntry t))
            (s_trades (Nat.iter (daysToRun cfg) (day feed cfg 0%nat qs) (start cfg)))).
  pose (P := fun s : Sim =>
               NoDup (map fst (openPositions s))
               /\ Forall (fun e => from (fst e) (convergenceScore (signal (snd e))))
                    (openPositions s)
               /\ Forall (fun t => from (t_ticker t) (convergenceScoreAtEntry t))
                    (s_trades s)).
  assert (H : P (Nat.iter (daysToRun cfg) (day feed cfg 0%nat qs) (start cfg))).
  { apply days_keep; unfold P.
    - tauto.
    - intros s sg Hsg (Hnd & Hp & Ht) _.
      destruct (enter_spec feed cfg s sg) as [E|(bar & _ & _ & _ & E)];
        rewrite E; [tauto|]. cbn [openPositions s_trades].
      repeat split; [now apply set_keys_NoDup| |exact Ht].
      assert (Hfrom : from (ticker sg) (convergenceScore sg)).
      { apply filter_In in Hsg. exists sg. tauto. }
      apply set_Forall; [exact Hfrom|exact Hp|].
      intros k' v' _ ->. exact Hfrom.
    - intros s tk position (Hnd & Hp & Ht) Hin.
      destruct (checkExit_spec feed cfg s tk position)
        as [E|(bar & r & _ & _ & E)]; rewrite E; [tauto|].
      cbn [openPositions s_trades].
      repeat split; [now apply delete_keys_NoDup|now apply delete_Forall|].
      apply Forall_app. split; [exact Ht|].
      constructor; [|constructor]. cbn [t_ticker convergenceScoreAtEntry].
      rewrite Forall_forall in Hp. exact (Hp _ Hin).
    - intros s Hs. destruct (trackDrawdown_keeps s) as (-> & -> & _). exact Hs.
    - intros s Hs. exact Hs.
    - repeat split; constructor. }
  exact (proj2 (proj2 H)).
Qed.

(** *** The summary *)

Lemma gtb_leb_zero q : (Fin q >? ofZ 0)%num = negb (Fin q <=? ofZ 0)%num.
Proof.
  unfold gtb, ltb, leb, ofZ, cmp. rewrite <- (Qcompare_antisym q (inject_Z 0)).
  now destruct (q ?= inject_Z 0).
Qed.

Lemma returns_split ts :
  (List.length (filter (fun t => (returnPercent t >? ofZ 0)%num) ts)
   + List.length (filter (fun t => (returnPercent t <=? ofZ 0)%num) ts)
   + List.length
       (filter (fun t => match returnPercent t with NaN => true | _ => false end)
          ts)
   = List.length ts)%nat.
Proof.
  induction ts as [|t ts IH]; [reflexivity|]. cbn [filter].
  destruct (returnPercent t) as [q| | |]; try (simpl; lia).
  rewrite gtb_leb_zero. destruct (Fin q <=? ofZ 0)%num; simpl; lia.
Qed.

Lemma ratio_in_unit w n :
  (w <= n)%nat -> (0 < n)%nat ->
  (ofZ 0 <=? ofNat w / ofNat n)%num = true
  /\ (ofNat w / ofNat n <=? ofZ 1)%num = true.
Proof.
  intros Hw Hn. unfold ofNat, ofZ, div.
  assert (Hn' : 0 < inject_Z (Z.of_nat n)).
  { change 0 with (inject_Z 0). rewrite <- Zlt_Qlt. lia. }
  assert (Hw' : 0 <= inject_Z (Z.of_nat w)).
  { change 0 with (inject_Z 0). rewrite <- Zle_Qle. lia. }
  assert (Hwn : inject_Z (Z.of_nat w) <= inject_Z (Z.of_nat n)).
  { rewrite <- Zle_Qle. lia. }
  rewrite Qeq_bool_nonzero by lra.
  set (W := inject_Z (Z.of_nat w)) in *. set (N := inject_Z (Z.of_nat n)) in *.
  assert (E : W / N * N == W) by (field; lra).
  split; apply leb_Fin; change (inject_Z 0) with 0; change (inject_Z 1) with 1.
  - destruct (Qlt_le_dec (W / N) 0) as [Hneg|]; [nra|assumption].
  - destruct (Qlt_le_dec 1 (W / N)) as [Hbig|]; [nra|assumption].
Qed.

(** X16.  In the result of a run every trade is counted once: as a win
    when its return is above 0, as a loss when it is 0 or below, and as
    neither when its return is NaN.  The win rate lies between 0 and 1. *)
Theorem summary_counts feed signals cfg :
  exists h r,
    runBacktest feed signals cfg = Some (h, r)
    /\ totalTrades r = List.length (trades r)
    /\ (winningTrades r + losingTrades r
        + List.length
            (filter
               (fun t => match returnPercent t with NaN => true | _ => false end)
               (trades r))
        = totalTrades r)%nat
    /\ (ofZ 0 <=? winRate r)%num = true
    /\ (winRate r <=? ofZ 1)%num = true.
Proof.
  rewrite runBacktest_returns. eexists. eexists. split; [reflexivity|].
  cbn [summarize trades totalTrades winningTrades losingTrades winRate].
  set (ts := s_trades _).
  split; [reflexivity|]. split; [apply returns_split|].
  destruct (Nat.ltb 0 (List.length ts)) eqn:En; [|split; reflexivity].
  apply Nat.ltb_lt in En. apply ratio_in_unit; [|exact En].
  apply filter_length_le.
Qed.

(** *** getPriceOnDate *)

Lemma last_Some_split {A} (l : list A) :
  match last (map Some l) None with
  | None => l = []
  | Some x => exists before, l = before ++ [x]
  end.
Proof.
  induction l as [|y l IH]; [reflexivity|].
  destruct l as [|z l]; [now exists []|].
  change (last (map Some (y :: z :: l)) None) with (last (map Some (z :: l)) None).
  destruct (last (map Some (z :: l)) None) as [x|]; [|discriminate].
  destruct IH as [before E]. exists (y :: before). now rewrite E.
Qed.

(** X17.  [getPriceOnDate] answers nothing only for an empty list of bars.
    Otherwise it answers the first bar dated at or after the target, and
    when every bar is dated before the target, the last bar of the list. *)
Theorem getPriceOnDate_first_or_last prices target :
  match getPriceOnDate prices target with
  | None => prices = []
  | Some p =>
      exists before after,
        prices = before ++ p :: after
        /\ Forall (fun q => (p_date q < target)%Z) before
        /\ ((target <= p_date p)%Z
            \/ (after = [] /\ (p_date p < target)%Z))
  end.
Proof.
  unfold getPriceOnDate.
  destruct (find _ prices) as [p|] eqn:E.
  - induction prices as [|q prices IH]; [discriminate|].
    cbn [find] in E. destruct (p_date q >=? target)%Z eqn:Eq.
    + inversion E; subst. exists [], prices. repeat split; [constructor|].
      left. now apply Z.geb_le in Eq.
    + destruct (IH E) as (before & after & -> & Hb & Hp).
      exists (q :: before), after. repeat split; [|exact Hp].
      constructor; [|exact Hb]. rewrite Z.geb_leb in Eq.
      apply Z.leb_gt in Eq. lia.
  - assert (Hall : Forall (fun q => (p_date q < target)%Z) prices).
    { apply Forall_forall. intros q Hq.
      pose proof (find_none _ _ E _ Hq) as Hn. cbn beta in Hn.
      rewrite Z.geb_leb in Hn. apply Z.leb_gt in Hn. lia. }
    pose proof (last_Some_split prices) as Hl.
    destruct (last (map Some prices) None) as [p|]; [|exact Hl].
    destruct Hl as [before ->]. exists before, [].
    apply Forall_app in Hall. destruct Hall as [Hb Hp].
    repeat split; [exact Hb|]. right. split; [reflexivity|].
    now inversion Hp.
Qed.

(** *** The best and the worst trade *)

Lemma or_finiteNonzero x y : finiteNonzero x -> or x y = x.
Proof.
  intros (q & -> & Hq). unfold or, truthy. now rewrite Qeq_bool_nonzero.
Qed.

Lemma leb_refl_fin x : finiteNonzero x -> (x <=? x)%num = true.
Proof.
  intros (q & -> & _). apply leb_Fin. apply Qle_refl.
Qed.

Lemma gtb_false_leb x y :
  finiteNonzero x -> finiteNonzero y ->
  (x >? y)%num = false -> (x <=? y)%num = true.
Proof.
  intros (a & -> & _) (b & -> & _) H. apply leb_Fin.
  destruct (Qlt_le_dec b a) as [Hlt|Hle]; [|exact Hle].
  apply gtb_Fin in Hlt. congruence.
Qed.

Lemma gtb_true_leb x y : (x >? y)%num = true -> (y <=? x)%num = true.
Proof.
  unfold gtb. apply ltb_leb.
Qed.

Lemma pickBest_fold ts :
  forall best,
    Forall (fun t => finiteNonzero (returnPercent t)) ts ->
    match best with
    | None => True
    | Some b => finiteNonzero (returnPercent b)
    end ->
    match fold_left pickBest ts best with
    | None => best = None /\ ts = []
    | Some b =>
        (In b ts \/ best = Some b)
        /\ finiteNonzero (returnPercent b)
        /\ Forall (fun t => (returnPercent t <=? returnPercent b)%num = true) ts
        /\ (forall b0, best = Some b0 ->
                       (returnPercent b0 <=? returnPercent b)%num = true)
    end.
Proof.
  induction ts as [|t ts IH]; intros best Hts Hbest; cbn [fold_left].
  - destruct best as [b|]; [|now split].
    repeat split; [now right|exact Hbest|constructor|].
    intros b0 [= <-]. now apply leb_refl_fin.
  - inversion Hts as [|? ? Ht Hts']; subst.
    assert (Hstep : exists b',
               pickBest best t = Some b'
               /\ (b' = t \/ best = Some b')
               /\ finiteNonzero (returnPercent b')
               /\ (returnPercent t <=? returnPercent b')%num = true
               /\ (forall b0, best = Some b0 ->
                              (returnPercent b0 <=? returnPercent b')%num = true)).
    { unfold pickBest. destruct best as [b0|].
      - rewrite or_finiteNonzero by exact Hbest.
        destruct (returnPercent t >? returnPercent b0)%num eqn:E.
        + exists t. repeat split; [now left|exact Ht|now apply leb_refl_fin|].
          intros b1 [= <-]. now apply gtb_true_leb.
        + exists b0. repeat split; [now right|exact Hbest| |].
          * now apply gtb_false_leb.
          * intros b1 [= <-]. now apply leb_refl_fin.
      - destruct Ht as (q & Eq & Hq). rewrite Eq. cbn.
        exists t. rewrite Eq. repeat split; [now left|now exists q| |easy].
        apply leb_Fin, Qle_refl. }
    destruct Hstep as (b' & E & Hb' & Hfin & Hle & Hold). rewrite E.
    specialize (IH (Some b') Hts' Hfin).
    destruct (fold_left pickBest ts (Some b')) as [b|]; [|now destruct IH].
    destruct IH as (Hin & Hb & Hall & Hup).
    specialize (Hup b' eq_refl).
    repeat split.
    + destruct Hin as [Hin|[= <-]]; [left; now right|].
      destruct Hb' as [->|Hb']; [left; now left|now right].
    + exact Hb.
    + constructor; [now apply leb_trans with (returnPercent b')|exact Hall].
    + intros b0 Hb0. apply leb_trans with (returnPercent b'); auto.
Qed.

Lemma ltb_false_leb x y :
  finiteNonzero x -> finiteNonzero y ->
  (x <? y)%num = false -> (y <=? x)%num = true.
Proof.
  intros Hx Hy H. now apply gtb_false_leb.
Qed.

Lemma pickWorst_fold ts :
  forall worst,
    Forall (fun t => finiteNonzero (returnPercent t)) ts ->
    match worst with
    | None => True
    | Some b => finiteNonzero (returnPercent b)
    end ->
    match fold_left pickWorst ts worst with
    | None => worst = None /\ ts = []
    | Some b =>
        (In b ts \/ worst = Some b)
        /\ finiteNonzero (returnPercent b)
        /\ Forall (fun t => (returnPercent b <=? returnPercent t)%num = true) ts
        /\ (forall b0, worst = Some b0 ->
                       (returnPercent b <=? returnPercent b0)%num = true)
    end.
Proof.
  induction ts as [|t ts IH]; intros worst Hts Hworst; cbn [fold_left].
  - destruct worst as [b|]; [|now split].
    repeat split; [now right|exact Hworst|constructor|].
    intros b0 [= <-]. now apply leb_refl_fin.
  - inversion Hts as [|? ? Ht Hts']; subst.
    assert (Hstep : exists b',
               pickWorst worst t = Some b'
               /\ (b' = t \/ worst = Some b')
               /\ finiteNonzero (returnPercent b')
               /\ (returnPercent b' <=? returnPercent t)%num = true
               /\ (forall b0, worst = Some b0 ->
                              (returnPercent b' <=? returnPercent b0)%num = true)).
    { unfold pickWorst. destruct worst as [b0|].
      - rewrite or_finiteNonzero by exact Hworst.
        destruct (returnPercent t <? returnPercent b0)%num eqn:E.
        + exists t. repeat split; [now left|exact Ht|now apply leb_refl_fin|].
          intros b1 [= <-]. now apply ltb_leb.
        + exists b0. repeat split; [now right|exact Hworst| |].
          * now apply ltb_false_leb.
          * intros b1 [= <-]. now apply leb_refl_fin.
      - destruct Ht as (q & Eq & Hq). rewrite Eq. cbn.
        exists t. rewrite Eq. repeat split; [now left|now exists q| |easy].
        apply leb_Fin, Qle_refl. }
    destruct Hstep as (b' & E & Hb' & Hfin & Hle & Hold). rewrite E.
    specialize (IH (Some b') Hts' Hfin).
    destruct (fold_left pickWorst ts (Some b')) as [b|]; [|now destruct IH].
    destruct IH as (Hin & Hb & Hall & Hup).
    specialize (Hup b' eq_refl).
    repeat split.
    + destruct Hin as [Hin|[= <-]]; [left; now right|].
      destruct Hb' as [->|Hb']; [left; now left|now right].
    + exact Hb.
    + constructor; [now apply leb_trans with (returnPercent b')|exact Hall].
    + intros b0 Hb0. apply leb_trans with (returnPercent b'); auto.
Qed.

(** X18.  When the return of every trade of a result is finite and other
    than 0, the best trade of the result is a trade of the list that no
    trade exceeds, and the worst trade one that no trade falls below.  (A
    running best or worst with a return of exactly 0 is replaced by whatever
    trade comes next.) *)
Theorem best_and_worst_trade feed signals cfg h r :
  runBacktest feed signals cfg = Some (h, r) ->
  Forall (fun t => finiteNonzero (returnPercent t)) (trades r) ->
  trades r <> [] ->
  exists b w,
    bestTrade r = Some b /\ worstTrade r = Some w
    /\ In b (trades r) /\ In w (trades r)
    /\ Forall (fun t => (returnPercent w <=? returnPercent t)%num = true
                        /\ (returnPercent t <=? returnPercent b)%num = true)
         (trades r).
Proof.
  rewrite runBacktest_returns. intros [= <- <-].
  cbn [summarize trades bestTrade worstTrade].
  set (ts := s_trades _). intros Hfin Hne.
  pose proof (@pickBest_fold ts None Hfin I) as Hb.
  pose proof (@pickWorst_fold ts None Hfin I) as Hw.
  destruct (fold_left pickBest ts None) as [b|]; [|now destruct Hb].
  destruct (fold_left pickWorst ts None) as [w|]; [|now destruct Hw].
  destruct Hb as ([Hb|Hb] & _ & Hball & _); [|discriminate].
  destruct Hw as ([Hw|Hw] & _ & Hwall & _); [|discriminate].
  exists b, w. repeat split; try assumption.
  rewrite Forall_forall in *. intros t Ht. split; auto.
Qed.

Lemma best_and_worst_trade_witness :
  map (fun t => (t_ticker t, exitReason t))
    (trades (summarize threeDays (afterDays twoStocks [nvda; amd] threeDays 3)))
  = [("NVDA"%string, take_profit); ("AMD"%string, stop_loss)]
  /\ exists b w,
       bestTrade (summarize threeDays (afterDays twoStocks [nvda; amd] threeDays 3))
       = Some b
       /\ worstTrade
            (summarize threeDays (afterDays twoStocks [nvda; amd] threeDays 3))
          = Some w
       /\ In b (trades
                  (summarize threeDays
                     (afterDays twoStocks [nvda; amd] threeDays 3)))
       /\ In w (trades
                  (summarize threeDays
                     (afterDays twoStocks [nvda; amd] threeDays 3)))
       /\ Forall (fun t => (returnPercent w <=? returnPercent t)%num = true
                           /\ (returnPercent t <=? returnPercent b)%num = true)
            (trades
               (summarize threeDays
                  (afterDays twoStocks [nvda; amd] threeDays 3))).
Proof.
  split; [vm_compute; reflexivity|].
  apply (@best_and_worst_trade twoStocks [nvda; amd] threeDays
           (dates (afterDays twoStocks [nvda; amd] threeDays 3))
           (summarize threeDays (afterDays twoStocks [nvda; amd] threeDays 3))).
  - vm_compute. reflexivity.
  - vm_compute. constructor; [|constructor; [|constructor]];
      (eexists; split; [reflexivity|]; vm_compute; discriminate).
  - vm_compute. discriminate.
Defined.

(** *** Runs in which nothing happens *)

Section Unmatched.
Variable feed : string -> Z -> Z -> list HistoricalPrice.
Variable cfg : BacktestConfig.
Variable qs : list ConvergenceSignal.

Lemma day_idle_unmatched s :
  (forall sg, In sg qs ->
     dayOf (date sg) <> dayOf (getTime (dates s) 0%nat)) ->
  idle cfg s -> idle cfg (day feed cfg 0%nat qs s).
Proof.
  intros Hno (Ho & Ht & Hc).
  assert (E0 : daySignals 0%nat qs s = []).
  { unfold daySignals.
    induction qs as [|sg l IH]; [reflexivity|]. cbn [filter].
    replace (dayOf (date sg) =? dayOf (getTime (dates s) 0%nat))%Z with false.
    - apply IH. intros sg' Hsg'. apply Hno. now right.
    - symmetry. apply Z.eqb_neq. apply Hno. now left. }
  assert (E1 : openNew feed cfg 0%nat qs s = s).
  { unfold openNew. rewrite E0. unfold slice0.
    destruct (_ <? 0)%Z; now rewrite firstn_nil. }
  assert (E2 : closeDue feed cfg 0%nat s = s).
  { unfold closeDue. now rewrite Ho. }
  unfold day. rewrite E1, E2. unfold idle, nextDay, trackDrawdown. simpl.
  destruct (_ <? _)%num; simpl; auto.
Qed.

Lemma days_idle_unmatched n :
  (forall sg, In sg qs ->
     (dayOf (date sg) < dayOf (startDate cfg)
      \/ dayOf (endDate cfg) < dayOf (date sg))%Z) ->
  (n <= daysToRun cfg)%nat ->
  let s := Nat.iter n (day feed cfg 0%nat qs) (start cfg) in
  idle cfg s /\ dates s <> []
  /\ getTime (dates s) 0%nat = (startDate cfg + Z.of_nat n * msPerDay)%Z.
Proof.
  intros Hout. induction n as [|n IH]; intros Hn.
  - cbn. repeat split; [discriminate|lia].
  - rewrite Nat.iter_succ. destruct IH as (Hidle & Hne & Hclock); [lia|].
    cbv zeta. set (s := Nat.iter n _ _) in *.
    destruct (@day_clock feed cfg qs s Hne) as [Hne' Hclock'].
    split; [|split; [exact Hne'|rewrite Hclock', Hclock; lia]].
    apply day_idle_unmatched; [|exact Hidle].
    intros sg Hsg. rewrite Hclock.
    assert (Hd : (0 < msPerDay)%Z) by reflexivity.
    assert (Hlo : (dayOf (startDate cfg)
                   <= dayOf (startDate cfg + Z.of_nat n * msPerDay))%Z).
    { unfold dayOf. apply Z.div_le_mono; lia. }
    assert (Hhi : (dayOf (startDate cfg + Z.of_nat n * msPerDay)
                   <= dayOf (endDate cfg))%Z).
    { unfold dayOf. apply Z.div_le_mono; [lia|].
      unfold daysToRun in Hn.
      pose proof (Z.mul_div_le (endDate cfg - startDate cfg) msPerDay Hd).
      assert (Hk : (Z.of_nat n <= (endDate cfg - startDate cfg) / msPerDay)%Z)
        by lia.
      assert (Z.of_nat n * msPerDay
              <= (endDate cfg - startDate cfg) / msPerDay * msPerDay)%Z
        by (apply Z.mul_le_mono_nonneg_r; lia).
      lia. }
    destruct (Hout sg Hsg); lia.
Qed.
End Unmatched.

Lemma summarize_idle cfg s :
  idle cfg s ->
  trades (summarize cfg s) = []
  /\ totalTrades (summarize cfg s) = 0%nat
  /\ finalCapital (summarize cfg s) = initialCapital cfg
  /\ winRate (summarize cfg s) = ofZ 0
  /\ bestTrade (summarize cfg s) = None.
Proof.
  intros (_ & Ht & Hc). unfold summarize. simpl. rewrite Ht, Hc. repeat split.
Qed.

Lemma run_without_match feed signals cfg :
  (forall sg, In sg signals ->
     (convergenceScore sg >=? minConvergenceScore cfg)%num = true ->
     (dayOf (date sg) < dayOf (startDate cfg)
      \/ dayOf (endDate cfg) < dayOf (date sg))%Z) ->
  idle cfg (afterDays feed signals cfg (daysToRun cfg)).
Proof.
  intros Hout. unfold afterDays.
  apply (@days_idle_unmatched feed cfg _ (daysToRun cfg)); [|lia].
  intros sg Hsg. apply filter_In in Hsg. destruct Hsg as [Hin Hq]. auto.
Qed.

Lemma far_from_window a lo hi :
  (a + 2 * msPerDay < lo \/ hi + 2 * msPerDay < a)%Z ->
  (dayOf a < dayOf lo \/ dayOf hi < dayOf a)%Z.
Proof.
  assert (Hd : (0 < msPerDay)%Z) by reflexivity.
  unfold dayOf. intros [H|H]; [left|right].
  - assert ((a + 2 * msPerDay) / msPerDay <= lo / msPerDay)%Z
      by (apply Z.div_le_mono; lia).
    rewrite Z.div_add in H0 by lia. lia.
  - assert ((hi + 2 * msPerDay) / msPerDay <= a / msPerDay)%Z
      by (apply Z.div_le_mono; lia).
    rewrite Z.div_add in H0 by lia. lia.
Qed.

(** X19.  Signals act only around their own date: when every signal that
    reaches [minConvergenceScore] is dated more than two days before the
    start date or more than two days after the end date, so that it falls
    on no calendar day of the window in any time zone, the run makes no
    trade and ends with the starting capital, whatever the prices are. *)
Theorem no_signal_in_window feed signals cfg :
  (forall sg, In sg signals ->
     (convergenceScore sg >=? minConvergenceScore cfg)%num = true ->
     (date sg + 2 * msPerDay < startDate cfg
      \/ endDate cfg + 2 * msPerDay < date sg)%Z) ->
  exists h r,
    runBacktest feed signals cfg = Some (h, r)
    /\ trades r = [] /\ totalTrades r = 0%nat
    /\ finalCapital r = initialCapital cfg
    /\ winRate r = ofZ 0 /\ bestTrade r = None.
Proof.
  intros Hout. rewrite runBacktest_returns. eexists. eexists.
  split; [reflexivity|]. apply summarize_idle, run_without_match.
  intros sg Hsg Hq. now apply far_from_window, Hout.
Qed.

Lemma no_signal_in_window_witness :
  exists h r,
    runBacktest rising [nvda] (withWindow (3 * msPerDay) (5 * msPerDay) baseConfig)
    = Some (h, r)
    /\ trades r = [] /\ totalTrades r = 0%nat
    /\ finalCapital r
       = initialCapital (withWindow (3 * msPerDay) (5 * msPerDay) baseConfig)
    /\ winRate r = ofZ 0 /\ bestTrade r = None.
Proof.
  apply (@no_signal_in_window rising [nvda]
           (withWindow (3 * msPerDay) (5 * msPerDay) baseConfig)).
  intros sg [<-|[]] _. left. vm_compute. reflexivity.
Defined.

(** X20.  [runBacktest] fetches its signals relative to the clock: the
    stored signals dated at or after the cutoff, which lies
    [ceil((end - start) / day)] calendar days before now, wherever the
    window lies.  So without a database, and with an initialized database
    when the window ended more than three days before that many times 24
    hours before now, the run makes no trade and ends with the starting
    capital. *)
Theorem stale_window_finds_nothing now db feed cfg :
  match db with
  | None => True
  | Some d =>
      data d <> None
      /\ (endDate cfg + 3 * msPerDay
          < cutoff now (daysDiff (startDate cfg) (endDate cfg)))%Z
  end ->
  exists h r,
    runBacktestFromStore now db feed cfg = Ok (h, r)
    /\ trades r = [] /\ totalTrades r = 0%nat
    /\ finalCapital r = initialCapital cfg.
Proof.
  intros Hdb. unfold runBacktestFromStore, generateSignalsForPeriod.
  assert (Hgo : forall signals,
             (forall sg, In sg signals ->
                (endDate cfg + 2 * msPerDay < date sg)%Z) ->
             exists h r,
               match runBacktest feed signals cfg with
               | Some r0 => Ok r0
               | None => Throw "the loop did not end"
               end = Ok (h, r)
               /\ trades r = [] /\ totalTrades r = 0%nat
               /\ finalCapital r = initialCapital cfg).
  { intros signals Hs. rewrite runBacktest_returns. eexists. eexists.
    split; [reflexivity|].
    assert (Hidle : idle cfg (afterDays feed signals cfg (daysToRun cfg))).
    { apply run_without_match. intros sg Hsg _.
      apply far_from_window. right. now apply Hs. }
    apply summarize_idle in Hidle. tauto. }
  destruct db as [d|]; [|apply Hgo; now intros sg []].
  destruct Hdb as [Hdata Hstale]. unfold getConvergenceSignals.
  destruct (data d) as [dt|]; [|easy].
  apply Hgo. intros sg Hsg. apply filter_In in Hsg. destruct Hsg as [_ Hsg].
  apply Z.geb_le in Hsg. assert (0 < msPerDay)%Z by reflexivity. lia.
Qed.

Lemma stale_window_finds_nothing_witness :
  exists h r,
    runBacktestFromStore (10 * msPerDay) (Some (storeWithSignal nvda)) rising
      baseConfig = Ok (h, r)
    /\ trades r = [] /\ totalTrades r = 0%nat
    /\ finalCapital r = initialCapital baseConfig.
Proof.
  apply (@stale_window_finds_nothing (10 * msPerDay)
           (Some (storeWithSignal nvda)) rising baseConfig).
  split; [discriminate|]. vm_compute. reflexivity.
Defined.

End BacktesterMore.

(** ** Several periods and aggregate statistics *)

Module ReportsMore.
Import Backtester Database DatabaseQueries BacktestReports.
Import NumFacts BacktesterFacts BacktesterMore Scenarios.

Lemma signals_fetched now db a b :
  ready db -> exists signals, generateSignalsForPeriod now db a b = Ok signals.
Proof.
  intros Hdb. unfold generateSignalsForPeriod, getConvergenceSignals.
  destruct db as [d|]; [|now exists []].
  cbn in Hdb. destruct (data d) as [dt|]; [|easy]. eexists. reflexivity.
Qed.

Lemma runBacktestFromStore_returns now db feed cfg :
  ready db ->
  exists signals,
    runBacktestFromStore now db feed cfg
    = Ok (dates (afterDays feed signals cfg (daysToRun cfg)),
          summarize cfg (afterDays feed signals cfg (daysToRun cfg))).
Proof.
  intros Hdb. unfold runBacktestFromStore.
  destruct (@signals_fetched now db (startDate cfg) (endDate cfg) Hdb)
    as [signals ->].
  exists signals. now rewrite runBacktest_returns.
Qed.

Lemma runPeriods_spec now db feed mc :
  ready db ->
  forall ps acc,
    exists rs,
      runPeriods now db feed mc ps acc = Ok (acc ++ rs)
      /\ Forall2
           (fun p hr =>
              period (snd hr) = Some p
              /\ config (snd hr) = periodConfig mc p
              /\ Forall
                   (fun t =>
                      exitReason t = end_of_test
                      \/ (exitReason t = holding_period
                          /\ (m_holdingPeriodDays mc <= 0)%Z))
                   (trades (snd hr)))
           ps rs.
Proof.
  intros Hdb. induction ps as [|p ps IH]; intros acc; cbn [runPeriods].
  - exists []. now rewrite app_nil_r.
  - destruct (@runBacktestFromStore_returns now db feed (periodConfig mc p) Hdb)
      as [signals ->].
    set (s := afterDays feed signals (periodConfig mc p) _).
    destruct (IH (acc ++ [(dates s, withPeriod (summarize (periodConfig mc p) s) p)]))
      as (rs & -> & Hrs).
    exists ((dates s, withPeriod (summarize (periodConfig mc p) s) p) :: rs).
    split; [now rewrite <- app_assoc|].
    constructor; [|exact Hrs]. cbn [snd withPeriod period config trades summarize].
    repeat split.
    eapply Forall_impl; [|apply trades_sameDay_justified].
    intros t [_ Ht]. unfold justified in Ht. cbn [periodConfig stopLoss takeProfit
      holdingPeriodDays] in Ht.
    destruct (exitReason t); [right; now split| | |now left].
    + destruct Ht as (sl & [=] & _).
    + destruct Ht as (tp & [=] & _).
Qed.

(** X21.  With no database, or an initialized one, [runMultiplePeriods]
    returns one result for each period in the order of the periods; each
    carries its period and a configuration without stop-loss and
    take-profit, so none of its trades is closed as [stop_loss] or
    [take_profit], and none as [holding_period] unless [holdingPeriodDays]
    is 0 or negative. *)
Theorem periods_run_without_stops now db feed mc :
  ready db ->
  exists rs,
    runMultiplePeriods now db feed mc = Ok rs
    /\ Forall2
         (fun p hr =>
            period (snd hr) = Some p
            /\ config (snd hr) = periodConfig mc p
            /\ Forall
                 (fun t =>
                    exitReason t = end_of_test
                    \/ (exitReason t = holding_period
                        /\ (m_holdingPeriodDays mc <= 0)%Z))
                 (trades (snd hr)))
         (periods mc) rs.
Proof.
  intros Hdb. unfold runMultiplePeriods.
  destruct (@runPeriods_spec now db feed mc Hdb (periods mc) []) as (rs & E & H).
  exists rs. now split.
Qed.

Lemma periods_run_without_stops_witness :
  exists rs,
    runMultiplePeriods 0 None rising twoPeriods = Ok rs
    /\ Forall2
         (fun p hr =>
            period (snd hr) = Some p
            /\ config (snd hr) = periodConfig twoPeriods p
            /\ Forall
                 (fun t =>
                    exitReason t = end_of_test
                    \/ (exitReason t = holding_period
                        /\ (m_holdingPeriodDays twoPeriods <= 0)%Z))
                 (trades (snd hr)))
         (periods twoPeriods) rs.
Proof.
  apply (@periods_run_without_stops 0%Z None rising twoPeriods). exact I.
Defined.

(** *** Aggregate statistics *)

Lemma wins_within_trades results w n :
  Forall (fun r => (winningTrades r <= totalTrades r)%nat) results ->
  (w <= n)%nat ->
  (fold_left (fun sum r => (sum + winningTrades r)%nat) results w
   <= fold_left (fun sum r => (sum + totalTrades r)%nat) results n)%nat.
Proof.
  intros H. revert w n. induction H as [|r results Hr H IH]; intros w n Hwn;
    cbn [fold_left]; [exact Hwn|].
  apply IH. lia.
Qed.

(** X22.  For results in each of which the wins do not exceed the trades,
    as in every result of [runBacktest], the overall win rate and the
    consistency score of the aggregate statistics lie between 0 and 1. *)
Theorem aggregate_rates_bounded now feed results :
  Forall (fun r => (winningTrades r <= totalTrades r)%nat) results ->
  let a := calculateAggregateStats now feed results in
  ((ofZ 0 <=? overallWinRate a)%num = true
   /\ (overallWinRate a <=? ofZ 1)%num = true)
  /\ ((ofZ 0 <=? consistencyScore a)%num = true
      /\ (consistencyScore a <=? ofZ 1)%num = true).
Proof.
  intros H a. unfold a, calculateAggregateStats.
  cbn [overallWinRate consistencyScore]. split.
  - destruct (Nat.ltb 0 _) eqn:E; [|split; reflexivity].
    apply Nat.ltb_lt in E. apply ratio_in_unit; [|exact E].
    now apply wins_within_trades.
  - destruct (Nat.ltb 0 (List.length results)) eqn:E; [|split; reflexivity].
    apply Nat.ltb_lt in E. apply ratio_in_unit; [|exact E].
    apply filter_length_le.
Qed.

Lemma aggregate_rates_bounded_witness :
  ((ofZ 0 <=? overallWinRate
                (calculateAggregateStats 0 spyBars [losingResult None]))%num = true
   /\ (overallWinRate (calculateAggregateStats 0 spyBars [losingResult None])
       <=? ofZ 1)%num = true)
  /\ ((ofZ 0 <=? consistencyScore
                   (calculateAggregateStats 0 spyBars [losingResult None]))%num
      = true
      /\ (consistencyScore (calculateAggregateStats 0 spyBars [losingResult None])
          <=? ofZ 1)%num = true).
Proof.
  apply (@aggregate_rates_bounded 0%Z spyBars [losingResult None]).
  constructor; [cbv; lia|constructor].
Defined.

End ReportsMore.

(** ** The queries of the store *)

Module StoreMore.
Import Backtester Database DatabaseQueries.
Import NumFacts DatabaseFacts DetectorFacts DetectorMore BacktesterMore Scenarios.

(** X23.  Saving and querying insider transactions compose: after a save,
    the query for a ticker answers what it answered before, followed by the
    saved transaction with its new id when the transaction was not on file,
    is of that ticker and is dated at or after the cutoff.  Both throw on a
    store that is not initialized. *)
Theorem saved_transaction_found showDate showNum generateId
    now lookbackDays tx tk d :
  match saveInsiderTransaction showDate showNum generateId tx d with
  | Throw _ => data d = None
  | Ok d' =>
      exists dt before,
        data d = Some dt
        /\ getInsiderTransactions now tk lookbackDays d = Ok before
        /\ getInsiderTransactions now tk lookbackDays d'
           = Ok (before
                 ++ if (negb (known (getTransactionKey showDate showNum)
                                (getTransactionKey showDate showNum tx)
                                (insider_transactions dt))
                        && String.eqb (i_ticker tx) tk
                        && (i_transactionDate tx >=? cutoff now lookbackDays)%Z)%bool
                    then [withInsiderId tx (generateId (idsDrawn d))]
                    else [])
  end.
Proof.
  unfold saveInsiderTransaction, getInsiderTransactions, known.
  destruct (data d) as [dt|] eqn:Ed; [|reflexivity]. cbv zeta.
  destruct (existsb _ (insider_transactions dt)) eqn:Ex; cbn [negb];
    exists dt; eexists; (split; [reflexivity|]); (split; [reflexivity|]).
  - rewrite Ed, Ex. cbn [negb andb]. now rewrite app_nil_r.
  - cbn [data insider_transactions]. rewrite Ex, filter_app. cbn [filter negb andb].
    cbn [withInsiderId i_ticker i_transactionDate].
    now destruct (String.eqb (i_ticker tx) tk && _)%bool.
Qed.

(** *** The tickers with activity *)

Lemma addTicker_In k s t : In t (addTicker k s) <-> t = k \/ In t s.
Proof.
  unfold addTicker. destruct (existsb (String.eqb k) s) eqn:E.
  - split; [now right|]. intros [->|H]; [|exact H].
    apply existsb_exists in E. destruct E as (x & Hx & Ex).
    apply String.eqb_eq in Ex. now subst.
  - rewrite in_app_iff. simpl. intuition.
Qed.

Lemma addTicker_NoDup k s : NoDup s -> NoDup (addTicker k s).
Proof.
  intros Hs. unfold addTicker. destruct (existsb (String.eqb k) s) eqn:E;
    [exact Hs|].
  apply NoDup_app; [exact Hs|repeat constructor; easy|].
  intros x Hx [->|[]].
  assert (existsb (String.eqb x) s = true); [|congruence].
  apply existsb_exists. exists x. split; [exact Hx|apply String.eqb_refl].
Qed.

Lemma addTickers_spec {E} (c : E -> bool) (k : E -> string) l s :
  NoDup s ->
  NoDup (fold_left (fun s x => if c x then addTicker (k x) s else s) l s)
  /\ forall t,
       In t (fold_left (fun s x => if c x then addTicker (k x) s else s) l s)
       <-> In t s \/ exists x, In x l /\ c x = true /\ k x = t.
Proof.
  revert s. induction l as [|x l IH]; intros s Hs; cbn [fold_left].
  - split; [exact Hs|]. intros t. split; [now left|].
    now intros [H|(x & [] & _)].
  - destruct (c x) eqn:Ec.
    + destruct (IH (addTicker (k x) s) (addTicker_NoDup _ Hs)) as [Hnd Hin].
      split; [exact Hnd|]. intros t. rewrite Hin, addTicker_In. split.
      * intros [[->|H]|(y & Hy & Hc & Hk)]; [right|now left|right].
        -- exists x. repeat split; [now left|exact Ec].
        -- exists y. repeat split; [now right|exact Hc|exact Hk].
      * intros [H|(y & [<-|Hy] & Hc & Hk)]; [left; now right| |].
        -- left. left. now symmetry.
        -- right. now exists y.
    + destruct (IH s Hs) as [Hnd Hin]. split; [exact Hnd|].
      intros t. rewrite Hin. split.
      * intros [H|(y & Hy & Hc & Hk)]; [now left|right].
        exists y. repeat split; [now right|exact Hc|exact Hk].
      * intros [H|(y & [<-|Hy] & Hc & Hk)]; [now left|congruence|].
        right. now exists y.
Qed.

Lemma isBuy_BUY kind :
  String.eqb (TransactionType_str kind) "BUY" = true <-> kind = BUY.
Proof.
  destruct kind; simpl; split; congruence.
Qed.

Lemma isIncrease_INCREASE c :
  match c with Some INCREASE => true | _ => false end = true
  <-> c = Some INCREASE.
Proof.
  destruct c as [[| | | |]|]; split; congruence.
Qed.

Lemma uniqueTickers_spec now lookbackDays dt :
  NoDup (uniqueTickers now lookbackDays dt)
  /\ forall tk,
       In tk (uniqueTickers now lookbackDays dt)
       <-> (exists tx, In tx (insider_transactions dt)
              /\ i_ticker tx = tk /\ i_transactionType tx = BUY
              /\ (cutoff now lookbackDays <= i_transactionDate tx)%Z)
           \/ (exists tx, In tx (congress_transactions dt)
                 /\ c_ticker tx = tk
                 /\ c_transactionType tx = "PURCHASE"%string
                 /\ (cutoff now lookbackDays <= c_transactionDate tx)%Z)
           \/ (exists h, In h (institutional_holdings dt)
                 /\ h_ticker h = tk /\ h_changeType h = Some INCREASE
                 /\ (cutoff now lookbackDays <= h_filingDate h)%Z).
Proof.
  unfold uniqueTickers.
  set (c := cutoff now lookbackDays).
  destruct (addTickers_spec
              (fun tx => ((i_transactionDate tx >=? c)%Z
                          && String.eqb (TransactionType_str (i_transactionType tx))
                               "BUY")%bool)
              i_ticker (insider_transactions dt) (NoDup_nil _)) as [N1 I1].
  destruct (addTickers_spec
              (fun tx => ((c_transactionDate tx >=? c)%Z
                          && String.eqb (c_transactionType tx) "PURCHASE")%bool)
              c_ticker (congress_transactions dt) N1) as [N2 I2].
  destruct (addTickers_spec
              (fun h => ((h_filingDate h >=? c)%Z
                         && match h_changeType h with
                            | Some INCREASE => true
                            | _ => false
                            end)%bool)
              h_ticker (institutional_holdings dt) N2) as [N3 I3].
  split; [exact N3|]. intros tk. rewrite I3, I2, I1. clear.
  split.
  - intros [[[[]|(tx & Hin & Hc & Hk)]|(tx & Hin & Hc & Hk)]|(h & Hin & Hc & Hk)];
      apply andb_true_iff in Hc; destruct Hc as [Hd Ht]; apply Z.geb_le in Hd.
    + left. exists tx. apply isBuy_BUY in Ht. auto.
    + right. left. exists tx. apply String.eqb_eq in Ht. auto.
    + right. right. exists h. apply isIncrease_INCREASE in Ht. auto.
  - intros [(tx & Hin & Hk & Ht & Hd)|[(tx & Hin & Hk & Ht & Hd)|(h & Hin & Hk & Ht & Hd)]].
    + left. left. right. exists tx. repeat split; [exact Hin| |exact Hk].
      apply andb_true_iff. split; [now apply Z.geb_le|now apply isBuy_BUY].
    + left. right. exists tx. repeat split; [exact Hin| |exact Hk].
      apply andb_true_iff. split; [now apply Z.geb_le|now apply String.eqb_eq].
    + right. exists h. repeat split; [exact Hin| |exact Hk].
      apply andb_true_iff. split; [now apply Z.geb_le|].
      now apply isIncrease_INCREASE.
Qed.

(** X24.  [getUniqueTickersWithActivity] lists every ticker once, and
    lists exactly the tickers of the insider buys, the legislator purchases
    and the increased holdings dated at or after the cutoff.  On a store
    that is not initialized it throws. *)
Theorem unique_tickers_with_activity now lookbackDays d :
  match getUniqueTickersWithActivity now lookbackDays d with
  | Throw _ => data d = None
  | Ok tickers =>
      exists dt,
        data d = Some dt /\ NoDup tickers
        /\ forall tk,
             In tk tickers
             <-> (exists tx, In tx (insider_transactions dt)
                    /\ i_ticker tx = tk /\ i_transactionType tx = BUY
                    /\ (cutoff now lookbackDays <= i_transactionDate tx)%Z)
                 \/ (exists tx, In tx (congress_transactions dt)
                       /\ c_ticker tx = tk
                       /\ c_transactionType tx = "PURCHASE"%string
                       /\ (cutoff now lookbackDays <= c_transactionDate tx)%Z)
                 \/ (exists h, In h (institutional_holdings dt)
                       /\ h_ticker h = tk /\ h_changeType h = Some INCREASE
                       /\ (cutoff now lookbackDays <= h_filingDate h)%Z)
  end.
Proof.
  unfold getUniqueTickersWithActivity.
  destruct (data d) as [dt|]; [|reflexivity].
  exists dt. split; [reflexivity|]. apply uniqueTickers_spec.
Qed.

(** *** Stock prices *)

Lemma pricesOf_assign_same k v m : pricesOf k (assign k v m) = v.
Proof.
  unfold pricesOf. induction m as [|[k' v'] m IH]; simpl.
  - now rewrite String.eqb_refl.
  - destruct (String.eqb k' k) eqn:E; simpl; rewrite E; [reflexivity|exact IH].
Qed.

Lemma pricesOf_assign_other k v m k' :
  k' <> k -> pricesOf k' (assign k v m) = pricesOf k' m.
Proof.
  intros Hne. unfold pricesOf. induction m as [|[k0 v0] m IH]; simpl.
  - replace (String.eqb k k') with false; [reflexivity|].
    symmetry. apply String.eqb_neq. congruence.
  - destruct (String.eqb k0 k) eqn:E; simpl.
    + apply String.eqb_eq in E. subst k0.
      replace (String.eqb k k') with false; [reflexivity|].
      symmetry. apply String.eqb_neq. congruence.
    + destruct (String.eqb k0 k'); [reflexivity|exact IH].
Qed.

(** X26.  Stock prices round-trip through the store: after
    [saveStockPrices] for a ticker, [getStockPrices] for that ticker answers
    the saved bars dated in the range, in their order, whatever was stored
    for the ticker before, and answers for every other ticker as before.
    On a store that is not initialized the save throws. *)
Theorem stock_prices_round_trip tk prices from to st :
  match saveStockPrices tk prices st with
  | Throw _ => data (base st) = None
  | Ok st' =>
      getStockPrices tk from to st'
      = Ok (filter (fun p => ((p_date p >=? from)%Z && (p_date p <=? to)%Z)%bool)
              prices)
      /\ forall tk', tk' <> tk ->
           getStockPrices tk' from to st' = getStockPrices tk' from to st
  end.
Proof.
  unfold saveStockPrices, getStockPrices.
  destruct (data (base st)) as [dt|] eqn:Ed; [|reflexivity].
  cbn [base stock_prices]. rewrite Ed. split.
  - now rewrite pricesOf_assign_same.
  - intros tk' Hne. now rewrite pricesOf_assign_other.
Qed.

(** *** Activity counts *)

Lemma bump_count k m tk :
  countFor tk (bump k m)
  = (countFor tk m + if String.eqb k tk then 1 else 0)%nat.
Proof.
  unfold countFor. induction m as [|[k' n] m IH]; simpl.
  - destruct (String.eqb k tk); reflexivity.
  - destruct (String.eqb k' k) eqn:E; simpl.
    + apply String.eqb_eq in E. subst k'.
      destruct (String.eqb k tk); simpl; lia.
    + destruct (String.eqb k' tk) eqn:E'; simpl; [|exact IH].
      apply String.eqb_eq in E'. subst k'.
      rewrite String.eqb_sym, E. lia.
Qed.

Lemma bump_keys_In k m k' :
  In k' (map fst (bump k m)) <-> k' = k \/ In k' (map fst m).
Proof.
  induction m as [|[k0 n] m IH]; simpl.
  - intuition.
  - destruct (String.eqb k0 k) eqn:E; simpl.
    + apply String.eqb_eq in E. subst k0. intuition.
    + rewrite IH. intuition.
Qed.

Lemma bump_keys_NoDup k m : NoDup (map fst m) -> NoDup (map fst (bump k m)).
Proof.
  induction m as [|[k0 n] m IH]; simpl; intros H.
  - repeat constructor. easy.
  - inversion H as [|? ? Hnotin Hnd]; subst.
    destruct (String.eqb k0 k) eqn:E; simpl; [now constructor|].
    constructor; [|now apply IH].
    rewrite bump_keys_In. intros [->|Hin]; [|easy].
    now rewrite String.eqb_refl in E.
Qed.

Lemma bump_positive k m :
  Forall (fun e => (1 <= snd e)%nat) m ->
  Forall (fun e => (1 <= snd e)%nat) (bump k m).
Proof.
  induction 1 as [|[k0 n] m He Hm IH]; simpl.
  - repeat constructor.
  - destruct (String.eqb k0 k); constructor; simpl in *; auto.
Qed.

Lemma bumps_spec {E} (c : E -> bool) (k : E -> string) l m :
  NoDup (map fst m) -> Forall (fun e => (1 <= snd e)%nat) m ->
  let m' := fold_left (fun m x => if c x then bump (k x) m else m) l m in
  NoDup (map fst m') /\ Forall (fun e => (1 <= snd e)%nat) m'
  /\ forall tk,
       countFor tk m'
       = (countFor tk m
          + List.length (filter (fun x => (c x && String.eqb (k x) tk)%bool) l))%nat.
Proof.
  revert m. induction l as [|x l IH]; intros m Hnd Hpos; cbn [fold_left filter].
  - repeat split; try assumption. intros tk. simpl. lia.
  - destruct (c x) eqn:Ec; cbn [andb].
    + destruct (IH (bump (k x) m) (bump_keys_NoDup _ _ Hnd) (bump_positive _ Hpos))
        as (N & P & C).
      repeat split; try assumption. intros tk. rewrite C, bump_count.
      destruct (String.eqb (k x) tk); simpl; lia.
    + destruct (IH m Hnd Hpos) as (N & P & C). repeat split; assumption.
Qed.

Lemma countFor_In tk n m : NoDup (map fst m) -> In (tk, n) m -> countFor tk m = n.
Proof.
  unfold countFor. induction m as [|[k0 n0] m IH]; simpl; intros Hnd Hin; [easy|].
  inversion Hnd as [|? ? Hnotin Hnd']; subst.
  destruct Hin as [[= -> ->]|Hin].
  - now rewrite String.eqb_refl.
  - destruct (String.eqb k0 tk) eqn:E; [|now apply IH].
    apply String.eqb_eq in E. subst k0. exfalso. apply Hnotin.
    change tk with (fst (tk, n)). now apply in_map.
Qed.

Lemma activityCounts_spec now lookbackDays dt :
  NoDup (map fst (activityCounts now lookbackDays dt))
  /\ Forall (fun e => snd e = activityOf now lookbackDays dt (fst e)
                      /\ (1 <= snd e)%nat)
       (activityCounts now lookbackDays dt).
Proof.
  unfold activityCounts. set (c := cutoff now lookbackDays).
  destruct (@bumps_spec _ (fun tx => (i_transactionDate tx >=? c)%Z) i_ticker
              (insider_transactions dt) [] (NoDup_nil _) (Forall_nil _))
    as (N1 & P1 & C1).
  destruct (@bumps_spec _ (fun tx => (c_transactionDate tx >=? c)%Z) c_ticker
              (congress_transactions dt) _ N1 P1) as (N2 & P2 & C2).
  destruct (@bumps_spec _
              (fun h => ((h_filingDate h >=? c)%Z
                         && match h_changeType h with
                            | Some INCREASE => true
                            | _ => false
                            end)%bool)
              h_ticker (institutional_holdings dt) _ N2 P2) as (N3 & P3 & C3).
  split; [exact N3|].
  apply Forall_forall. intros [tk n] Hin. cbn [fst snd].
  split; [|exact (proj1 (Forall_forall _ _) P3 _ Hin)].
  rewrite <- (@countFor_In tk n _ N3 Hin), C3, C2, C1. reflexivity.
Qed.

Lemma StronglySorted_firstn {A} (R : A -> A -> Prop) n l :
  StronglySorted R l -> StronglySorted R (firstn n l).
Proof.
  intros H. revert n. induction H as [|x l Hs IH Hx]; intros [|n]; simpl;
    try constructor.
  - apply IH.
  - rewrite Forall_forall in *. intros y Hy. apply Hx.
    now apply firstn_subset in Hy.
Qed.

Lemma NoDup_firstn {A} n (l : list A) : NoDup l -> NoDup (firstn n l).
Proof.
  intros H. revert n. induction H as [|x l Hx Hl IH]; intros [|n]; simpl;
    try constructor.
  - intros Hin. apply Hx. now apply firstn_subset in Hin.
  - apply IH.
Qed.

Lemma slice0_keeps {A} (Q : list A -> Prop) (l : list A) n :
  (forall k, Q (firstn k l)) -> Q (slice0 l n).
Proof.
  intros H. unfold slice0. destruct (n <? 0)%Z; apply H.
Qed.

(** X25.  [getTopStocksByActivity] answers tickers in descending order of
    activity count, each ticker once, each with the number of its insider
    and legislator transactions and increased holdings dated at or after
    the cutoff, which is at least 1; with a limit that is not negative it
    answers at most that many.  On a store that is not initialized it
    throws. *)
Theorem top_stocks_ranked now limit lookbackDays d :
  match getTopStocksByActivity now limit lookbackDays d with
  | Throw _ => data d = None
  | Ok top =>
      exists dt,
        data d = Some dt
        /\ StronglySorted (fun a b => (snd b <= snd a)%nat) top
        /\ NoDup (map fst top)
        /\ Forall (fun e => snd e = activityOf now lookbackDays dt (fst e)
                            /\ (1 <= snd e)%nat) top
        /\ ((limit < 0)%Z \/ (Z.of_nat (List.length top) <= limit)%Z)
  end.
Proof.
  unfold getTopStocksByActivity.
  destruct (data d) as [dt|]; [|reflexivity].
  exists dt. split; [reflexivity|].
  destruct (activityCounts_spec now lookbackDays dt) as [Hnd Hall].
  set (m := activityCounts now lookbackDays dt) in *.
  set (after := fun a b : string * nat => Nat.ltb (snd a) (snd b)).
  assert (Hsorted : StronglySorted (fun a b => (snd b <= snd a)%nat)
                      (ConvergenceAnalyzer.sort after m)).
  { apply StronglySorted_weaken
      with (R := fun a b => after a b = false) (good := fun _ => True).
    - intros a b _ _ H. unfold after in H. now apply Nat.ltb_ge in H.
    - apply Forall_forall. auto.
    - apply sort_sorted with (good := fun _ => True).
      + intros x y _ _ H. unfold after in *. apply Nat.ltb_lt in H.
        apply Nat.ltb_ge. lia.
      + intros x y z _ _ _ H1 H2. unfold after in *.
        apply Nat.ltb_ge in H1, H2. apply Nat.ltb_ge. lia.
      + apply Forall_forall. auto. }
  assert (Hperm : Permutation (ConvergenceAnalyzer.sort after m) m)
    by apply sort_perm.
  repeat split.
  - apply slice0_keeps. intros k. now apply StronglySorted_firstn.
  - apply (slice0_keeps (fun l => NoDup (map fst l))). intros k.
    rewrite <- firstn_map. apply NoDup_firstn.
    apply (Permutation_NoDup (l := map fst m)); [|exact Hnd].
    apply Permutation_map. now symmetry.
  - apply slice0_keeps. intros k. apply Forall_forall. intros e He.
    apply firstn_subset in He. apply (Permutation_in _ Hperm) in He.
    rewrite Forall_forall in Hall. now apply Hall.
  - unfold slice0. destruct (limit <? 0)%Z eqn:E;
      [left; now apply Z.ltb_lt in E|right].
    apply Z.ltb_ge in E. rewrite length_firstn. lia.
Qed.

End StoreMore.

(** ** Scoring from the store *)

Module AnalyzerMore.
Import ConvergenceAnalyzer Backtester Database DatabaseQueries Analyzer.
Import NumFacts DetectorFacts DetectorMore BacktesterMore StoreMore.

Lemma detected now i c h s :
  In s (detectConvergence now i c h) ->
  exists k a, signalOf now k a = Some s.
Proof.
  unfold detectConvergence. intros H.
  apply sort_In, collect_In in H. destruct H as [[k a] [_ H]].
  now exists k, a.
Qed.

Lemma scoreStock_spec now d dt tk lookbackDays :
  data d = Some dt ->
  exists sc,
    scoreStock now (Some d) tk lookbackDays = Ok sc
    /\ ss_ticker sc = tk
    /\ (sc = defaultScore tk
        \/ ((overallScore sc >? ofZ 10)%num = true
            /\ (overallScore sc <=? ofZ 100)%num = true)).
Proof.
  intros Ed. unfold scoreStock, getAllActivityForTicker, getInsiderTransactions,
    getCongressTransactions, getInstitutionalHoldings. rewrite Ed.
  cbn [insiderTransactions congressTransactions institutionalHoldings].
  destruct (find _ _) as [s|] eqn:E.
  - exists (scoreOfSignal tk s). split; [reflexivity|]. split; [reflexivity|].
    right. apply find_some in E. destruct E as [Hin _].
    apply detected in Hin. destruct Hin as (k & a & Hs).
    cbn [scoreOfSignal overallScore]. split.
    + now apply signalOf_threshold in Hs.
    + apply signalOf_scores in Hs. destruct Hs as (_ & _ & _ & [_ H] & _).
      exact H.
  - exists (defaultScore tk). repeat split. now left.
Qed.

(** The detector run on the events of one ticker emits at most one signal,
    and for that ticker. *)
Lemma detected_for_ticker now tk i c h :
  Forall (fun tx => i_ticker tx = tk) i ->
  Forall (fun tx => c_ticker tx = tk) c ->
  Forall (fun x => h_ticker x = tk) h ->
  match detectConvergence now i c h with
  | [] => True
  | [s] => ticker s = tk /\ exists k a, signalOf now k a = Some s
  | _ :: _ :: _ => False
  end.
Proof.
  intros Hi Hc Hh.
  assert (Hall : forall s, In s (detectConvergence now i c h) -> ticker s = tk).
  { intros s Hs. unfold detectConvergence in Hs.
    apply sort_In, collect_In in Hs. destruct Hs as [[k a] [Hin Hs]].
    apply signalOf_recent in Hs. destruct Hs as [-> _]. cbn [fst].
    assert (Hk : In k (keys (groupByTicker i c h)))
      by (change k with (fst (k, a)); now apply in_map).
    apply groupByTicker_keys_In in Hk.
    rewrite Forall_forall in Hi, Hc, Hh.
    destruct Hk as [Hk|[Hk|Hk]]; apply in_map_iff in Hk;
      destruct Hk as (x & <- & Hx); auto. }
  assert (Hnd : NoDup (map ticker (detectConvergence now i c h))).
  { unfold detectConvergence.
    apply Permutation_NoDup
      with (l := map ticker
                   (collect (fun e => signalOf now (fst e) (snd e))
                      (groupByTicker i c h))).
    - apply Permutation_map. symmetry. apply sort_perm.
    - apply collect_keys_NoDup, groupByTicker_NoDup. }
  destruct (detectConvergence now i c h) as [|s [|s' l]] eqn:E; [exact I| |].
  - split; [apply Hall; now left|].
    assert (Hs : In s (detectConvergence now i c h)) by (rewrite E; now left).
    now apply detected in Hs.
  - cbn [map] in Hnd. inversion Hnd as [|? ? Hnotin _]; subst.
    apply Hnotin. left.
    rewrite (Hall s' (or_intror (or_introl eq_refl))).
    now rewrite (Hall s (or_introl eq_refl)).
Qed.

(** X27.  [scoreStock] answers the all-zero default score without a
    database.  With an initialized one it runs the detector on the events of
    the ticker dated at or after the cutoff: when the detector emits no
    signal, it answers the default score, and otherwise the detector emits
    exactly one signal, which is for the ticker, and the answer carries the
    scores of that signal, with an overall score above 10 and at most 100.
    With a database that is not initialized it throws. *)
Theorem scoreStock_zero_or_above_floor now db tk lookbackDays :
  match db with
  | None => scoreStock now db tk lookbackDays = Ok (defaultScore tk)
  | Some d =>
      match data d with
      | None =>
          scoreStock now db tk lookbackDays = Throw "Database not initialized"
      | Some dt =>
          match
            detectConvergence now
              (filter (fun tx =>
                         (String.eqb (i_ticker tx) tk
                          && (i_transactionDate tx >=? cutoff now lookbackDays)%Z)%bool)
                 (insider_transactions dt))
              (filter (fun tx =>
                         (String.eqb (c_ticker tx) tk
                          && (c_transactionDate tx >=? cutoff now lookbackDays)%Z)%bool)
                 (congress_transactions dt))
              (filter (fun h =>
                         (String.eqb (h_ticker h) tk
                          && (h_filingDate h >=? cutoff now lookbackDays)%Z)%bool)
                 (institutional_holdings dt))
          with
          | [] => scoreStock now db tk lookbackDays = Ok (defaultScore tk)
          | [s] =>
              scoreStock now db tk lookbackDays = Ok (scoreOfSignal tk s)
              /\ ticker s = tk
              /\ (overallScore (scoreOfSignal tk s) >? ofZ 10)%num = true
              /\ (overallScore (scoreOfSignal tk s) <=? ofZ 100)%num = true
          | _ :: _ :: _ => False
          end
      end
  end.
Proof.
  destruct db as [d|]; [|reflexivity].
  unfold scoreStock, getAllActivityForTicker, getInsiderTransactions,
    getCongressTransactions, getInstitutionalHoldings, notInitialized.
  destruct (data d) as [dt|]; [|reflexivity].
  cbn [insiderTransactions congressTransactions institutionalHoldings].
  set (i := filter _ (insider_transactions dt)).
  set (c := filter _ (congress_transactions dt)).
  set (h := filter _ (institutional_holdings dt)).
  assert (Hi : Forall (fun tx => i_ticker tx = tk) i).
  { apply Forall_forall. intros x Hx. apply filter_In in Hx.
    destruct Hx as [_ Hx]. apply andb_true_iff in Hx.
    now apply String.eqb_eq. }
  assert (Hc : Forall (fun tx => c_ticker tx = tk) c).
  { apply Forall_forall. intros x Hx. apply filter_In in Hx.
    destruct Hx as [_ Hx]. apply andb_true_iff in Hx.
    now apply String.eqb_eq. }
  assert (Hh : Forall (fun x => h_ticker x = tk) h).
  { apply Forall_forall. intros x Hx. apply filter_In in Hx.
    destruct Hx as [_ Hx]. apply andb_true_iff in Hx.
    now apply String.eqb_eq. }
  pose proof (@detected_for_ticker now tk i c h Hi Hc Hh) as Hd.
  destruct (detectConvergence now i c h) as [|s [|s' l]]; [reflexivity| |exact Hd].
  destruct Hd as (Etk & k & a & Hs).
  cbn [find]. rewrite Etk, String.eqb_refl.
  repeat split; cbn [scoreOfSignal overallScore].
  - now apply signalOf_threshold in Hs.
  - apply signalOf_scores in Hs. destruct Hs as (_ & _ & _ & [_ H] & _).
    exact H.
Qed.

Lemma score_finite sc tk :
  sc = defaultScore tk
  \/ ((overallScore sc >? ofZ 10)%num = true
      /\ (overallScore sc <=? ofZ 100)%num = true) ->
  is_fin (overallScore sc) = true.
Proof.
  intros [->|[H1 H2]]; [reflexivity|].
  destruct (overallScore sc); try discriminate; reflexivity.
Qed.

Lemma scoreAll_spec now d dt lookbackDays minScore tickers :
  data d = Some dt ->
  forall acc,
    exists new,
      scoreAll now (Some d) lookbackDays minScore tickers acc = Ok (acc ++ new)
      /\ Forall (fun sc => (overallScore sc >=? minScore)%num = true
                           /\ is_fin (overallScore sc) = true
                           /\ In (ss_ticker sc) tickers) new
      /\ (NoDup tickers -> NoDup (map ss_ticker new)).
Proof.
  intros Ed. induction tickers as [|tk tickers IH]; intros acc; cbn [scoreAll].
  - exists []. rewrite app_nil_r. repeat split; constructor.
  - destruct (@scoreStock_spec now d dt tk lookbackDays Ed) as (sc & -> & Etk & Hsc).
    destruct (overallScore sc >=? minScore)%num eqn:Emin.
    + destruct (IH (acc ++ [sc])) as (new & -> & Hnew & Hnd).
      exists (sc :: new). rewrite <- app_assoc. split; [reflexivity|]. split.
      * constructor.
        -- repeat split; [exact Emin|now apply score_finite with tk|].
           left. now symmetry.
        -- eapply Forall_impl; [|exact Hnew]. intros x (H1 & H2 & H3).
           repeat split; try assumption. now right.
      * intros Hdist. inversion Hdist as [|? ? Hnotin Hdist']; subst.
        cbn [map]. constructor; [|now apply Hnd].
        intros Hin. apply in_map_iff in Hin. destruct Hin as (x & Ex & Hx).
        rewrite Forall_forall in Hnew. destruct (Hnew _ Hx) as (_ & _ & Hx').
        apply Hnotin. now rewrite <- Ex.
    + destruct (IH acc) as (new & -> & Hnew & Hnd).
      exists new. split; [reflexivity|]. split.
      * eapply Forall_impl; [|exact Hnew]. intros x (H1 & H2 & H3).
        repeat split; try assumption. now right.
      * intros Hdist. inversion Hdist; subst. now apply Hnd.
Qed.

(** X28.  [getTopPicks] answers no picks without a database.  With an
    initialized one it answers scores in descending order of overall
    score, each reaching [minScore], for pairwise different tickers, all of
    them tickers that [getUniqueTickersWithActivity] lists; with a limit
    that is not negative it answers at most that many.  It throws only with
    a database that is not initialized. *)
Theorem top_picks_ranked now db limit lookbackDays minScore :
  match getTopPicks now db limit lookbackDays minScore with
  | Throw _ => exists d, db = Some d /\ data d = None
  | Ok picks =>
      match db with
      | None => picks = []
      | Some d =>
          StronglySorted
            (fun a b => (overallScore b <=? overallScore a)%num = true) picks
          /\ Forall (fun sc => (overallScore sc >=? minScore)%num = true) picks
          /\ NoDup (map ss_ticker picks)
          /\ (forall sc, In sc picks ->
                exists tickers,
                  getUniqueTickersWithActivity now lookbackDays d = Ok tickers
                  /\ In (ss_ticker sc) tickers)
          /\ ((limit < 0)%Z \/ (Z.of_nat (List.length picks) <= limit)%Z)
      end
  end.
Proof.
  destruct db as [d|]; [|reflexivity]. unfold getTopPicks.
  unfold getUniqueTickersWithActivity.
  destruct (data d) as [dt|] eqn:Ed; [|now exists d].
  destruct (uniqueTickers_spec now lookbackDays dt) as [Hnd _].
  set (tickers := uniqueTickers now lookbackDays dt) in *.
  destruct (@scoreAll_spec now d dt lookbackDays minScore tickers Ed [])
    as (scores & -> & Hall & Hdist).
  cbn [app]. specialize (Hdist Hnd).
  set (after := fun a b : StockScore =>
                  (overallScore b - overallScore a >? ofZ 0)%num).
  assert (Hperm : Permutation (ConvergenceAnalyzer.sort after scores) scores)
    by apply sort_perm.
  repeat split.
  - apply slice0_keeps. intros k. apply StronglySorted_firstn.
    apply (sort_by_score_sorted overallScore).
    eapply Forall_impl; [|exact Hall]. now intros x (_ & H & _).
  - apply slice0_keeps. intros k. apply Forall_forall. intros sc Hsc.
    apply firstn_subset in Hsc. apply (Permutation_in _ Hperm) in Hsc.
    rewrite Forall_forall in Hall. now destruct (Hall _ Hsc).
  - apply (slice0_keeps (fun l => NoDup (map ss_ticker l))). intros k.
    rewrite <- firstn_map. apply NoDup_firstn.
    apply (Permutation_NoDup (l := map ss_ticker scores)); [|exact Hdist].
    apply Permutation_map. now symmetry.
  - intros sc Hsc. exists tickers. split; [reflexivity|].
    unfold slice0 in Hsc.
    assert (Hin : In sc scores).
    { apply (Permutation_in _ Hperm).
      destruct (limit <? 0)%Z; now apply firstn_subset in Hsc. }
    rewrite Forall_forall in Hall. now destruct (Hall _ Hin) as (_ & _ & H).
  - unfold slice0. destruct (limit <? 0)%Z eqn:E;
      [left; now apply Z.ltb_lt in E|right].
    apply Z.ltb_ge in E. rewrite length_firstn. lia.
Qed.

End AnalyzerMore.

(** ** Time-decay weights *)

Module TimeDecayMore.
Import TimeDecay NumFacts.

Lemma age_within d1 d2 k :
  (d1 <=? d2)%num = true -> (d2 <=? k)%num = true -> (d1 <=? k)%num = true.
Proof.
  intros H1 H2. now apply leb_trans with d2.
Qed.

(** X29.  The time-decay weights never grow with the age of a trade: an
    older insider trade weighs at most what a newer one does, and so does an
    older legislator trade, for elite traders and for the others. *)
Theorem time_decay_antitone d1 d2 isEliteTrader :
  (d1 <=? d2)%num = true ->
  (getInsiderTimeDecayWeight d2 <=? getInsiderTimeDecayWeight d1)%num = true
  /\ (getCongressTimeDecayWeight d2 isEliteTrader
      <=? getCongressTimeDecayWeight d1 isEliteTrader)%num = true.
Proof.
  intros H.
  pose proof (fun k => @age_within d1 d2 k H) as Hup.
  split.
  - unfold getInsiderTimeDecayWeight.
    destruct (d2 <=? ofZ 5)%num eqn:E1.
    { now rewrite (Hup _ E1). }
    destruct (d2 <=? ofZ 14)%num eqn:E2.
    { rewrite (Hup _ E2). now destruct (d1 <=? ofZ 5)%num. }
    destruct (d2 <=? ofZ 30)%num eqn:E3.
    { rewrite (Hup _ E3).
      now destruct (d1 <=? ofZ 5)%num, (d1 <=? ofZ 14)%num. }
    destruct (d2 <=? ofZ 60)%num eqn:E4.
    { rewrite (Hup _ E4).
      now destruct (d1 <=? ofZ 5)%num, (d1 <=? ofZ 14)%num, (d1 <=? ofZ 30)%num. }
    destruct (d2 <=? ofZ 90)%num eqn:E5.
    { rewrite (Hup _ E5).
      now destruct (d1 <=? ofZ 5)%num, (d1 <=? ofZ 14)%num, (d1 <=? ofZ 30)%num,
        (d1 <=? ofZ 60)%num. }
    destruct (d2 <=? ofZ 180)%num eqn:E6.
    { rewrite (Hup _ E6).
      now destruct (d1 <=? ofZ 5)%num, (d1 <=? ofZ 14)%num, (d1 <=? ofZ 30)%num,
        (d1 <=? ofZ 60)%num, (d1 <=? ofZ 90)%num. }
    now destruct (d1 <=? ofZ 5)%num, (d1 <=? ofZ 14)%num, (d1 <=? ofZ 30)%num,
      (d1 <=? ofZ 60)%num, (d1 <=? ofZ 90)%num, (d1 <=? ofZ 180)%num.
  - unfold getCongressTimeDecayWeight.
    destruct (d2 <=? ofZ 14)%num eqn:E1.
    { rewrite (Hup _ E1). now destruct isEliteTrader. }
    destruct (d2 <=? ofZ 30)%num eqn:E2.
    { rewrite (Hup _ E2). now destruct isEliteTrader, (d1 <=? ofZ 14)%num. }
    destruct (d2 <=? ofZ 45)%num eqn:E3.
    { rewrite (Hup _ E3).
      now destruct isEliteTrader, (d1 <=? ofZ 14)%num, (d1 <=? ofZ 30)%num. }
    destruct (d2 <=? ofZ 60)%num eqn:E4.
    { rewrite (Hup _ E4).
      now destruct isEliteTrader, (d1 <=? ofZ 14)%num, (d1 <=? ofZ 30)%num,
        (d1 <=? ofZ 45)%num. }
    destruct (d2 <=? ofZ 90)%num eqn:E5.
    { rewrite (Hup _ E5).
      now destruct isEliteTrader, (d1 <=? ofZ 14)%num, (d1 <=? ofZ 30)%num,
        (d1 <=? ofZ 45)%num, (d1 <=? ofZ 60)%num. }
    now destruct isEliteTrader, (d1 <=? ofZ 14)%num, (d1 <=? ofZ 30)%num,
      (d1 <=? ofZ 45)%num, (d1 <=? ofZ 60)%num, (d1 <=? ofZ 90)%num.
Qed.

Lemma time_decay_antitone_witness :
  (getInsiderTimeDecayWeight (ofZ 40) <=? getInsiderTimeDecayWeight (ofZ 3))%num
  = true
  /\ (getCongressTimeDecayWeight (ofZ 40) true
      <=? getCongressTimeDecayWeight (ofZ 3) true)%num = true.
Proof.
  apply (@time_decay_antitone (ofZ 3) (ofZ 40) true). reflexivity.
Defined.

End TimeDecayMore.

(** ** Sizing a buy *)

Module AutoTraderMore.
Import AutoTrader NumFacts Scenarios.

Lemma min_spec a b :
  (min (Fin a) (Fin b) = Fin a /\ a <= b)
  \/ (min (Fin a) (Fin b) = Fin b /\ b < a).
Proof.
  unfold min, cmp. destruct (a ?= b) eqn:E.
  - apply Qeq_alt in E. left. split; [reflexivity|lra].
  - apply Qlt_alt in E. left. split; [reflexivity|lra].
  - apply Qgt_alt in E. right. split; [reflexivity|lra].
Qed.

(** X30.  With a finite equity that is not negative, a finite cash balance
    and a finite confidence, [executePick] either skips without an amount or
    buys for the smaller of the position size and the available cash as it
    computes them: an amount that is at most [equity * 0.10] and at most
    [cash - 1000], and that is at least 100 whenever it is not the position
    size the confidence asks for.  It buys only with the market open, the
    ticker not held and fewer than 20 positions open. *)
Theorem executePick_sizing b tk confidence e c q :
  equity b = Fin e -> cash b = Fin c -> confidence = Fin q -> 0 <= e ->
  match amount (executePick b tk confidence) with
  | None => action (executePick b tk confidence) = skip
  | Some a =>
      action (executePick b tk confidence) = buy
      /\ isMarketOpen b = true /\ hasPosition b = false
      /\ (positionCount b < CONFIG.MAX_POSITIONS)%nat
      /\ a = min (equity b * CONFIG.MAX_POSITION_PERCENT
                  * min (confidence / ofZ 100) (ofZ 1))%num
               (cash b - CONFIG.MIN_CASH_RESERVE)%num
      /\ (a <=? equity b * CONFIG.MAX_POSITION_PERCENT)%num = true
      /\ (a <=? cash b - CONFIG.MIN_CASH_RESERVE)%num = true
      /\ (a = (equity b * CONFIG.MAX_POSITION_PERCENT
               * min (confidence / ofZ 100) (ofZ 1))%num
          \/ (ofZ 100 <=? a)%num = true)
  end.
Proof.
  intros Ee Ec Eq He. unfold executePick.
  destruct (isMarketOpen b); [|reflexivity]. cbn [negb].
  destruct (hasPosition b); [reflexivity|].
  destruct (Nat.leb CONFIG.MAX_POSITIONS (positionCount b)) eqn:En; [reflexivity|].
  apply Nat.leb_gt in En.
  rewrite Ee, Ec, Eq.
  change (Fin q / ofZ 100)%num with (Fin (q / inject_Z 100)).
  change (ofZ 1) with (Fin 1).
  assert (Econf : exists m, min (Fin (q / inject_Z 100)) (Fin 1) = Fin m /\ m <= 1).
  { destruct (min_spec (q / inject_Z 100) 1) as [[E H]|[E H]];
      rewrite E; eexists; (split; [reflexivity|lra]). }
  destruct Econf as (m & -> & Hm).
  change (Fin e * CONFIG.MAX_POSITION_PERCENT)%num with (Fin (e * (10 # 100))).
  change (Fin (e * (10 # 100)) * Fin m)%num with (Fin (e * (10 # 100) * m)).
  change (Fin c - CONFIG.MIN_CASH_RESERVE)%num with (Fin (c + - inject_Z 1000)).
  set (size := e * (10 # 100) * m). set (avail := c + - inject_Z 1000).
  assert (Hsize : size <= e * (10 # 100)) by (unfold size; nra).
  destruct ((Fin avail <? Fin size)%num && (Fin avail <? ofZ 100)%num)%bool eqn:Eskip;
    [reflexivity|].
  cbn [amount action].
  destruct (min_spec size avail) as [[E H]|[E H]]; rewrite E.
  - repeat split; try assumption; try (apply leb_Fin; lra). now left.
  - repeat split; try assumption; try (apply leb_Fin; lra). right.
    apply andb_false_iff in Eskip. destruct Eskip as [Hlt|Hlt].
    + apply ltb_Fin in H. congruence.
    + apply leb_Fin. change (inject_Z 100) with 100.
      destruct (Qlt_le_dec avail 100) as [Hlt'|Hge]; [|exact Hge].
      assert ((Fin avail <? ofZ 100)%num = true); [|congruence].
      apply ltb_Fin. exact Hlt'.
Qed.

Lemma executePick_sizing_witness :
  match amount (executePick openBroker "NVDA" (ofZ 80)) with
  | None => action (executePick openBroker "NVDA" (ofZ 80)) = skip
  | Some a =>
      action (executePick openBroker "NVDA" (ofZ 80)) = buy
      /\ isMarketOpen openBroker = true /\ hasPosition openBroker = false
      /\ (positionCount openBroker < CONFIG.MAX_POSITIONS)%nat
      /\ a = min (equity openBroker * CONFIG.MAX_POSITION_PERCENT
                  * min (ofZ 80 / ofZ 100) (ofZ 1))%num
               (cash openBroker - CONFIG.MIN_CASH_RESERVE)%num
      /\ (a <=? equity openBroker * CONFIG.MAX_POSITION_PERCENT)%num = true
      /\ (a <=? cash openBroker - CONFIG.MIN_CASH_RESERVE)%num = true
      /\ (a = (equity openBroker * CONFIG.MAX_POSITION_PERCENT
               * min (ofZ 80 / ofZ 100) (ofZ 1))%num
          \/ (ofZ 100 <=? a)%num = true)
  end.
Proof.
  apply (@executePick_sizing openBroker "NVDA" (ofZ 80)
           (inject_Z 50000) (inject_Z 3000) (inject_Z 80));
    try reflexivity.
  vm_compute. discriminate.
Defined.

End AutoTraderMore.
